(** * load-fmi-data: a model of [fmi.py] and its specification

    The module [fmi.py] loads weather observations and forecasts from the
    FMI open data service.  This file embeds its functions in Rocq and
    settles the properties that the specification states about them.

    Layout:
    - the Python values the module handles (exceptions, [datetime],
      [timedelta], values of optional arguments, dictionaries of query
      parameters), with the arithmetic of the standard [datetime] module
      written out as CPython has it;
    - the collaborators outside the module (the WFS service, pandas) as an
      interface, and the functions of [fmi.py], one definition per function;
    - the vocabulary in which the properties are stated;
    - a theory of the calendar, of datetime arithmetic and of the functions;
    - the properties of the specification. *)

From Stdlib Require Import ZArith Lia List Ascii String Bool.
From stdpp Require Import base option list strings pretty gmap.

Local Open Scope string_scope.
Local Open Scope Z_scope.

(* ===================================================================== *)
(** * Python values                                                       *)
(* ===================================================================== *)

(** Exceptions that the module or the libraries under it can raise.
    [ExternalError] stands for whatever the transport raises. *)
Inductive exn : Type :=
| ValueError (msg : string)
| TypeError (msg : string)
| OverflowError (msg : string)
| AttributeError (msg : string)
| ExternalError (msg : string).

(** The outcome of a call: a value or a raised exception. *)
Inductive result (A : Type) : Type :=
| Ok (v : A)
| Raise (e : exn).
Arguments Ok {A} v.
Arguments Raise {A} e.

Definition rbind {A B} (r : result A) (k : A -> result B) : result B :=
  match r with
  | Ok v => k v
  | Raise e => Raise e
  end.

#[global] Instance result_ret : MRet result := fun A v => Ok v.
#[global] Instance result_bind : MBind result :=
  fun A B k r => rbind r k.

Definition is_ValueError {A} (r : result A) : Prop :=
  exists msg, r = Raise (ValueError msg).

(* ===================================================================== *)
(** * The [datetime] module                                               *)
(* ===================================================================== *)

(** Naive [datetime] objects (no [tzinfo]: the module never attaches one),
    [date] objects and normalised [timedelta] objects. *)
Record datetime : Type := mkdatetime {
  year : Z; month : Z; day : Z;
  hour : Z; minute : Z; second : Z; microsecond : Z }.

Record date : Type := mkdate { dyear : Z; dmonth : Z; dday : Z }.

Record timedelta : Type := mktimedelta {
  days : Z; seconds : Z; microseconds : Z }.

Module Calendar.

Definition MINYEAR : Z := 1.
Definition MAXYEAR : Z := 9999.
Definition _MAXORDINAL : Z := 3652059.

Definition _DAYS_IN_MONTH : list Z :=
  [-1; 31; 28; 31; 30; 31; 30; 31; 31; 30; 31; 30; 31].

Definition _DAYS_BEFORE_MONTH : list Z :=
  [-1; 0; 31; 59; 90; 120; 151; 181; 212; 243; 273; 304; 334].

Definition index (l : list Z) (i : Z) : Z := nth (Z.to_nat i) l 0.

Definition _is_leap (y : Z) : bool :=
  (y mod 4 =? 0) && (negb (y mod 100 =? 0) || (y mod 400 =? 0)).

Definition _days_before_year (y : Z) : Z :=
  let y := y - 1 in
  y * 365 + y / 4 - y / 100 + y / 400.

Definition _days_in_month (y m : Z) : Z :=
  if (m =? 2) && _is_leap y then 29 else index _DAYS_IN_MONTH m.

Definition _days_before_month (y m : Z) : Z :=
  index _DAYS_BEFORE_MONTH m + (if (2 <? m) && _is_leap y then 1 else 0).

Definition _ymd2ord (y m d : Z) : Z :=
  _days_before_year y + _days_before_month y m + d.

Definition _DI400Y : Z := 146097.
Definition _DI100Y : Z := 36524.
Definition _DI4Y : Z := 1461.

Definition _ord2ymd (n : Z) : Z * Z * Z :=
  let n := n - 1 in
  let n400 := n / _DI400Y in
  let n := n mod _DI400Y in
  let year := n400 * 400 + 1 in
  let n100 := n / _DI100Y in
  let n := n mod _DI100Y in
  let n4 := n / _DI4Y in
  let n := n mod _DI4Y in
  let n1 := n / 365 in
  let n := n mod 365 in
  let year := year + n100 * 100 + n4 * 4 + n1 in
  if (n1 =? 4) || (n100 =? 4) then (year - 1, 12, 31)
  else
    let leapyear := (n1 =? 3) && (negb (n4 =? 24) || (n100 =? 3)) in
    let month := Z.shiftr (n + 50) 5 in
    let preceding :=
      index _DAYS_BEFORE_MONTH month
      + (if (2 <? month) && leapyear then 1 else 0) in
    if n <? preceding then
      let month := month - 1 in
      let preceding :=
        preceding - (index _DAYS_IN_MONTH month
                     + (if (month =? 2) && leapyear then 1 else 0)) in
      (year, month, n - preceding + 1)
    else (year, month, n - preceding + 1).

(** The checks of the [date] and [time] constructors. *)
Definition check_date_fields (y m d : Z) : result unit :=
  if negb ((MINYEAR <=? y) && (y <=? MAXYEAR)) then
    Raise (ValueError "year is out of range")
  else if negb ((1 <=? m) && (m <=? 12)) then
    Raise (ValueError "month must be in 1..12")
  else if negb ((1 <=? d) && (d <=? _days_in_month y m)) then
    Raise (ValueError "day is out of range for month")
  else Ok tt.

End Calendar.
Import Calendar.

(** What the constructors guarantee of every object. *)
Definition valid_date (y m d : Z) : Prop :=
  MINYEAR <= y <= MAXYEAR /\ 1 <= m <= 12 /\ 1 <= d <= _days_in_month y m.

Definition valid_datetime (dt : datetime) : Prop :=
  valid_date (year dt) (month dt) (day dt)
  /\ 0 <= hour dt < 24 /\ 0 <= minute dt < 60 /\ 0 <= second dt < 60
  /\ 0 <= microsecond dt < 1000000.

Definition valid_dateobj (d : date) : Prop :=
  valid_date (dyear d) (dmonth d) (dday d).

(** [timedelta(days, seconds, microseconds)]: the constructor normalises
    its arguments and refuses more than 999999999 days either way. *)
Definition timedelta_new (d s us : Z) : result timedelta :=
  let s := s + us / 1000000 in
  let us := us mod 1000000 in
  let d := d + s / 86400 in
  let s := s mod 86400 in
  if (-999999999 <=? d) && (d <=? 999999999) then Ok (mktimedelta d s us)
  else Raise (OverflowError "days; must have magnitude <= 999999999").

Definition timedelta_days (d : Z) : result timedelta := timedelta_new d 0 0.
Definition timedelta_hours (h : Z) : result timedelta :=
  timedelta_new 0 (h * 3600) 0.

(** [timedelta.total_seconds()], kept in microseconds. *)
Definition total_microseconds (td : timedelta) : Z :=
  (days td * 86400 + seconds td) * 1000000 + microseconds td.

Definition toordinal (dt : datetime) : Z :=
  _ymd2ord (year dt) (month dt) (day dt).

Definition seconds_of_day (dt : datetime) : Z :=
  hour dt * 3600 + minute dt * 60 + second dt.

(** [datetime.__add__]. *)
Definition dt_add (dt : datetime) (td : timedelta) : result datetime :=
  delta ← timedelta_new (toordinal dt + days td)
                         (seconds_of_day dt + seconds td)
                         (microsecond dt + microseconds td);
  if (0 <? days delta) && (days delta <=? _MAXORDINAL) then
    let '(y, m, d) := _ord2ymd (days delta) in
    let h := seconds delta / 3600 in
    let rem := seconds delta mod 3600 in
    Ok (mkdatetime y m d h (rem / 60) (rem mod 60) (microseconds delta))
  else Raise (OverflowError "date value out of range").

(** [datetime - timedelta] is [datetime + (-timedelta)]. *)
Definition dt_sub (dt : datetime) (td : timedelta) : result datetime :=
  neg ← timedelta_new (- days td) (- seconds td) (- microseconds td);
  dt_add dt neg.

(** [datetime - datetime]. *)
Definition dt_diff (a b : datetime) : result timedelta :=
  timedelta_new (toordinal a - toordinal b)
                (seconds_of_day a - seconds_of_day b)
                (microsecond a - microsecond b).

(** Comparison of naive datetimes: the tuples of fields, in order. *)
Definition dt_fields (dt : datetime) : list Z :=
  [year dt; month dt; day dt; hour dt; minute dt; second dt; microsecond dt].

Fixpoint lex_cmp (a b : list Z) : comparison :=
  match a, b with
  | x :: a', y :: b' =>
      match x ?= y with
      | Eq => lex_cmp a' b'
      | c => c
      end
  | [], [] => Eq
  | [], _ :: _ => Lt
  | _ :: _, [] => Gt
  end.

Definition dt_cmp (a b : datetime) : comparison :=
  lex_cmp (dt_fields a) (dt_fields b).

Definition dt_ltb (a b : datetime) : bool :=
  match dt_cmp a b with Lt => true | _ => false end.

(** [min(a, b)]: the first argument unless the second is smaller. *)
Definition dt_min (a b : datetime) : datetime :=
  if dt_ltb b a then b else a.

(** [datetime.combine(d, datetime.min.time())] and
    [datetime.combine(d, datetime.max.time())]. *)
Definition combine_min (d : date) : datetime :=
  mkdatetime (dyear d) (dmonth d) (dday d) 0 0 0 0.

Definition combine_max (d : date) : datetime :=
  mkdatetime (dyear d) (dmonth d) (dday d) 23 59 59 999999.

Definition date_of (dt : datetime) : date :=
  mkdate (year dt) (month dt) (day dt).

(** [dt.replace(day=d)]: a new object, so the constructor checks again. *)
Definition replace_day (dt : datetime) (d : Z) : result datetime :=
  _ ← check_date_fields (year dt) (month dt) d;
  Ok (mkdatetime (year dt) (month dt) d
                 (hour dt) (minute dt) (second dt) (microsecond dt)).

(** [dt.replace(microsecond=0, second=0)]. *)
Definition replace_sec0 (dt : datetime) : datetime :=
  mkdatetime (year dt) (month dt) (day dt) (hour dt) (minute dt) 0 0.

(** [datetime.isoformat()]: [YYYY-MM-DDTHH:MM:SS], with the microseconds
    only when there are some. *)
Definition zfill (width : nat) (n : Z) : string :=
  let s := pretty n in
  String.concat "" (replicate (width - String.length s) "0") +:+ s.

Definition isoformat (dt : datetime) : string :=
  zfill 4 (year dt) +:+ "-" +:+ zfill 2 (month dt) +:+ "-" +:+ zfill 2 (day dt)
  +:+ "T" +:+ zfill 2 (hour dt) +:+ ":" +:+ zfill 2 (minute dt)
  +:+ ":" +:+ zfill 2 (second dt)
  +:+ (if microsecond dt =? 0 then "" else "." +:+ zfill 6 (microsecond dt)).

(** [datetime.strptime(s, "%Y-%m-%d")], on ASCII text.  The format compiles
    to the regular expression
    [(\d\d\d\d)-(1[0-2]|0[1-9]|[1-9])-(3[01]|[12]\d|0[1-9]|[1-9]| [1-9])],
    matched at the start of [s]; text left over and field values that make
    no date are refused. *)
Module Strptime.

Definition digit (c : ascii) : option Z :=
  let n := Z.of_nat (nat_of_ascii c) in
  if (48 <=? n) && (n <=? 57) then Some (n - 48) else None.

Definition digit_in (lo hi : Z) (c : ascii) : option Z :=
  match digit c with
  | Some v => if (lo <=? v) && (v <=? hi) then Some v else None
  | None => None
  end.

Definition is_char (c : ascii) (x : ascii) : bool :=
  Ascii.eqb c x.

(** [(\d\d\d\d)-] *)
Definition match_Y (s : list ascii) : option (Z * list ascii) :=
  match s with
  | a :: b :: c :: d :: dash :: rest =>
      match digit a, digit b, digit c, digit d with
      | Some a, Some b, Some c, Some d =>
          if is_char "-" dash
          then Some (1000 * a + 100 * b + 10 * c + d, rest) else None
      | _, _, _, _ => None
      end
  | _ => None
  end.

(** [(1[0-2]|0[1-9]|[1-9])-]: the alternatives in order, each one having
    to be followed by the dash. *)
Definition match_m (s : list ascii) : option (Z * list ascii) :=
  let two lead lo hi s :=
    match s with
    | a :: b :: dash :: rest =>
        match digit_in lead lead a, digit_in lo hi b with
        | Some a, Some b =>
            if is_char "-" dash then Some (10 * a + b, rest) else None
        | _, _ => None
        end
    | _ => None
    end in
  let one s :=
    match s with
    | a :: dash :: rest =>
        match digit_in 1 9 a with
        | Some a => if is_char "-" dash then Some (a, rest) else None
        | None => None
        end
    | _ => None
    end in
  match two 1 0 2 s with
  | Some r => Some r
  | None =>
      match two 0 1 9 s with
      | Some r => Some r
      | None => one s
      end
  end.

(** [(3[01]|[12]\d|0[1-9]|[1-9]| [1-9])]: the first alternative that
    matches. *)
Definition match_d (s : list ascii) : option (Z * list ascii) :=
  let two lo1 hi1 lo2 hi2 s :=
    match s with
    | a :: b :: rest =>
        match digit_in lo1 hi1 a, digit_in lo2 hi2 b with
        | Some a, Some b => Some (10 * a + b, rest)
        | _, _ => None
        end
    | _ => None
    end in
  match two 3 3 0 1 s with
  | Some r => Some r
  | None =>
  match two 1 2 0 9 s with
  | Some r => Some r
  | None =>
  match two 0 0 1 9 s with
  | Some r => Some r
  | None =>
  match s with
  | a :: rest =>
      match digit_in 1 9 a with
      | Some a => Some (a, rest)
      | None =>
          if is_char " " a then
            match rest with
            | b :: rest' =>
                match digit_in 1 9 b with
                | Some b => Some (b, rest')
                | None => None
                end
            | [] => None
            end
          else None
      end
  | [] => None
  end end end end.

Definition no_match (s : string) : exn :=
  ValueError ("time data '" +:+ s +:+ "' does not match format '%Y-%m-%d'").

Definition strptime (s : string) : result datetime :=
  match match_Y (list_ascii_of_string s) with
  | None => Raise (no_match s)
  | Some (y, rest) =>
      match match_m rest with
      | None => Raise (no_match s)
      | Some (m, rest) =>
          match match_d rest with
          | None => Raise (no_match s)
          | Some (d, []) =>
              _ ← check_date_fields y m d;
              Ok (mkdatetime y m d 0 0 0 0)
          | Some (_, c :: rest) =>
              Raise (ValueError ("unconverted data remains: "
                                 +:+ string_of_list_ascii (c :: rest)))
          end
      end
  end.

End Strptime.
Import Strptime.

(** The values that callers pass for the optional arguments: [None], a
    [str], an [int] or a [date] object (a [datetime] object passed as a
    date acts as its date part). *)
Inductive pyval : Type :=
| PNone
| PStr (s : string)
| PInt (n : Z)
| PDate (d : date).

#[global] Instance date_eq_dec : EqDecision date.
Proof. solve_decision. Defined.

#[global] Instance pyval_eq_dec : EqDecision pyval.
Proof. solve_decision. Defined.

(** Truth value testing: [None], the empty string and zero are false. *)
Definition truthy (v : pyval) : bool :=
  match v with
  | PNone => false
  | PStr s => negb (String.eqb s "")
  | PInt n => negb (n =? 0)
  | PDate _ => true
  end.

(** [x in l] for a list of string literals. *)
Definition pyval_in (v : pyval) (l : list string) : bool :=
  bool_decide (v ∈ PStr <$> l).

(** [", ".join(l)]. *)
Definition join (sep : string) (l : list string) : string :=
  String.concat sep l.

(** [repr(s)] of a [str] of code points below 256: in single quotes, or in
    double quotes when the text has a single quote and no double one; the
    quote and the backslash escaped, tab, newline and return as [\t], [\n]
    and [\r], and the other characters that are not printable (the control
    characters, U+007F to U+00A0 and U+00AD) as [\xhh]. *)
Definition double_quote : ascii := "034"%char.

Definition hex_digit (n : Z) : ascii :=
  nth (Z.to_nat n) (list_ascii_of_string "0123456789abcdef") "0"%char.

Definition is_printable (n : Z) : bool :=
  ((32 <=? n) && (n <? 127)) || ((161 <=? n) && negb (n =? 173)).

Definition repr_char (quote c : ascii) : string :=
  let n := Z.of_nat (nat_of_ascii c) in
  if Ascii.eqb c quote || Ascii.eqb c "\"%char then
    String "\"%char (String c "")
  else if n =? 9 then "\t"
  else if n =? 10 then "\n"
  else if n =? 13 then "\r"
  else if is_printable n then String c ""
  else "\x" +:+ String (hex_digit (n / 16)) (String (hex_digit (n mod 16)) "").

Definition repr (s : string) : string :=
  let chars := list_ascii_of_string s in
  let quote :=
    if existsb (Ascii.eqb "'"%char) chars
       && negb (existsb (Ascii.eqb double_quote) chars)
    then double_quote else "'"%char in
  String quote (String.concat "" (repr_char quote <$> chars))
  +:+ String quote "".

(** ["text" + v]: concatenation needs a [str]. *)
Definition str_of (v : pyval) : result string :=
  match v with
  | PStr s => Ok s
  | _ => Raise (TypeError "can only concatenate str to str")
  end.

(** [timedelta(hours=v)]. *)
Definition timedelta_of_hours (v : pyval) : result timedelta :=
  match v with
  | PInt h => timedelta_hours h
  | _ => Raise (TypeError "unsupported type for timedelta hours component")
  end.

(* ===================================================================== *)
(** * What lies outside [fmi.py]                                          *)
(* ===================================================================== *)

(** An XML element as [xml.etree.ElementTree] gives it: a tag, a text
    (absent when the element has none) and the child elements. *)
#[warnings="-register-all"]
Inductive Element : Type :=
| Elem (tag : string) (text : option string) (children : list Element).

(** [tree.iter()]: the element, then its descendants, in document order. *)
Fixpoint tree_iter (e : Element) : list Element :=
  match e with
  | Elem _ _ children => e :: flat_map tree_iter children
  end.

(** The collaborators of the module: the WFS service behind
    [WebFeatureService.getfeature] together with the XML parser (a query id
    and a dictionary of parameters go in, a tree or an exception comes out,
    and the outer world may change), and the two column conversions of
    pandas, [pd.to_datetime(..., utc=True)] and [astype("float")], the
    latter through the conversion of one cell. *)
Class Externals : Type := {
  World : Type;
  Timestamp : Type;
  Float : Type;
  wfs_getfeature :
    World -> string -> gmap string pyval -> World * result Element;
  to_datetime : list string -> result (list Timestamp);
  float_of_str : string -> option Float;
}.

(** A pandas data frame with the columns ["date"] and ["value"]. *)
Record DataFrame `{Externals} : Type := mkDataFrame {
  df_date : list Timestamp;
  df_value : list Float;
}.
Arguments mkDataFrame {_} _ _.

(** The state that the calls thread: the outer world and, as a record of
    what was asked of it, the queries sent so far, oldest first. *)
Record state `{Externals} : Type := mkstate {
  world : World;
  sent : list (string * gmap string pyval);
}.
Arguments mkstate {_} _ _.

(* ===================================================================== *)
(** * The module [fmi.py]                                                 *)
(* ===================================================================== *)

Section Fmi.
Context `{Ext : Externals}.

(** Calls with an effect on the world. *)
Definition M (A : Type) : Type := state -> state * result A.

Definition mret {A} (v : A) : M A := fun st => (st, Ok v).

Definition mbind' {A B} (c : M A) (k : A -> M B) : M B :=
  fun st =>
    match c st with
    | (st', Ok v) => k v st'
    | (st', Raise e) => (st', Raise e)
    end.

Definition lift {A} (r : result A) : M A := fun st => (st, r).

#[local] Instance M_ret : MRet M := @mret.
#[local] Instance M_bind : MBind M := fun A B k c => mbind' c k.

(** ** [_fmi_inputchecks] *)
Definition _fmi_inputchecks (place fmisid parameter model : pyval)
  : result unit :=
  if negb (truthy parameter) then
    Raise (ValueError "argument 'parameter' not provided")
  else if negb (truthy place) && negb (truthy fmisid) then
    Raise (ValueError "Please provide either place or fmisid argument")
  else if truthy model then
    if negb (pyval_in model ["harmonie"; "hirlam"]) then
      Raise (ValueError "Unknown model.
                   Please choose harmonie or hirlam, default is harmonie.")
    else Ok tt
  else Ok tt.

(** ** [_get_param_name] *)

(** A [match] statement over string literals: the first arm whose
    literal equals the subject; no arm, and the function falls off its
    end and returns [None]. *)
Fixpoint match_case (subject : pyval) (arms : list (string * string))
  : pyval :=
  match arms with
  | [] => PNone
  | (lit, code) :: arms' =>
      if bool_decide (subject = PStr lit) then PStr code
      else match_case subject arms'
  end.

Definition observation_legit : list string :=
  ["temperature"; "temperature_avg"; "temperature_max";
   "temperature_min"; "humidity"; "relative_humidity";
   "wind_speed_avg"; "wind_speed_max"; "wind_speed_min";
   "wind_direction"; "rain_accumulated"; "rain_intensity_max";
   "air_pressure"].

Definition observation_arms : list (string * string) :=
  [("temperature", "TA_PT1H_AVG");
   ("temperature_avg", "TA_PT1H_AVG");
   ("temperature_max", "TA_PT1H_MAX");
   ("temperature_min", "TA_PT1H_MIN");
   ("humidity", "RH_PT1H_AVG");
   ("relative_humidity", "RH_PT1H_AVG");
   ("wind_speed", "WS_PT1H_AVG");
   ("wind_speed_avg", "WS_PT1H_AVG");
   ("wind_speed_max", "WS_PT1H_MAX");
   ("wind_speed_min", "WS_PT1H_MIN");
   ("wind_direction", "WD_PT1H_AVG");
   ("rain_accumulated", "PRA_PT1H_ACC");
   ("rain_intensity_max", "PRI_PT1H_MAX");
   ("air_pressure", "PA_PT1H_AVG")].

Definition forecast_legit : list string :=
  ["air_pressure"; "temperature"; "humidity"; "wind_direction";
   "wind_speed"].

Definition forecast_arms : list (string * string) :=
  [("air_pressure", "Pressure");
   ("temperature", "Temperature");
   ("humidity", "Humidity");
   ("wind_direction", "WindDirection");
   ("wind_speed", "WindSpeedMS")].

Definition not_legit (wanted_param : pyval) (legit_params : list string)
  : result pyval :=
  s ← str_of wanted_param;
  Raise (ValueError
           ("Asked parameter '" +:+ s
            +:+ "' does not match any expected value. Legit values are: "
            +:+ join ", " legit_params +:+ ".")).

Definition _get_param_name (wanted_param query_type : pyval)
  : result pyval :=
  if negb (truthy query_type) then
    Raise (ValueError "parameter 'query_type' not provided.")
  else
    let valid := ["observation"; "forecast"] in
    if negb (pyval_in query_type valid) then
      s ← str_of query_type;
      Raise (ValueError
               ("query_type '" +:+ s
                +:+ "' not one of                 expected: "
                +:+ join ", " valid +:+ "."))
    else if bool_decide (query_type = PStr "observation") then
      if negb (pyval_in wanted_param observation_legit) then
        not_legit wanted_param observation_legit
      else Ok (match_case wanted_param observation_arms)
    else if bool_decide (query_type = PStr "forecast") then
      if negb (pyval_in wanted_param forecast_legit) then
        not_legit wanted_param forecast_legit
      else Ok (match_case wanted_param forecast_arms)
    else Ok PNone.

(** ** [_get_datetime_limits]

    [clock] is what [datetime.now()] reads. *)

(** Lines 277-285: a date argument that is supplied is parsed when it is
    text and combined with a time of day. *)
Definition read_date (arg : pyval) (time_of_day : date -> datetime)
  : result (option datetime) :=
  if truthy arg then
    match arg with
    | PStr s => dt ← strptime s; Ok (Some (time_of_day (date_of dt)))
    | PDate d => Ok (Some (time_of_day d))
    | _ => Raise (TypeError "combine() argument 1 must be datetime.date")
    end
  else Ok None.

(** [datetime.combine(d, datetime.max.time())] without its seconds. *)
Definition end_of_day (d : date) : datetime := replace_sec0 (combine_max d).

Definition none_provided : exn :=
  ValueError "None provided: hours/start_date/end_date".

Definition all_provided : exn :=
  ValueError
    "All provided: hours/start_date/end_date. All three should not                 be given.".

(** Lines 277-310: the limits before the end is held back to the present.
    [now] is read from the clock on line 296, after the two rejections,
    which do not depend on it. *)
Definition initial_limits (now : datetime)
    (start_date end_date hours : pyval) : result (datetime * datetime) :=
  start ← read_date start_date combine_min;
  end_ ← read_date end_date end_of_day;
  if negb (truthy hours || truthy start_date || truthy end_date) then
    Raise none_provided
  else if truthy hours && truthy start_date && truthy end_date then
    Raise all_provided
  else
    match start, end_ with
    | None, None =>
        td ← timedelta_of_hours hours;
        start ← dt_sub now td;
        Ok (start, now)
    | None, Some end_ =>
        if truthy hours then
          td ← timedelta_of_hours hours;
          start ← dt_sub end_ td;
          Ok (start, end_)
        else Ok (mkdatetime 2018 1 1 0 0 0 0, end_)
    | Some start, None =>
        if truthy hours then
          td ← timedelta_of_hours hours;
          end_ ← dt_add start td;
          Ok (start, end_)
        else Ok (start, now)
    | Some start, Some end_ => Ok (start, end_)
    end.

Definition _get_datetime_limits (clock : datetime)
    (start_date end_date hours : pyval) : result (datetime * datetime) :=
  let now := replace_sec0 clock in
  '(start, end_) ← initial_limits now start_date end_date hours;
  (* No use trying to load future: *)
  Ok (start, dt_min now end_).

(** ** [_do_query]: the query goes out; the state remembers it. *)
Definition _do_query (queryid : string) (params : gmap string pyval)
  : M Element :=
  fun st =>
    let '(w, r) := wfs_getfeature (world st) queryid params in
    (mkstate w (sent st ++ [(queryid, params)]), r).

(** ** [_tree_to_df] *)

(** [str.isspace()]: at least one character, all of them white space.
    A text is a [string] of characters with code points below 256; the
    white space among them is U+0009 to U+000D, U+001C to U+0020, U+0085
    and U+00A0. *)
Definition is_space_char (c : ascii) : bool :=
  let n := Z.of_nat (nat_of_ascii c) in
  ((9 <=? n) && (n <=? 13)) || ((28 <=? n) && (n <=? 32))
  || (n =? 133) || (n =? 160).

Definition isspace (s : string) : bool :=
  negb (String.eqb s "") && forallb is_space_char (list_ascii_of_string s).

Definition const_tags : list string :=
  ["{http://www.opengis.net/gml/3.2}pos";
   "{http://xml.fmi.fi/schema/wfs/2.0}ParameterName"].
Definition time_tag : string := "{http://xml.fmi.fi/schema/wfs/2.0}Time".
Definition value_tag : string :=
  "{http://xml.fmi.fi/schema/wfs/2.0}ParameterValue".

(** The loop over [tree.iter()], filling [times] and [values]. *)
Fixpoint collect (els : list Element) (times values : list string)
  : result (list string * list string) :=
  match els with
  | [] => Ok (times, values)
  | Elem tag text _ :: els' =>
      match text with
      | None =>
          Raise (AttributeError
                   "'NoneType' object has no attribute 'isspace'")
      | Some text =>
          if negb (isspace text) && negb (bool_decide (tag ∈ const_tags))
          then
            if String.eqb tag time_tag then
              collect els' (times ++ [text]) values
            else if String.eqb tag value_tag then
              collect els' times (values ++ [text])
            else collect els' times values
          else collect els' times values
      end
  end.

(** [astype("float")] on a column of text: every cell in turn, or the
    exception of the first cell that is no number, which names the cell. *)
Fixpoint astype_float (col : list string) : result (list Float) :=
  match col with
  | [] => Ok []
  | cell :: col' =>
      match float_of_str cell with
      | None =>
          Raise (ValueError
                   ("could not convert string to float: " +:+ repr cell))
      | Some x => l ← astype_float col'; Ok (x :: l)
      end
  end.

Definition _tree_to_df (tree : Element) : result DataFrame :=
  '(times, values) ← collect (tree_iter tree) [] [];
  (* pd.DataFrame({"date": times, "value": values}) *)
  if negb (length times =? length values)%nat then
    Raise (ValueError "All arrays must be of the same length")
  else
    date ← to_datetime times;
    value ← astype_float values;
    Ok (mkDataFrame date value).

(** [pd.concat([df, more], ignore_index=True)]. *)
Definition pd_concat (df more : DataFrame) : DataFrame :=
  mkDataFrame (df_date df ++ df_date more) (df_value df ++ df_value more).

(** ** [get_observations] *)

(** [params = {"place": place} if place else {"fmisid": fmisid}]. *)
Definition location (place fmisid : pyval) : gmap string pyval :=
  if truthy place then {[ "place" := place ]} else {[ "fmisid" := fmisid ]}.

Definition observations_queryid : string :=
  "fmi::observations::weather::hourly::simple".

(** The inner function [_load_obs]: it writes into the dictionary
    [params] that all its calls share, so the dictionary is handed back. *)
Definition _load_obs (queryid : string) (params : gmap string pyval)
    (start end_ : datetime) : M (gmap string pyval * DataFrame) :=
  let params := <["starttime" := PStr (isoformat start)]> params in
  let params := <["endtime" := PStr (isoformat end_)]> params in
  tree ← _do_query queryid params;
  df ← lift (_tree_to_df tree);
  mret (params, df).

(** The inner function [_month_last_h]. *)
Definition _month_last_h (dt : datetime) : result datetime :=
  dt ← replace_day dt 28;
  td ← timedelta_days 4;
  dt ← dt_add dt td;
  dt ← replace_day dt 1;
  let dt := combine_min (date_of dt) in
  td ← timedelta_hours 1;
  dt_sub dt td.

(** [divmod((end-start).total_seconds(), 3600)[0]].  [total_seconds()]
    is a float; the datetimes that reach this line are whole minutes
    (lemma [get_datetime_limits_whole_minutes]), for which the float is
    the exact number of seconds, and so is the quotient. *)
Definition span_hours (start end_ : datetime) : result Z :=
  td ← dt_diff end_ start;
  Ok (total_microseconds td / 3600000000).

(** The [while not end_reached] loop, one iteration per unit of fuel;
    [None] when the fuel runs out first. *)
Fixpoint month_loop (fuel : nat) (queryid : string)
    (params : gmap string pyval) (start end_ : datetime) (df : DataFrame)
    (st : state) : option (state * result DataFrame) :=
  match fuel with
  | O => None
  | S fuel' =>
      let block_start := start in
      match _month_last_h start with
      | Raise e => Some (st, Raise e)
      | Ok last_hour =>
          let '(end_reached, block_end) :=
            if dt_ltb end_ last_hour then (true, end_)
            else (false, last_hour) in
          match _load_obs queryid params block_start block_end st with
          | (st, Raise e) => Some (st, Raise e)
          | (st, Ok (params, load_more_df)) =>
              let df := pd_concat df load_more_df in
              match (td ← timedelta_hours 1; dt_add block_end td) with
              | Raise e => Some (st, Raise e)
              | Ok start =>
                  if end_reached then Some (st, Ok df)
                  else month_loop fuel' queryid params start end_ df st
              end
          end
      end
  end.

(** Every iteration but the last moves [start] into the next calendar
    month, and there are [12 * 9999] months. *)
Definition max_months : nat := Z.to_nat (12 * 9999).

Definition get_observations (clock : datetime)
    (place fmisid parameter hours start_date end_date : pyval)
    (st : state) : option (state * result DataFrame) :=
  match _fmi_inputchecks place fmisid parameter PNone with
  | Raise e => Some (st, Raise e)
  | Ok _ =>
  let params := location place fmisid in
  match _get_param_name parameter (PStr "observation") with
  | Raise e => Some (st, Raise e)
  | Ok code =>
  let params := <["parameters" := code]> params in
  let queryid := observations_queryid in
  match _get_datetime_limits clock start_date end_date hours with
  | Raise e => Some (st, Raise e)
  | Ok (start, end_) =>
  match span_hours start end_ with
  | Raise e => Some (st, Raise e)
  | Ok hours =>
  let too_long := 744 <? hours in
  if negb too_long then
    match _load_obs queryid params start end_ st with
    | (st, Ok (_, df)) => Some (st, Ok df)
    | (st, Raise e) => Some (st, Raise e)
    end
  else
    let df := mkDataFrame [] [] in
    month_loop max_months queryid params start end_ df st
  end end end end.

(** ** [get_forecast] *)
Definition default_model : pyval := PStr "harmonie".

Definition get_forecast (clock : datetime)
    (place fmisid parameter model hours : pyval) : M DataFrame :=
  _ ← lift (_fmi_inputchecks place fmisid parameter model);
  let params := location place fmisid in
  code ← lift (_get_param_name parameter (PStr "forecast"));
  let params := <["parameters" := code]> params in
  let now := replace_sec0 clock in
  let h :=
    if truthy hours then hours
    else if bool_decide (model = PStr "harmonie") then PInt 66
    else PInt 54 in
  td ← lift (timedelta_of_hours h);
  end_ ← lift (dt_add now td);
  let params := <["endtime" := PStr (isoformat end_)]> params in
  let queryid :=
    if bool_decide (model = PStr "harmonie")
    then "fmi::forecast::harmonie::hybrid::point::simple"
    else "fmi::forecast::hirlam::surface::point::simple" in
  tree ← _do_query queryid params;
  lift (_tree_to_df tree).

End Fmi.

(* ===================================================================== *)
(** * A canned service                                                    *)
(* ===================================================================== *)

(** Collaborators to run the module against: the world counts the queries
    it has answered, every answer is the same document of one observation,
    timestamps stay text and a value is a run of decimal digits. *)
Module Canned.

Definition answer : Element :=
  Elem "{http://www.opengis.net/wfs/2.0}FeatureCollection" (Some "
")
    [Elem "{http://www.opengis.net/gml/3.2}pos" (Some "60.17523 24.94459") [];
     Elem "{http://xml.fmi.fi/schema/wfs/2.0}Time"
       (Some "2022-09-01T00:00:00Z") [];
     Elem "{http://xml.fmi.fi/schema/wfs/2.0}ParameterName"
       (Some "TA_PT1H_AVG") [];
     Elem "{http://xml.fmi.fi/schema/wfs/2.0}ParameterValue"
       (Some "12") []].

Fixpoint digits (acc : Z) (s : list ascii) : option Z :=
  match s with
  | [] => Some acc
  | c :: s' =>
      match Strptime.digit c with
      | Some v => digits (10 * acc + v) s'
      | None => None
      end
  end.

Definition number (s : string) : option Z :=
  match list_ascii_of_string s with
  | [] => None
  | l => digits 0 l
  end.

#[global] Instance service : Externals := {|
  World := nat;
  Timestamp := string;
  Float := Z;
  wfs_getfeature := fun w _ _ => (S w, Ok answer);
  to_datetime := fun col => Ok col;
  float_of_str := number;
|}.

Definition fresh : state := mkstate 0%nat [].

(** Two readings of the clock, and a tree with a value that is no
    number. *)
Definition clock : datetime := mkdatetime 2022 10 15 12 30 11 5.

Definition september_clock : datetime := mkdatetime 2022 9 1 0 30 11 5.

Definition garbled : Element :=
  Elem "{http://www.opengis.net/wfs/2.0}FeatureCollection" (Some " ")
    [Elem "{http://xml.fmi.fi/schema/wfs/2.0}Time"
       (Some "2022-09-01T00:00:00Z") [];
     Elem "{http://xml.fmi.fi/schema/wfs/2.0}ParameterValue"
       (Some "n/a") []].

End Canned.

(* ===================================================================== *)
(** * Vocabulary of the properties                                        *)
(* ===================================================================== *)

(** One more day in a leap year. *)
Definition leap_day (y : Z) : Z := if _is_leap y then 1 else 0.

(** A datetime as microseconds on the time line. *)
Definition to_us (dt : datetime) : Z :=
  (toordinal dt * 86400 + seconds_of_day dt) * 1000000 + microsecond dt.

(** An hour, in microseconds. *)
Definition us_per_hour : Z := 3600000000.

(** Order of datetimes, as [<] and [<=] of Python decide it. *)
Definition dt_lt (a b : datetime) : Prop := dt_ltb a b = true.
Definition dt_le (a b : datetime) : Prop := dt_ltb b a = false.

(** The microseconds on the time line that [datetime] reaches: from
    0001-01-01 till the end of 9999-12-31. *)
Definition on_calendar (us : Z) : Prop :=
  86400000000 <= us < (_MAXORDINAL + 1) * 86400000000.

(** Where hours take the inference: forward from the start date when there
    is one, else back from the end date when there is one, else back from
    now. *)
Definition shifted (start end_ : option datetime) (now : datetime) (h : Z)
  : Z :=
  match start, end_ with
  | Some s, _ => to_us s + h * us_per_hour
  | None, Some e => to_us e - h * us_per_hour
  | None, None => to_us now - h * us_per_hour
  end.

(** A datetime on a minute. *)
Definition whole_minute (dt : datetime) : Prop :=
  second dt = 0 /\ microsecond dt = 0.

(** The month after month [m] of year [y]. *)
Definition next_month (y m : Z) : Z * Z :=
  if m =? 12 then (y + 1, 1) else (y, m + 1).

(** The final hour of the calendar month of [dt]: 23:00:00 on its last
    day. *)
Definition month_last_hour (dt : datetime) : datetime :=
  mkdatetime (year dt) (month dt) (_days_in_month (year dt) (month dt))
             23 0 0 0.

(** The first hour of the month after that of [dt]. *)
Definition next_month_start (dt : datetime) : datetime :=
  let '(y, m) := next_month (year dt) (month dt) in
  mkdatetime y m 1 0 0 0 0.

(** An optional argument is supplied when the code finds it true: not
    [None], not the empty string, not zero. *)
Definition supplied (v : pyval) : Prop := truthy v = true.

(** A [date] object is a date of the calendar. *)
Definition valid_arg (v : pyval) : Prop :=
  match v with
  | PDate d => valid_dateobj d
  | _ => True
  end.

(** What the documentation allows for a date: text or a [date] object. *)
Definition is_date_arg (v : pyval) : Prop :=
  (exists s, v = PStr s) \/ (exists d, v = PDate d).

(** The documented provider code of each whitelisted name. *)
Definition observation_codes : list (string * string) :=
  [("temperature", "TA_PT1H_AVG");
   ("temperature_avg", "TA_PT1H_AVG");
   ("temperature_max", "TA_PT1H_MAX");
   ("temperature_min", "TA_PT1H_MIN");
   ("humidity", "RH_PT1H_AVG");
   ("relative_humidity", "RH_PT1H_AVG");
   ("wind_speed_avg", "WS_PT1H_AVG");
   ("wind_speed_max", "WS_PT1H_MAX");
   ("wind_speed_min", "WS_PT1H_MIN");
   ("wind_direction", "WD_PT1H_AVG");
   ("rain_accumulated", "PRA_PT1H_ACC");
   ("rain_intensity_max", "PRI_PT1H_MAX");
   ("air_pressure", "PA_PT1H_AVG")].

Definition forecast_codes : list (string * string) :=
  [("air_pressure", "Pressure");
   ("temperature", "Temperature");
   ("humidity", "Humidity");
   ("wind_direction", "WindDirection");
   ("wind_speed", "WindSpeedMS")].

(** December of the last year that [datetime] has. *)
Definition last_month (dt : datetime) : Prop :=
  year dt = MAXYEAR /\ month dt = 12.

(** A chunk: the start and the end of one query. *)
Definition chunk : Type := datetime * datetime.

(** A full hour, where an hourly observation sits. *)
Definition on_the_hour (t : datetime) : Prop :=
  minute t = 0 /\ second t = 0 /\ microsecond t = 0.

(** The chunk covers [t]. *)
Definition in_chunk (t : datetime) (c : chunk) : Prop :=
  dt_le c.1 t /\ dt_le t c.2.

(** [b] is the datetime one hour after [a]. *)
Definition hour_later (a b : datetime) : Prop :=
  valid_datetime b /\ to_us b = to_us a + us_per_hour.

(** The plan of section 4.3 of the specification for a range that starts
    at [start] and ends at [end_]: a chunk runs from its start to the last
    hour of the month of that start and the next one starts an hour later,
    except the final chunk, which ends at the requested end once the last
    hour of the month lies beyond it. *)
Inductive monthly_chunks (end_ : datetime) : datetime -> list chunk -> Prop :=
| chunks_last start :
    dt_lt end_ (month_last_hour start) ->
    monthly_chunks end_ start [(start, end_)]
| chunks_month start start' rest :
    dt_le (month_last_hour start) end_ ->
    hour_later (month_last_hour start) start' ->
    monthly_chunks end_ start' rest ->
    monthly_chunks end_ start ((start, month_last_hour start) :: rest).

(** Months counted from the year 0, the measure of the loop. *)
Definition month_index (dt : datetime) : Z := 12 * year dt + month dt.

(** The last hour of the last month but one: a range that ends before it
    is chunked without leaving the calendar. *)
Definition last_chunk_limit : datetime := mkdatetime 9999 11 30 23 0 0 0.

(** The forecast models that the check lets through. *)
Definition known_model (model : pyval) : Prop :=
  ~ supplied model \/ model = PStr "harmonie" \/ model = PStr "hirlam".

(** A query that names the place and no station. *)
Definition uses_place_only (place : pyval)
    (query : string * gmap string pyval) : Prop :=
  query.2 !! "place" = Some place /\ query.2 !! "fmisid" = None.

(** A query that differs from [params] in the two time stamps at most. *)
Definition same_but_times (params : gmap string pyval)
    (query : string * gmap string pyval) : Prop :=
  forall k, k <> "starttime" -> k <> "endtime" -> query.2 !! k = params !! k.

(** The hours that a forecast looks ahead: 66 for harmonie and 54 for
    hirlam, unless hours are supplied. *)
Definition lookahead (model hours : pyval) (h : Z) : Prop :=
  (~ supplied hours /\ model = PStr "harmonie" /\ h = 66)
  \/ (~ supplied hours /\ model = PStr "hirlam" /\ h = 54)
  \/ (supplied hours /\ hours = PInt h).

(** The pieces of the forecast query. *)
Definition forecast_queryid (model : pyval) : string :=
  if bool_decide (model = PStr "harmonie")
  then "fmi::forecast::harmonie::hybrid::point::simple"
  else "fmi::forecast::hirlam::surface::point::simple".

Definition forecast_hours (model hours : pyval) : pyval :=
  if truthy hours then hours
  else if bool_decide (model = PStr "harmonie") then PInt 66
  else PInt 54.

Definition forecast_params (place fmisid code : pyval) (end_ : datetime)
  : gmap string pyval :=
  <["endtime" := PStr (isoformat end_)]>
    (<["parameters" := code]> (location place fmisid)).

(** The value cells of a tree: the texts of the elements that the loop of
    [_tree_to_df] files under values, in document order.  Elements of
    white space only are no cells: the loop passes over them. *)
Definition value_cell (el : Element) : option string :=
  match el with
  | Elem tag (Some text) _ =>
      if String.eqb tag value_tag && negb (isspace text) then Some text
      else None
  | Elem _ None _ => None
  end.

Definition value_cells (tree : Element) : list string :=
  omap value_cell (tree_iter tree).

Section ServiceVocabulary.
Context `{Ext : Externals}.

(** The parameters with the two time stamps of a chunk written in. *)
Definition stamp (params : gmap string pyval) (c : chunk)
  : gmap string pyval :=
  <["endtime" := PStr (isoformat c.2)]>
    (<["starttime" := PStr (isoformat c.1)]> params).

(** The parameters of an observation query before the time stamps. *)
Definition observation_base (place fmisid code : pyval)
  : gmap string pyval :=
  <["parameters" := code]> (location place fmisid).

(** The query for one chunk. *)
Definition obs_query (base : gmap string pyval) (c : chunk)
  : string * gmap string pyval :=
  (observations_queryid, stamp base c).

(** Section 4.3 of the specification in its own words: each chunk is
    queried independently, one after the other, and the results are
    concatenated in chunk order into one table; a query that fails ends
    the fetch. *)
Fixpoint fetch_chunks (base : gmap string pyval) (chunks : list chunk)
    (df : DataFrame) (st : state) : state * result DataFrame :=
  match chunks with
  | [] => (st, Ok df)
  | c :: chunks' =>
      match _load_obs observations_queryid base c.1 c.2 st with
      | (st', Ok (_, more)) => fetch_chunks base chunks' (pd_concat df more) st'
      | (st', Raise e) => (st', Raise e)
      end
  end.

(** Text that converts to a float. *)
Definition numeric (text : string) : Prop := is_Some (float_of_str text).

End ServiceVocabulary.

(** Parameters that are [base], time stamps apart. *)
Definition stamped (base params : gmap string pyval) : Prop :=
  params = base \/ exists c, params = stamp base c.

(* ===================================================================== *)
(** * Vocabulary of further properties                                    *)
(* ===================================================================== *)

(** A date as the text that the documentation asks for, [YYYY-MM-DD]
    (what [date.isoformat()] prints). *)
Definition iso_date (d : date) : string :=
  zfill 4 (dyear d) +:+ "-" +:+ zfill 2 (dmonth d) +:+ "-"
  +:+ zfill 2 (dday d).

(** The checks on the text of a year, a month and a day, run over all of
    them below. *)
Definition year_text_ok (y : Z) : bool :=
  match list_ascii_of_string (zfill 4 y) with
  | [a; b; c; d] =>
      match digit a, digit b, digit c, digit d with
      | Some a, Some b, Some c, Some d => 1000 * a + 100 * b + 10 * c + d =? y
      | _, _, _, _ => false
      end
  | _ => false
  end.

Definition month_text_ok (m : Z) : bool :=
  match list_ascii_of_string (zfill 2 m) with
  | [a; b] =>
      match digit a, digit b with
      | Some a, Some b => (10 * a + b =? m) && (a <=? 1)
      | _, _ => false
      end
  | _ => false
  end.

Definition day_text_ok (d : Z) : bool :=
  match match_d (list_ascii_of_string (zfill 2 d)) with
  | Some (v, []) => v =? d
  | _ => false
  end.

Definition upto (n : Z) : list Z := Z.of_nat <$> seq 1 (Z.to_nat n).

(** The time cells of a tree: the texts of the elements that the loop of
    [_tree_to_df] files under times, in document order. *)
Definition time_cell (el : Element) : option string :=
  match el with
  | Elem tag (Some text) _ =>
      if String.eqb tag time_tag && negb (isspace text) then Some text
      else None
  | Elem _ None _ => None
  end.

Definition time_cells (tree : Element) : list string :=
  omap time_cell (tree_iter tree).

(** An element with a text, be it empty. *)
Definition has_text (el : Element) : Prop :=
  match el with
  | Elem _ text _ => is_Some text
  end.

(** A document with a value element whose text is a no-break space
    (U+00A0), beside one observation. *)
Definition blank_cell : Element :=
  Elem "{http://www.opengis.net/wfs/2.0}FeatureCollection" (Some " ")
    [Elem "{http://xml.fmi.fi/schema/wfs/2.0}Time"
       (Some "2022-09-01T00:00:00Z") [];
     Elem "{http://xml.fmi.fi/schema/wfs/2.0}ParameterValue"
       (Some (String "160"%char "")) [];
     Elem "{http://xml.fmi.fi/schema/wfs/2.0}ParameterValue"
       (Some "12") []].

Definition no_text_error : exn :=
  AttributeError "'NoneType' object has no attribute 'isspace'".

Definition length_error : exn :=
  ValueError "All arrays must be of the same length".

(** What [get_observations] works out before it turns to the service
    (lines 50-64): the check of the arguments, the code of the parameter
    and the limits of the range. *)
Definition observation_preflight (clock : datetime)
    (place fmisid parameter hours start_date end_date : pyval)
  : result (pyval * (datetime * datetime)) :=
  _ ← _fmi_inputchecks place fmisid parameter PNone;
  code ← _get_param_name parameter (PStr "observation");
  limits ← _get_datetime_limits clock start_date end_date hours;
  Ok (code, limits).

(** What [get_forecast] works out before it turns to the service (lines
    133-147): the check, the code of the parameter and the end time. *)
Definition forecast_preflight (clock : datetime)
    (place fmisid parameter model hours : pyval) : result (pyval * datetime) :=
  _ ← _fmi_inputchecks place fmisid parameter model;
  code ← _get_param_name parameter (PStr "forecast");
  td ← timedelta_of_hours (forecast_hours model hours);
  end_ ← dt_add (replace_sec0 clock) td;
  Ok (code, end_).

(** The key under which a query names its location. *)
Definition location_key (place : pyval) : string :=
  if truthy place then "place" else "fmisid".

(** The end of the block that starts at [start], as the loop sets it
    (lines 92-97): the requested end when it comes before the last hour of
    the month of [start], else that last hour. *)
Definition block_end (end_ start : datetime) : datetime :=
  if dt_ltb end_ (month_last_hour start) then end_ else month_last_hour start.

(** The span of a chunk, in microseconds. *)
Definition span_us (c : chunk) : Z := to_us c.2 - to_us c.1.

Section Example.
Context `{Ext : Externals}.

(** ** The script [example.py]

    Its two calls, one after the other: the observations of Helsinki since
    the beginning of September 2022, then the forecast for station 101533.
    [clock1] and [clock2] are what [datetime.now()] reads in the first and
    in the second call; an exception in the first call ends the script. *)
Definition example (clock1 clock2 : datetime) (st : state)
  : option (state * result (DataFrame * DataFrame)) :=
  match get_observations clock1 (PStr "Helsinki") PNone (PStr "temperature")
          PNone (PStr "2022-09-01") PNone st with
  | None => None
  | Some (st, Raise e) => Some (st, Raise e)
  | Some (st, Ok temp_df) =>
      match get_forecast clock2 PNone (PStr "101533") (PStr "wind_speed")
              default_model (PInt 24) st with
      | (st, Raise e) => Some (st, Raise e)
      | (st, Ok wind_forecast) => Some (st, Ok (temp_df, wind_forecast))
      end
  end.

End Example.

(** The parameters of the two kinds of query of the script, time stamps
    apart. *)
Definition example_observation_base : gmap string pyval :=
  <["parameters" := PStr "TA_PT1H_AVG"]> {[ "place" := PStr "Helsinki" ]}.

Definition example_forecast_query (end_ : datetime)
  : string * gmap string pyval :=
  ("fmi::forecast::harmonie::hybrid::point::simple",
   <["endtime" := PStr (isoformat end_)]>
     (<["parameters" := PStr "WindSpeedMS"]>
        {[ "fmisid" := PStr "101533" ]})).

(* ===================================================================== *)
(** * Calendar arithmetic                                                 *)
(* ===================================================================== *)

Ltac calc_index :=
  repeat match goal with
  | |- context [index ?l (Z.pos ?p)] =>
      let v := eval vm_compute in (index l (Z.pos p)) in
      change (index l (Z.pos p)) with v
  | H : context [index ?l (Z.pos ?p)] |- _ =>
      let v := eval vm_compute in (index l (Z.pos p)) in
      change (index l (Z.pos p)) with v in H
  end.

Ltac calc_pred :=
  repeat match goal with
  | |- context [Z.pos ?p - 1] =>
      let v := eval vm_compute in (Z.pos p - 1) in
      change (Z.pos p - 1) with v
  end.

Ltac month_cases m :=
  let H := fresh in
  assert (H : m = 1 \/ m = 2 \/ m = 3 \/ m = 4 \/ m = 5 \/ m = 6 \/
              m = 7 \/ m = 8 \/ m = 9 \/ m = 10 \/ m = 11 \/ m = 12) by lia;
  repeat (destruct H as [->|H]); [..|subst m].

Ltac split_eqb :=
  repeat match goal with
  | |- context [ ?x =? ?y ] => destruct (Z.eqb_spec x y)
  end.

(** ** Years *)

(** A year number split along the 400, 100 and 4 year cycles. *)
Lemma leap_decomp a b c e :
  0 <= b < 4 -> 0 <= c < 25 -> 0 <= e < 4 ->
  _is_leap (400 * a + 100 * b + 4 * c + e + 1)
  = (e =? 3) && (negb (c =? 24) || (b =? 3)).
Proof.
  intros. unfold _is_leap.
  split_eqb; simpl; try reflexivity; exfalso; Z.div_mod_to_equations; lia.
Qed.

Lemma dby_decomp a b c e :
  0 <= b < 4 -> 0 <= c < 25 -> 0 <= e < 4 ->
  _days_before_year (400 * a + 100 * b + 4 * c + e + 1)
  = 146097 * a + 36524 * b + 1461 * c + 365 * e.
Proof.
  intros. unfold _days_before_year. Z.div_mod_to_equations. lia.
Qed.

Lemma dby_succ y :
  _days_before_year (y + 1) = _days_before_year y + 365 + leap_day y.
Proof.
  unfold _days_before_year, leap_day, _is_leap.
  split_eqb; simpl; Z.div_mod_to_equations; lia.
Qed.

Lemma dby_mono y1 y2 :
  y1 <= y2 -> _days_before_year y1 <= _days_before_year y2.
Proof.
  intros H. unfold _days_before_year. Z.div_mod_to_equations. lia.
Qed.

Lemma leap_day_range y : 0 <= leap_day y <= 1.
Proof. unfold leap_day. destruct (_is_leap y); lia. Qed.

(** ** Months *)

Lemma days_before_month_succ y m :
  1 <= m < 12 ->
  _days_before_month y (m + 1) = _days_before_month y m + _days_in_month y m.
Proof.
  intros Hm. unfold _days_before_month, _days_in_month.
  destruct (_is_leap y); month_cases m; try lia; reflexivity.
Qed.

Lemma days_before_month_mono y m1 m2 :
  1 <= m1 -> m1 <= m2 -> m2 <= 12 ->
  _days_before_month y m1 <= _days_before_month y m2.
Proof.
  intros H1 H12 H2. unfold _days_before_month.
  destruct (_is_leap y); month_cases m1; month_cases m2; try lia;
    vm_compute; discriminate.
Qed.

Lemma days_before_month_12 y :
  _days_before_month y 12 + _days_in_month y 12 = 365 + leap_day y.
Proof.
  unfold _days_before_month, _days_in_month, leap_day.
  destruct (_is_leap y); reflexivity.
Qed.

Lemma days_in_month_range y m :
  1 <= m <= 12 -> 28 <= _days_in_month y m <= 31.
Proof.
  intros Hm. unfold _days_in_month.
  destruct (_is_leap y); month_cases m; vm_compute; split; discriminate.
Qed.

Lemma day_of_year_range y m d :
  valid_date y m d ->
  1 <= _days_before_month y m + d <= 365 + leap_day y.
Proof.
  intros (_ & Hm & Hd).
  pose proof (days_before_month_mono y 1 m ltac:(lia) ltac:(lia) ltac:(lia)).
  pose proof (days_before_month_12 y).
  assert (_days_before_month y 1 = 0) by reflexivity.
  destruct (Z.eq_dec m 12) as [->|].
  - lia.
  - pose proof (days_before_month_succ y m ltac:(lia)).
    pose proof (days_before_month_mono y (m + 1) 12
                  ltac:(lia) ltac:(lia) ltac:(lia)).
    pose proof (days_in_month_range y 12 ltac:(lia)). lia.
Qed.

(** ** Ordinals *)

Lemma ymd2ord_range y m d :
  valid_date y m d -> 1 <= _ymd2ord y m d <= _MAXORDINAL.
Proof.
  intros Hv. pose proof (day_of_year_range _ _ _ Hv) as Hd.
  destruct Hv as ((Hy1 & Hy2) & _). unfold MINYEAR, MAXYEAR in *.
  unfold _ymd2ord, _MAXORDINAL.
  pose proof (dby_mono 1 y Hy1). pose proof (dby_succ y).
  pose proof (dby_mono (y + 1) 10000 ltac:(lia)).
  change (_days_before_year 1) with 0 in *.
  change (_days_before_year 10000) with 3652059 in *.
  lia.
Qed.

(** The ordinal grows with the date. *)
Lemma ymd2ord_lt y1 m1 d1 y2 m2 d2 :
  valid_date y1 m1 d1 -> valid_date y2 m2 d2 ->
  y1 < y2 \/ (y1 = y2 /\ (m1 < m2 \/ (m1 = m2 /\ d1 < d2))) ->
  _ymd2ord y1 m1 d1 < _ymd2ord y2 m2 d2.
Proof.
  intros Hv1 Hv2 Hlt.
  pose proof (day_of_year_range _ _ _ Hv1) as Hd1.
  pose proof (day_of_year_range _ _ _ Hv2) as Hd2.
  unfold _ymd2ord.
  destruct Hlt as [Hy | (-> & Hlt)].
  - pose proof (dby_succ y1).
    pose proof (dby_mono (y1 + 1) y2 ltac:(lia)). lia.
  - destruct Hlt as [Hm | (-> & Hd)]; [|lia].
    destruct Hv1 as (_ & Hm1 & Hdd1). destruct Hv2 as (_ & Hm2 & Hdd2).
    pose proof (days_before_month_succ y2 m1 ltac:(lia)).
    pose proof (days_before_month_mono y2 (m1 + 1) m2
                  ltac:(lia) ltac:(lia) ltac:(lia)).
    lia.
Qed.

Lemma ymd2ord_inj y1 m1 d1 y2 m2 d2 :
  valid_date y1 m1 d1 -> valid_date y2 m2 d2 ->
  _ymd2ord y1 m1 d1 = _ymd2ord y2 m2 d2 ->
  y1 = y2 /\ m1 = m2 /\ d1 = d2.
Proof.
  intros Hv1 Hv2 He.
  destruct (Z.lt_trichotomy y1 y2) as [H|[->|H]];
    [pose proof (ymd2ord_lt _ _ _ _ _ _ Hv1 Hv2 ltac:(lia)); lia
    | | pose proof (ymd2ord_lt _ _ _ _ _ _ Hv2 Hv1 ltac:(lia)); lia].
  destruct (Z.lt_trichotomy m1 m2) as [H|[->|H]];
    [pose proof (ymd2ord_lt _ _ _ _ _ _ Hv1 Hv2 ltac:(lia)); lia
    | | pose proof (ymd2ord_lt _ _ _ _ _ _ Hv2 Hv1 ltac:(lia)); lia].
  destruct (Z.lt_trichotomy d1 d2) as [H|[->|H]];
    [pose proof (ymd2ord_lt _ _ _ _ _ _ Hv1 Hv2 ltac:(lia)); lia
    | auto | pose proof (ymd2ord_lt _ _ _ _ _ _ Hv2 Hv1 ltac:(lia)); lia].
Qed.

(** The divisions of [_ord2ymd], named. *)
Lemma ord2ymd_shape n :
  1 <= n ->
  exists a b c e k,
    n - 1 = 146097 * a + 36524 * b + 1461 * c + 365 * e + k /\
    0 <= a /\ 0 <= b <= 4 /\ 0 <= c < 25 /\ 0 <= e <= 4 /\ 0 <= k < 365 /\
    (b = 4 -> c = 0 /\ e = 0 /\ k = 0) /\
    (e = 4 -> k = 0 /\ c < 24) /\
    (n - 1) / _DI400Y = a /\
    ((n - 1) mod _DI400Y) / _DI100Y = b /\
    (((n - 1) mod _DI400Y) mod _DI100Y) / _DI4Y = c /\
    ((((n - 1) mod _DI400Y) mod _DI100Y) mod _DI4Y) / 365 = e /\
    ((((n - 1) mod _DI400Y) mod _DI100Y) mod _DI4Y) mod 365 = k.
Proof.
  intros Hn. unfold _DI400Y, _DI100Y, _DI4Y.
  exists ((n - 1) / 146097), (((n - 1) mod 146097) / 36524),
    ((((n - 1) mod 146097) mod 36524) / 1461),
    (((((n - 1) mod 146097) mod 36524) mod 1461) / 365),
    (((((n - 1) mod 146097) mod 36524) mod 1461) mod 365).
  repeat split; try reflexivity; Z.div_mod_to_equations; lia.
Qed.

Lemma shiftr5 k : Z.shiftr k 5 = k / 32.
Proof. rewrite Z.shiftr_div_pow2 by lia. reflexivity. Qed.

(** [_ord2ymd] finds the date of an ordinal. *)
Lemma ord2ymd_spec n y m d :
  1 <= n <= _MAXORDINAL -> _ord2ymd n = (y, m, d) ->
  valid_date y m d /\ _ymd2ord y m d = n.
Proof.
  intros [Hn Hmax] Ho. unfold _MAXORDINAL in Hmax.
  destruct (ord2ymd_shape n Hn) as
    (a & b & c & e & k & Hdec & Ha & Hb & Hc & He & Hk & Hb4 & He4
     & Ea & Eb & Ec & Ee & Ek).
  unfold _ord2ymd in Ho. cbv zeta in Ho.
  rewrite Ea, Eb, Ec, Ee, Ek in Ho. clear Ea Eb Ec Ee Ek.
  destruct (Z.eqb_spec e 4) as [->|Hne4]; simpl orb in Ho.
  { (* the last day of a leap year that ends a cycle of 4 years *)
    destruct (He4 eq_refl) as [-> Hc24].
    assert (b < 4)
      by (destruct (Z.eq_dec b 4) as [Hb'|];
          [destruct (Hb4 Hb'); lia | lia]).
    injection Ho as <- <- <-.
    replace (a * 400 + 1 + b * 100 + c * 4 + 4 - 1)
      with (400 * a + 100 * b + 4 * c + 3 + 1) by lia.
    unfold valid_date, _ymd2ord, _days_in_month, _days_before_month,
      MINYEAR, MAXYEAR.
    rewrite dby_decomp by lia. rewrite leap_decomp by lia.
    replace (c =? 24) with false by (symmetry; apply Z.eqb_neq; lia).
    calc_index. simpl. lia. }
  destruct (Z.eqb_spec b 4) as [->|Hnb4].
  { (* the last day of a cycle of 400 years *)
    destruct (Hb4 eq_refl) as (-> & -> & ->).
    injection Ho as <- <- <-.
    replace (a * 400 + 1 + 4 * 100 + 0 * 4 + 0 - 1)
      with (400 * a + 100 * 3 + 4 * 24 + 3 + 1) by lia.
    unfold valid_date, _ymd2ord, _days_in_month, _days_before_month,
      MINYEAR, MAXYEAR.
    rewrite dby_decomp by lia. rewrite leap_decomp by lia.
    calc_index. simpl. lia. }
  replace (a * 400 + 1 + b * 100 + c * 4 + e)
    with (400 * a + 100 * b + 4 * c + e + 1) in Ho by lia.
  assert (Hy : 1 <= 400 * a + 100 * b + 4 * c + e + 1 <= 9999) by lia.
  rewrite shiftr5 in Ho.
  set (L := (e =? 3) && (negb (c =? 24) || (b =? 3))) in *.
  assert (HL : _is_leap (400 * a + 100 * b + 4 * c + e + 1) = L)
    by (apply leap_decomp; lia).
  assert (Hmo : exists mo, (k + 50) / 32 = mo /\ 1 <= mo <= 12)
    by (eexists; split; [reflexivity | Z.div_mod_to_equations; lia]).
  destruct Hmo as (mo & Emo & Hmo). rewrite Emo in Ho.
  assert (Hk' : 32 * mo - 50 <= k < 32 * mo - 18)
    by (Z.div_mod_to_equations; lia).
  clear Emo.
  unfold valid_date, _ymd2ord, _days_in_month, _days_before_month,
    MINYEAR, MAXYEAR.
  destruct L; month_cases mo;
    calc_index; cbn in Ho;
    match type of Ho with
    | context [ ?x <? ?y ] => destruct (Z.ltb_spec x y)
    | _ => idtac
    end;
    injection Ho as <- <- <-;
    rewrite ?dby_decomp by lia; rewrite ?HL; calc_pred; calc_index; cbn; lia.
Qed.

(** ... and the ordinal of a date leads back to the date. *)
Lemma ord2ymd_ymd2ord y m d :
  valid_date y m d -> _ord2ymd (_ymd2ord y m d) = (y, m, d).
Proof.
  intros Hv. pose proof (ymd2ord_range _ _ _ Hv) as Hr.
  destruct (_ord2ymd (_ymd2ord y m d)) as [[y' m'] d'] eqn:E.
  destruct (ord2ymd_spec _ _ _ _ Hr E) as [Hv' He].
  destruct (ymd2ord_inj _ _ _ _ _ _ Hv' Hv He) as (-> & -> & ->).
  reflexivity.
Qed.

(* ===================================================================== *)
(** * Datetime arithmetic                                                 *)
(* ===================================================================== *)

Ltac rstep := unfold mbind, result_bind, rbind; cbv beta iota zeta.

Lemma bind_Ok {A B} (v : A) (k : A -> result B) : (x ← Ok v; k x) = k v.
Proof. reflexivity. Qed.

Lemma timedelta_new_spec d s us td :
  timedelta_new d s us = Ok td ->
  total_microseconds td = (d * 86400 + s) * 1000000 + us
  /\ 0 <= seconds td < 86400 /\ 0 <= microseconds td < 1000000.
Proof.
  unfold timedelta_new, total_microseconds.
  destruct (_ && _); [|discriminate].
  intros [= <-]. simpl. Z.div_mod_to_equations. lia.
Qed.

Lemma timedelta_new_ok d s us :
  - 999999999 * 86400000000 <= (d * 86400 + s) * 1000000 + us
     < 1000000000 * 86400000000 ->
  exists td, timedelta_new d s us = Ok td.
Proof.
  intros H. unfold timedelta_new.
  match goal with |- context [if ?c then _ else _] => destruct c eqn:E end.
  - eauto.
  - exfalso. apply andb_false_iff in E.
    destruct E as [E|E]; [apply Z.leb_gt in E | apply Z.leb_gt in E];
    Z.div_mod_to_equations; lia.
Qed.

Lemma to_us_parts dt :
  valid_datetime dt ->
  1 <= toordinal dt <= _MAXORDINAL
  /\ 0 <= seconds_of_day dt < 86400 /\ 0 <= microsecond dt < 1000000.
Proof.
  intros (Hd & Hh & Hm & Hs & Hu).
  split; [apply ymd2ord_range, Hd|].
  unfold seconds_of_day. lia.
Qed.

Lemma to_us_inj a b :
  valid_datetime a -> valid_datetime b -> to_us a = to_us b -> a = b.
Proof.
  intros Ha Hb He.
  pose proof (to_us_parts a Ha) as (Ho1 & Hs1 & Hu1).
  pose proof (to_us_parts b Hb) as (Ho2 & Hs2 & Hu2).
  unfold to_us in He.
  assert (Eo : toordinal a = toordinal b) by lia.
  assert (Es : seconds_of_day a = seconds_of_day b) by lia.
  assert (Eu : microsecond a = microsecond b) by lia.
  destruct Ha as (Hda & Hha & Hma & Hsa & _).
  destruct Hb as (Hdb & Hhb & Hmb & Hsb & _).
  destruct (ymd2ord_inj _ _ _ _ _ _ Hda Hdb Eo) as (Ey & Em & Ed).
  unfold seconds_of_day in Es.
  destruct a, b; simpl in *. f_equal; lia.
Qed.

(** Python's order of datetimes is the order of the time line. *)
Lemma dt_cmp_spec a b :
  valid_datetime a -> valid_datetime b ->
  dt_cmp a b = (to_us a ?= to_us b).
Proof.
  intros Ha Hb.
  pose proof (to_us_parts a Ha) as (Ho1 & Hs1 & Hu1).
  pose proof (to_us_parts b Hb) as (Ho2 & Hs2 & Hu2).
  pose proof Ha as (Hda & Hha & Hma & Hsa & _).
  pose proof Hb as (Hdb & Hhb & Hmb & Hsb & _).
  assert (Hlt : forall y1 m1 d1 y2 m2 d2,
             valid_date y1 m1 d1 -> valid_date y2 m2 d2 ->
             y1 < y2 \/ (y1 = y2 /\ (m1 < m2 \/ (m1 = m2 /\ d1 < d2))) ->
             _ymd2ord y1 m1 d1 + 1 <= _ymd2ord y2 m2 d2).
  { intros. pose proof (ymd2ord_lt _ _ _ _ _ _ H H0 H1). lia. }
  unfold to_us, toordinal, seconds_of_day in *.
  destruct a as [y1 m1 d1 h1 mi1 s1 u1], b as [y2 m2 d2 h2 mi2 s2 u2].
  unfold dt_cmp, dt_fields; simpl in *.
  symmetry.
  destruct (Z.compare_spec y1 y2) as [->|H|H];
    [|apply Z.compare_lt_iff; specialize (Hlt _ _ _ _ _ _ Hda Hdb ltac:(lia)); lia
     |apply Z.compare_gt_iff; specialize (Hlt _ _ _ _ _ _ Hdb Hda ltac:(lia)); lia].
  destruct (Z.compare_spec m1 m2) as [->|H|H];
    [|apply Z.compare_lt_iff; specialize (Hlt _ _ _ _ _ _ Hda Hdb ltac:(lia)); lia
     |apply Z.compare_gt_iff; specialize (Hlt _ _ _ _ _ _ Hdb Hda ltac:(lia)); lia].
  destruct (Z.compare_spec d1 d2) as [->|H|H];
    [|apply Z.compare_lt_iff; specialize (Hlt _ _ _ _ _ _ Hda Hdb ltac:(lia)); lia
     |apply Z.compare_gt_iff; specialize (Hlt _ _ _ _ _ _ Hdb Hda ltac:(lia)); lia].
  clear Hlt.
  destruct (Z.compare_spec h1 h2) as [->|H|H];
    [|apply Z.compare_lt_iff; lia | apply Z.compare_gt_iff; lia].
  destruct (Z.compare_spec mi1 mi2) as [->|H|H];
    [|apply Z.compare_lt_iff; lia | apply Z.compare_gt_iff; lia].
  destruct (Z.compare_spec s1 s2) as [->|H|H];
    [|apply Z.compare_lt_iff; lia | apply Z.compare_gt_iff; lia].
  destruct (Z.compare_spec u1 u2) as [->|H|H];
    [|apply Z.compare_lt_iff; lia | apply Z.compare_gt_iff; lia].
  apply Z.compare_refl.
Qed.

Lemma dt_ltb_spec a b :
  valid_datetime a -> valid_datetime b ->
  dt_ltb a b = (to_us a <? to_us b).
Proof.
  intros Ha Hb. unfold dt_ltb, Z.ltb. rewrite dt_cmp_spec by assumption.
  reflexivity.
Qed.

Lemma dt_lt_iff a b :
  valid_datetime a -> valid_datetime b -> dt_lt a b <-> to_us a < to_us b.
Proof.
  intros Ha Hb. unfold dt_lt. rewrite dt_ltb_spec by assumption.
  apply Z.ltb_lt.
Qed.

Lemma dt_le_iff a b :
  valid_datetime a -> valid_datetime b -> dt_le a b <-> to_us a <= to_us b.
Proof.
  intros Ha Hb. unfold dt_le. rewrite dt_ltb_spec by assumption.
  rewrite Z.ltb_ge. reflexivity.
Qed.

(** Addition moves along the time line and stays among the datetimes. *)
Lemma dt_add_spec dt td r :
  valid_datetime dt -> dt_add dt td = Ok r ->
  valid_datetime r /\ to_us r = to_us dt + total_microseconds td.
Proof.
  intros Hv H. unfold dt_add in H.
  destruct (timedelta_new _ _ _) as [delta|] eqn:Ed; [|discriminate].
  simpl in H.
  apply timedelta_new_spec in Ed. destruct Ed as (Et & Hs & Hu).
  destruct (Z.ltb_spec 0 (days delta)) as [H1|]; [|discriminate].
  destruct (Z.leb_spec (days delta) _MAXORDINAL) as [H2|]; [|discriminate].
  simpl in H.
  destruct (_ord2ymd (days delta)) as [[y m] d] eqn:Eo.
  destruct (ord2ymd_spec (days delta) _ _ _ ltac:(lia) Eo) as [Hvd Ho].
  injection H as <-.
  unfold valid_datetime, to_us, toordinal, seconds_of_day; simpl.
  rewrite Ho. unfold total_microseconds in Et.
  unfold to_us, toordinal, seconds_of_day in *.
  unfold total_microseconds.
  split; [split; [exact Hvd|] |]; Z.div_mod_to_equations; lia.
Qed.

Lemma dt_add_exists dt td :
  valid_datetime dt ->
  86400000000 <= to_us dt + total_microseconds td
    < (_MAXORDINAL + 1) * 86400000000 ->
  exists r, dt_add dt td = Ok r.
Proof.
  intros Hv Hr.
  pose proof (to_us_parts dt Hv) as (Ho1 & Hs1 & Hu1).
  assert (HM : _MAXORDINAL = 3652059) by reflexivity.
  destruct (timedelta_new_ok (toordinal dt + days td)
              (seconds_of_day dt + seconds td)
              (microsecond dt + microseconds td)) as [delta Ed].
  { unfold to_us, total_microseconds in Hr. lia. }
  pose proof (timedelta_new_spec _ _ _ _ Ed) as (Et & Hs & Hu).
  unfold dt_add. rewrite Ed. rstep.
  assert ((0 <? days delta) = true) as ->.
  { apply Z.ltb_lt. unfold to_us, total_microseconds in *. lia. }
  assert ((days delta <=? _MAXORDINAL) = true) as ->.
  { apply Z.leb_le. unfold to_us, total_microseconds in *. lia. }
  cbn [andb]. destruct (_ord2ymd (days delta)) as [[y m] d]. eauto.
Qed.

Lemma dt_add_intro dt td r :
  valid_datetime dt -> valid_datetime r ->
  to_us r = to_us dt + total_microseconds td ->
  dt_add dt td = Ok r.
Proof.
  intros Hv Hr He.
  pose proof (to_us_parts dt Hv) as (Ho1 & Hs1 & Hu1).
  pose proof (to_us_parts r Hr) as (Ho2 & Hs2 & Hu2).
  assert (HM : _MAXORDINAL = 3652059) by reflexivity.
  destruct (timedelta_new_ok (toordinal dt + days td)
              (seconds_of_day dt + seconds td)
              (microsecond dt + microseconds td)) as [delta Ed].
  { unfold to_us, total_microseconds in He. lia. }
  pose proof (timedelta_new_spec _ _ _ _ Ed) as (Et & Hs & Hu).
  assert (Hd : days delta = toordinal r).
  { unfold to_us, total_microseconds in *. lia. }
  assert (Hex : exists r', dt_add dt td = Ok r').
  { unfold dt_add. rewrite Ed. rstep.
    assert ((0 <? days delta) = true) as -> by (apply Z.ltb_lt; lia).
    assert ((days delta <=? _MAXORDINAL) = true) as -> by (apply Z.leb_le; lia).
    cbn [andb]. destruct (_ord2ymd (days delta)) as [[y m] d]. eauto. }
  destruct Hex as [r' Ea]. rewrite Ea.
  destruct (dt_add_spec _ _ _ Hv Ea) as [Hr' He'].
  f_equal. apply to_us_inj; [assumption..|lia].
Qed.

Lemma timedelta_neg_spec td neg :
  timedelta_new (- days td) (- seconds td) (- microseconds td) = Ok neg ->
  total_microseconds neg = - total_microseconds td.
Proof.
  intros H. apply timedelta_new_spec in H. destruct H as (H & _).
  rewrite H. unfold total_microseconds. lia.
Qed.

Lemma dt_sub_spec dt td r :
  valid_datetime dt -> dt_sub dt td = Ok r ->
  valid_datetime r /\ to_us r = to_us dt - total_microseconds td.
Proof.
  intros Hv H. unfold dt_sub in H.
  destruct (timedelta_new _ _ _) as [neg|] eqn:En; [|discriminate].
  simpl in H. apply timedelta_neg_spec in En.
  destruct (dt_add_spec _ _ _ Hv H) as [Hr He]. split; [assumption|lia].
Qed.

Lemma dt_sub_intro dt td r :
  valid_datetime dt -> valid_datetime r ->
  - 999999999 * 86400000000 < total_microseconds td
    <= 999999999 * 86400000000 ->
  to_us r = to_us dt - total_microseconds td ->
  dt_sub dt td = Ok r.
Proof.
  intros Hv Hr Hb He. unfold dt_sub.
  destruct (timedelta_new_ok (- days td) (- seconds td) (- microseconds td))
    as [neg En].
  { unfold total_microseconds in Hb. lia. }
  rewrite En. simpl. apply dt_add_intro; [assumption..|].
  apply timedelta_neg_spec in En. lia.
Qed.

Lemma dt_diff_spec a b :
  valid_datetime a -> valid_datetime b ->
  exists td, dt_diff a b = Ok td /\ total_microseconds td = to_us a - to_us b.
Proof.
  intros Ha Hb.
  pose proof (to_us_parts a Ha) as (Ho1 & Hs1 & Hu1).
  pose proof (to_us_parts b Hb) as (Ho2 & Hs2 & Hu2).
  unfold _MAXORDINAL in *. unfold dt_diff.
  destruct (timedelta_new_ok (toordinal a - toordinal b)
              (seconds_of_day a - seconds_of_day b)
              (microsecond a - microsecond b)) as [td Ed]; [lia|].
  exists td. split; [assumption|].
  apply timedelta_new_spec in Ed. destruct Ed as (-> & _).
  unfold to_us. lia.
Qed.

Lemma timedelta_hours_spec h td :
  timedelta_hours h = Ok td -> total_microseconds td = h * us_per_hour.
Proof.
  intros H. apply timedelta_new_spec in H. destruct H as (-> & _).
  unfold us_per_hour. lia.
Qed.

Lemma timedelta_days_spec d td :
  timedelta_days d = Ok td -> total_microseconds td = d * 86400000000.
Proof.
  intros H. apply timedelta_new_spec in H. destruct H as (-> & _). lia.
Qed.

(* ===================================================================== *)
(** * The last hour of a month                                            *)
(* ===================================================================== *)


Lemma check_date_fields_ok y m d :
  valid_date y m d -> check_date_fields y m d = Ok tt.
Proof.
  intros (Hy & Hm & Hd). unfold check_date_fields.
  destruct (Z.leb_spec MINYEAR y); [|lia].
  destruct (Z.leb_spec y MAXYEAR); [|lia].
  destruct (Z.leb_spec 1 m); [|lia].
  destruct (Z.leb_spec m 12); [|lia].
  destruct (Z.leb_spec 1 d); [|lia].
  destruct (Z.leb_spec d (_days_in_month y m)); [|lia].
  reflexivity.
Qed.

Lemma ymd2ord_next_month y m d :
  1 <= m <= 12 ->
  _ymd2ord (next_month y m).1 (next_month y m).2 d
  = _ymd2ord y m (_days_in_month y m) + d.
Proof.
  intros Hm. unfold next_month, _ymd2ord.
  destruct (Z.eqb_spec m 12) as [->|Hne]; simpl.
  - pose proof (dby_succ y). pose proof (days_before_month_12 y).
    change (_days_before_month (y + 1) 1) with 0. lia.
  - rewrite days_before_month_succ by lia. lia.
Qed.

Lemma next_month_valid y m d :
  MINYEAR <= y <= MAXYEAR -> 1 <= m <= 12 ->
  ~ (y = 9999 /\ m = 12) -> 1 <= d <= 28 ->
  valid_date (next_month y m).1 (next_month y m).2 d.
Proof.
  intros Hy Hm Hne Hd. unfold MINYEAR, MAXYEAR in *.
  unfold next_month, valid_date, MINYEAR, MAXYEAR.
  destruct (Z.eqb_spec m 12) as [->|]; simpl.
  - pose proof (days_in_month_range (y+1) 1 ltac:(lia)). lia.
  - pose proof (days_in_month_range y (m+1) ltac:(lia)). lia.
Qed.

Lemma month_last_hour_valid dt :
  valid_datetime dt -> valid_datetime (month_last_hour dt).
Proof.
  intros ((Hy & Hm & Hd) & _).
  pose proof (days_in_month_range (year dt) (month dt) Hm).
  unfold month_last_hour, valid_datetime, valid_date; simpl. lia.
Qed.

Lemma month_last_h_spec dt :
  valid_datetime dt -> ~ last_month dt ->
  _month_last_h dt = Ok (month_last_hour dt).
Proof.
  intros Hv Hne. unfold last_month, MAXYEAR in Hne.
  pose proof Hv as (Hd & Hh & Hmi & Hs & Hu).
  pose proof Hd as (Hy & Hm & Hdd).
  pose proof (days_in_month_range (year dt) (month dt) Hm) as Hdim.
  set (y := year dt) in *. set (m := month dt) in *.
  set (dim := _days_in_month y m) in *.
  assert (Hv28 : valid_date y m 28) by (unfold valid_date; fold dim; lia).
  unfold _month_last_h, replace_day. fold y m.
  rewrite (check_date_fields_ok _ _ _ Hv28), bind_Ok, bind_Ok.
  change (timedelta_days 4) with (Ok (mktimedelta 4 0 0)). rewrite bind_Ok.
  pose proof (next_month_valid y m (32 - dim) Hy Hm Hne ltac:(lia)) as Hvn.
  pose proof (next_month_valid y m 1 Hy Hm Hne ltac:(lia)) as Hvn1.
  pose proof (ymd2ord_next_month y m (32 - dim) Hm) as Eo.
  pose proof (ymd2ord_next_month y m 1 Hm) as Eo1.
  destruct (next_month y m) as [ny nm]; simpl in Hvn, Hvn1, Eo, Eo1.
  fold dim in Eo, Eo1.
  rewrite (dt_add_intro _ _
             (mkdatetime ny nm (32 - dim) (hour dt) (minute dt) (second dt)
                         (microsecond dt))).
  2:{ unfold valid_datetime; simpl. fold y m. tauto. }
  2:{ unfold valid_datetime; simpl. tauto. }
  2:{ unfold to_us, toordinal, seconds_of_day, total_microseconds; simpl.
      rewrite Eo. unfold _ymd2ord. lia. }
  rstep. simpl year. simpl month.
  rewrite (check_date_fields_ok _ _ _ Hvn1). rstep.
  unfold combine_min, date_of; simpl.
  change (timedelta_hours 1) with (Ok (mktimedelta 0 3600 0)). rstep.
  apply dt_sub_intro.
  - unfold valid_datetime; simpl. split; [assumption|lia].
  - apply month_last_hour_valid, Hv.
  - vm_compute. split; [reflexivity|discriminate].
  - change (total_microseconds _) with 3600000000.
    unfold month_last_hour. fold y m dim.
    unfold to_us, toordinal, seconds_of_day; simpl.
    rewrite Eo1. lia.
Qed.

Lemma month_last_h_overflow dt :
  valid_datetime dt -> last_month dt ->
  _month_last_h dt = Raise (OverflowError "date value out of range").
Proof.
  intros Hv [Ey Em]. unfold MAXYEAR in Ey. pose proof Hv as (Hd & Hh & Hmi & Hs & Hu).
  pose proof Hd as (Hy & Hm & Hdd).
  assert (Hv28 : valid_date (year dt) (month dt) 28)
    by (rewrite Ey, Em; vm_compute; intuition discriminate).
  unfold _month_last_h, replace_day.
  rewrite (check_date_fields_ok _ _ _ Hv28), bind_Ok, bind_Ok.
  change (timedelta_days 4) with (Ok (mktimedelta 4 0 0)). rewrite bind_Ok.
  unfold dt_add. simpl.
  destruct (timedelta_new _ _ _) as [delta|] eqn:Ed.
  2:{ exfalso. revert Ed. unfold timedelta_new.
      match goal with |- context [if ?c then _ else _] => destruct c eqn:E end;
        [discriminate|].
      unfold toordinal, seconds_of_day in E; simpl in E. rewrite Ey, Em in E.
      change (_ymd2ord 9999 12 28) with 3652056 in E.
      apply andb_false_iff in E.
      destruct E as [E|E]; [apply Z.leb_gt in E | apply Z.leb_gt in E];
        Z.div_mod_to_equations; lia. }
  rewrite bind_Ok.
  apply timedelta_new_spec in Ed. destruct Ed as (Et & Hsd & Hud).
  unfold toordinal, seconds_of_day, total_microseconds in Et; simpl in Et.
  rewrite Ey, Em in Et. change (_ymd2ord 9999 12 28) with 3652056 in Et.
  destruct (Z.leb_spec (days delta) _MAXORDINAL) as [H2|H2].
  - exfalso. unfold _MAXORDINAL in H2. lia.
  - rewrite andb_false_r. reflexivity.
Qed.

(* ===================================================================== *)
(** * Parameter names                                                     *)
(* ===================================================================== *)

Lemma pyval_in_str name l : pyval_in (PStr name) l = bool_decide (name ∈ l).
Proof.
  unfold pyval_in. apply bool_decide_ext.
  rewrite list_elem_of_fmap. split.
  - intros (x & [= ->] & Hx). exact Hx.
  - intros H. eauto.
Qed.

Lemma get_param_name_listed name code codes qt :
  (name, code) ∈ codes ->
  Forall (fun '(n, c) => _get_param_name (PStr n) (PStr qt) = Ok (PStr c)) codes ->
  _get_param_name (PStr name) (PStr qt) = Ok (PStr code).
Proof.
  intros Hin Hall. rewrite Forall_forall in Hall. apply (Hall _ Hin).
Qed.

Lemma observation_codes_hold :
  Forall (fun '(n, c) =>
            _get_param_name (PStr n) (PStr "observation") = Ok (PStr c))
         observation_codes.
Proof. repeat constructor. Qed.

Lemma forecast_codes_hold :
  Forall (fun '(n, c) =>
            _get_param_name (PStr n) (PStr "forecast") = Ok (PStr c))
         forecast_codes.
Proof. repeat constructor. Qed.

Lemma get_param_name_unlisted_obs name :
  name ∉ observation_legit ->
  is_ValueError (_get_param_name (PStr name) (PStr "observation")).
Proof.
  intros Hn. unfold is_ValueError, _get_param_name. cbv zeta.
  rewrite (pyval_in_str name), (bool_decide_eq_false_2 _ Hn).
  eexists. reflexivity.
Qed.

Lemma get_param_name_unlisted_fc name :
  name ∉ forecast_legit ->
  is_ValueError (_get_param_name (PStr name) (PStr "forecast")).
Proof.
  intros Hn. unfold is_ValueError, _get_param_name. cbv zeta.
  rewrite (pyval_in_str name forecast_legit), (bool_decide_eq_false_2 _ Hn).
  eexists. reflexivity.
Qed.

(* ===================================================================== *)
(** * Date-range inference                                                *)
(* ===================================================================== *)

Lemma strptime_valid s dt : strptime s = Ok dt -> valid_datetime dt.
Proof.
  unfold strptime. destruct (match_Y _) as [[y r]|]; [|discriminate].
  destruct (match_m r) as [[m r']|]; [|discriminate].
  destruct (match_d r') as [[d [|c r'']]|]; [|discriminate..].
  unfold check_date_fields.
  destruct (Z.leb_spec MINYEAR y); [|discriminate].
  destruct (Z.leb_spec y MAXYEAR); [|discriminate].
  destruct (Z.leb_spec 1 m); [|discriminate].
  destruct (Z.leb_spec m 12); [|discriminate].
  destruct (Z.leb_spec 1 d); [|discriminate].
  destruct (Z.leb_spec d (_days_in_month y m)); [|discriminate].
  simpl. intros [= <-]. unfold valid_datetime, valid_date; simpl. lia.
Qed.

Lemma replace_sec0_valid dt : valid_datetime dt -> valid_datetime (replace_sec0 dt).
Proof. unfold valid_datetime, replace_sec0; simpl. intuition lia. Qed.

Lemma combine_min_valid d : valid_dateobj d -> valid_datetime (combine_min d).
Proof. unfold valid_dateobj, valid_datetime, combine_min; simpl. intuition lia. Qed.

Lemma end_of_day_valid d : valid_dateobj d -> valid_datetime (end_of_day d).
Proof. unfold valid_dateobj, valid_datetime, end_of_day, replace_sec0, combine_max; simpl. intuition lia. Qed.

Lemma read_date_valid arg f r :
  valid_arg arg -> (forall d, valid_dateobj d -> valid_datetime (f d)) ->
  read_date arg f = Ok (Some r) -> valid_datetime r.
Proof.
  intros Ha Hf. unfold read_date.
  destruct (truthy arg); [|discriminate].
  destruct arg as [|s|n|d]; try discriminate.
  - destruct (strptime s) as [dt|] eqn:E; [|discriminate].
    simpl. intros [= <-]. apply Hf. apply strptime_valid in E.
    destruct E as [E _]. exact E.
  - intros [= <-]. apply Hf, Ha.
Qed.

Lemma read_date_supplied arg f :
  (exists r, read_date arg f = Ok (Some r)) \/ (exists e, read_date arg f = Raise e)
  \/ (read_date arg f = Ok None /\ truthy arg = false).
Proof.
  unfold read_date. destruct (truthy arg) eqn:Et; [|auto].
  destruct arg as [|s|n|d]; eauto.
  destruct (strptime s); simpl; eauto.
Qed.

Lemma read_date_Some arg f r : read_date arg f = Ok (Some r) -> truthy arg = true.
Proof. unfold read_date. destruct (truthy arg); [reflexivity|discriminate]. Qed.

Lemma read_date_None arg f : read_date arg f = Ok None -> truthy arg = false.
Proof.
  unfold read_date. destruct (truthy arg); [|reflexivity].
  destruct arg as [|s|n|d]; try discriminate. destruct (strptime s); discriminate.
Qed.

Lemma dt_min_spec a b :
  valid_datetime a -> valid_datetime b ->
  valid_datetime (dt_min a b) /\ to_us (dt_min a b) = Z.min (to_us a) (to_us b).
Proof.
  intros Ha Hb. unfold dt_min. rewrite dt_ltb_spec by assumption.
  destruct (Z.ltb_spec (to_us b) (to_us a)); split; auto; lia.
Qed.

Lemma read_date_is_date arg f :
  is_date_arg arg ->
  (exists r, read_date arg f = Ok r)
  \/ (exists msg, read_date arg f = Raise (ValueError msg)).
Proof.
  intros [[s ->]|[d ->]]; unfold read_date.
  - destruct (truthy (PStr s)); [|eauto].
    unfold strptime.
    destruct (match_Y _) as [[y r]|]; [|unfold no_match; simpl; eauto].
    destruct (match_m r) as [[m r']|]; [|unfold no_match; simpl; eauto].
    destruct (match_d r') as [[d [|c r'']]|]; [| |unfold no_match]; simpl; eauto.
    unfold check_date_fields.
    repeat match goal with
           | |- context [if ?c then _ else _] => destruct c; simpl; eauto
           end.
  - simpl. eauto.
Qed.


Lemma timedelta_of_hours_spec v td :
  timedelta_of_hours v = Ok td ->
  exists h, v = PInt h /\ total_microseconds td = h * us_per_hour.
Proof.
  destruct v as [|s|h|d]; try discriminate. simpl.
  intros H. exists h. split; [reflexivity|]. apply timedelta_hours_spec, H.
Qed.

(** The limits before clamping are datetimes, a definite distance apart
    when hours are involved. *)
Lemma initial_limits_spec now sd ed hours start end0 :
  valid_datetime now -> valid_arg sd -> valid_arg ed ->
  initial_limits now sd ed hours = Ok (start, end0) ->
  valid_datetime start /\ valid_datetime end0
  /\ (forall e, read_date ed end_of_day = Ok (Some e) -> end0 = e)
  /\ (~ supplied sd -> ~ supplied ed ->
      end0 = now /\ exists h, hours = PInt h /\ h <> 0
                     /\ to_us start = to_us now - h * us_per_hour).
Proof.
  intros Hn Hs He. unfold initial_limits, supplied. fold end_of_day.
  destruct (read_date sd combine_min) as [s0|] eqn:Es; [|discriminate].
  destruct (read_date ed end_of_day) as [e0|] eqn:Ee; [|discriminate].
  rstep.
  destruct (negb _) eqn:Eany; [discriminate|].
  destruct (truthy hours && truthy sd && truthy ed); [discriminate|].
  assert (Hvs : forall s, s0 = Some s -> valid_datetime s).
  { intros s ->. eapply read_date_valid; [exact Hs| |exact Es].
    apply combine_min_valid. }
  assert (Hve : forall e, e0 = Some e -> valid_datetime e).
  { intros e ->. eapply read_date_valid; [exact He| |exact Ee].
    apply end_of_day_valid. }
  destruct s0 as [s|], e0 as [e|].
  - intros [= <- <-]. apply read_date_Some in Es.
    split; [|split; [|split]]; auto.
    + intros e' [= ->]. reflexivity.
    + intros Hns. contradiction.
  - apply read_date_Some in Es.
    destruct (truthy hours) eqn:Eh.
    + destruct (timedelta_of_hours hours) as [td|] eqn:Et; [|discriminate].
      rstep. destruct (dt_add s td) as [e|] eqn:Ea; [|discriminate].
      intros [= <- <-].
      destruct (dt_add_spec _ _ _ (Hvs _ eq_refl) Ea) as [Hv _].
      split; [|split; [|split]]; auto; [discriminate|].
      intros Hns. contradiction.
    + intros [= <- <-].
      split; [|split; [|split]]; auto; [discriminate|].
      intros Hns. contradiction.
  - apply read_date_Some in Ee.
    destruct (truthy hours) eqn:Eh.
    + destruct (timedelta_of_hours hours) as [td|] eqn:Et; [|discriminate].
      rstep. destruct (dt_sub e td) as [s|] eqn:Ea; [|discriminate].
      intros [= <- <-].
      destruct (dt_sub_spec _ _ _ (Hve _ eq_refl) Ea) as [Hv _].
      split; [|split; [|split]]; auto.
      * intros e' [= ->]. reflexivity.
      * intros _ Hne. contradiction.
    + intros [= <- <-].
      split; [|split; [|split]]; auto.
      * vm_compute. intuition discriminate.
      * intros e' [= ->]. reflexivity.
      * intros _ Hne. contradiction.
  - destruct (timedelta_of_hours hours) as [td|] eqn:Et; [|discriminate].
    rstep. destruct (dt_sub now td) as [s|] eqn:Ea; [|discriminate].
    intros [= <- <-].
    destruct (dt_sub_spec _ _ _ Hn Ea) as [Hv Hus].
    destruct (timedelta_of_hours_spec _ _ Et) as (h & -> & Hh).
    apply read_date_None in Es, Ee. rewrite Es, Ee in Eany.
    split; [|split; [|split]]; auto; [discriminate|].
    intros _ _. split; [reflexivity|]. exists h.
    split; [reflexivity|]. split; [|lia].
    intros ->. discriminate Eany.
Qed.

(** Limits come out for valid combinations only. *)
Lemma initial_limits_combination now sd ed hours r :
  initial_limits now sd ed hours = Ok r ->
  (supplied hours \/ supplied sd \/ supplied ed)
  /\ ~ (supplied hours /\ supplied sd /\ supplied ed).
Proof.
  unfold initial_limits, supplied.
  destruct (read_date sd combine_min); [|discriminate].
  destruct (read_date ed end_of_day); [|discriminate]. rstep.
  destruct (truthy hours), (truthy sd), (truthy ed); simpl;
    try discriminate; intros _; (split; [auto|]);
    intros (? & ? & ?); discriminate.
Qed.

(** Clamping keeps the end at or before the present. *)
Lemma get_datetime_limits_spec clock sd ed hours start end_ :
  valid_datetime clock -> valid_arg sd -> valid_arg ed ->
  _get_datetime_limits clock sd ed hours = Ok (start, end_) ->
  exists end0,
    initial_limits (replace_sec0 clock) sd ed hours = Ok (start, end0)
    /\ end_ = dt_min (replace_sec0 clock) end0
    /\ valid_datetime start /\ valid_datetime end0 /\ valid_datetime end_
    /\ to_us end_ = Z.min (to_us (replace_sec0 clock)) (to_us end0).
Proof.
  intros Hc Hs He. unfold _get_datetime_limits. cbv zeta.
  destruct (initial_limits _ sd ed hours) as [[s e0]|] eqn:Ei; [|discriminate].
  rstep. intros [= <- <-]. exists e0.
  pose proof (replace_sec0_valid _ Hc) as Hn.
  destruct (initial_limits_spec _ _ _ _ _ _ Hn Hs He Ei) as (Hvs & Hve & _).
  destruct (dt_min_spec _ _ Hn Hve) as [Hvm Hum].
  split_and!; auto.
Qed.

Lemma on_calendar_valid dt : valid_datetime dt -> on_calendar (to_us dt).
Proof.
  intros H. destruct (to_us_parts _ H) as (Ho & Hs & Hu).
  unfold on_calendar, to_us, _MAXORDINAL in *. lia.
Qed.

Lemma timedelta_hours_ok dt h :
  valid_datetime dt ->
  on_calendar (to_us dt + h * us_per_hour)
  \/ on_calendar (to_us dt - h * us_per_hour) ->
  exists td, timedelta_hours h = Ok td
             /\ total_microseconds td = h * us_per_hour.
Proof.
  intros Hv Hc. pose proof (on_calendar_valid _ Hv) as Hd.
  destruct (timedelta_new_ok 0 (h * 3600) 0) as [td Etd].
  { unfold on_calendar, us_per_hour, _MAXORDINAL in *. lia. }
  exists td. split; [exact Etd|]. apply timedelta_hours_spec, Etd.
Qed.

Lemma dt_add_hours_exists dt h :
  valid_datetime dt -> on_calendar (to_us dt + h * us_per_hour) ->
  exists r, (td ← timedelta_hours h; dt_add dt td) = Ok r.
Proof.
  intros Hv Hc.
  destruct (timedelta_hours_ok dt h Hv (or_introl Hc)) as (td & -> & Ht).
  rstep. apply dt_add_exists; [assumption|]. rewrite Ht. exact Hc.
Qed.

Lemma dt_sub_hours_exists dt h :
  valid_datetime dt -> on_calendar (to_us dt - h * us_per_hour) ->
  exists r, (td ← timedelta_hours h; dt_sub dt td) = Ok r.
Proof.
  intros Hv Hc. pose proof (on_calendar_valid _ Hv) as Hd.
  destruct (timedelta_hours_ok dt h Hv (or_intror Hc)) as (td & -> & Ht).
  rstep. unfold dt_sub.
  destruct (timedelta_new_ok (- days td) (- seconds td) (- microseconds td))
    as [neg En].
  { unfold total_microseconds in Ht.
    unfold on_calendar, us_per_hour, _MAXORDINAL in *. lia. }
  rewrite En. rstep. apply dt_add_exists; [assumption|].
  rewrite (timedelta_neg_spec _ _ En), Ht.
  replace (to_us dt + - (h * us_per_hour)) with (to_us dt - h * us_per_hour)
    by lia.
  exact Hc.
Qed.

(** The inference returns for a valid combination of dates that can be
    read and hours that keep it on the calendar. *)
Lemma get_datetime_limits_returns clock sd ed hours s0 e0 :
  valid_datetime clock -> valid_arg sd -> valid_arg ed ->
  supplied hours \/ supplied sd \/ supplied ed ->
  ~ (supplied hours /\ supplied sd /\ supplied ed) ->
  read_date sd combine_min = Ok s0 ->
  read_date ed end_of_day = Ok e0 ->
  (supplied hours ->
   exists h, hours = PInt h
             /\ on_calendar (shifted s0 e0 (replace_sec0 clock) h)) ->
  exists start end_,
    _get_datetime_limits clock sd ed hours = Ok (start, end_).
Proof.
  intros Hc Hs He Hany Hall Es Ee Hh. unfold supplied in *.
  pose proof (replace_sec0_valid _ Hc) as Hn.
  unfold _get_datetime_limits, initial_limits. cbv zeta.
  rewrite Es, Ee. rstep.
  assert ((truthy hours || truthy sd || truthy ed) = true) as ->.
  { destruct Hany as [-> | [-> | ->]];
      rewrite ?orb_true_r; reflexivity. }
  assert ((truthy hours && truthy sd && truthy ed) = false) as ->.
  { destruct (truthy hours), (truthy sd), (truthy ed); try reflexivity.
    exfalso. apply Hall. auto. }
  cbn [negb].
  assert (Hvs : forall s, s0 = Some s -> valid_datetime s).
  { intros s ->. eapply read_date_valid; [exact Hs| |exact Es].
    apply combine_min_valid. }
  assert (Hve : forall e, e0 = Some e -> valid_datetime e).
  { intros e ->. eapply read_date_valid; [exact He| |exact Ee].
    apply end_of_day_valid. }
  destruct s0 as [s|], e0 as [e|]; simpl in Hh.
  - eauto.
  - destruct (truthy hours); [|eauto].
    destruct (Hh eq_refl) as (h & -> & Hcal). cbn [timedelta_of_hours].
    destruct (dt_add_hours_exists s h (Hvs _ eq_refl) Hcal) as [r Hr].
    revert Hr. rstep. destruct (timedelta_hours h); [|discriminate].
    intros ->. eauto.
  - destruct (truthy hours); [|eauto].
    destruct (Hh eq_refl) as (h & -> & Hcal). cbn [timedelta_of_hours].
    destruct (dt_sub_hours_exists e h (Hve _ eq_refl) Hcal) as [r Hr].
    revert Hr. rstep. destruct (timedelta_hours h); [|discriminate].
    intros ->. eauto.
  - apply read_date_None in Es, Ee.
    assert (Ht : truthy hours = true).
    { destruct Hany as [H|[H|H]]; [exact H|congruence..]. }
    destruct (Hh Ht) as (h & -> & Hcal). cbn [timedelta_of_hours].
    destruct (dt_sub_hours_exists _ h Hn Hcal) as [r Hr].
    revert Hr. rstep. destruct (timedelta_hours h); [|discriminate].
    intros ->. eauto.
Qed.

Lemma whole_minute_us dt :
  valid_datetime dt -> (whole_minute dt <-> to_us dt mod 60000000 = 0).
Proof.
  intros (_ & Hh & Hm & Hs & Hu). unfold whole_minute.
  assert (E : to_us dt
              = (toordinal dt * 1440 + hour dt * 60 + minute dt) * 60000000
                + (second dt * 1000000 + microsecond dt))
    by (unfold to_us, seconds_of_day; lia).
  rewrite E, Z.add_comm, Z_mod_plus_full, Z.mod_small by lia. lia.
Qed.

Lemma whole_minute_hours a b k :
  valid_datetime a -> valid_datetime b ->
  to_us b = to_us a + k * us_per_hour ->
  whole_minute a -> whole_minute b.
Proof.
  intros Ha Hb He. rewrite !whole_minute_us by assumption.
  rewrite He. unfold us_per_hour. intros H.
  replace (to_us a + k * 3600000000)
    with (to_us a + (k * 60) * 60000000) by lia.
  rewrite Z_mod_plus_full. exact H.
Qed.

(** The limits are whole minutes, so that the span between them is a whole
    number of seconds, which a float holds exactly. *)
Lemma get_datetime_limits_whole_minutes clock sd ed hours start end_ :
  valid_datetime clock -> valid_arg sd -> valid_arg ed ->
  _get_datetime_limits clock sd ed hours = Ok (start, end_) ->
  whole_minute start /\ whole_minute end_.
Proof.
  intros Hc Hs He Hl.
  destruct (get_datetime_limits_spec _ _ _ _ _ _ Hc Hs He Hl)
    as (end0 & Hi & -> & Hvs & Hv0 & Hve & _).
  pose proof (replace_sec0_valid _ Hc) as Hn.
  set (now := replace_sec0 clock) in *.
  assert (Hwn : whole_minute now) by (split; reflexivity).
  assert (Hw : whole_minute start /\ whole_minute end0).
  { revert Hi. unfold initial_limits.
    destruct (read_date sd combine_min) as [s0|] eqn:Es; [|discriminate].
    destruct (read_date ed end_of_day) as [e0|] eqn:Ee; [|discriminate].
    rstep.
    destruct (negb _); [discriminate|].
    destruct (truthy hours && truthy sd && truthy ed); [discriminate|].
    assert (Hws : forall s, s0 = Some s -> valid_datetime s /\ whole_minute s).
    { intros s ->. split.
      - eapply read_date_valid; [exact Hs|apply combine_min_valid|exact Es].
      - revert Es. unfold read_date. destruct (truthy sd); [|discriminate].
        destruct sd as [|x|x|x]; try discriminate.
        + destruct (strptime x); [|discriminate]. intros [= <-].
          split; reflexivity.
        + intros [= <-]. split; reflexivity. }
    assert (Hwe : forall e, e0 = Some e -> valid_datetime e /\ whole_minute e).
    { intros e ->. split.
      - eapply read_date_valid; [exact He|apply end_of_day_valid|exact Ee].
      - revert Ee. unfold read_date. destruct (truthy ed); [|discriminate].
        destruct ed as [|x|x|x]; try discriminate.
        + destruct (strptime x); [|discriminate]. intros [= <-].
          split; reflexivity.
        + intros [= <-]. split; reflexivity. }
    destruct s0 as [s|], e0 as [e|].
    - intros [= <- <-]. split; [apply (Hws s)|apply (Hwe e)]; reflexivity.
    - destruct (Hws s eq_refl) as [Hv Hw].
      destruct (truthy hours).
      + destruct (timedelta_of_hours hours) as [td|] eqn:Et; [|discriminate].
        rstep. destruct (dt_add s td) as [e|] eqn:Ea; [|discriminate].
        intros [= <- <-]. split; [exact Hw|].
        destruct (dt_add_spec _ _ _ Hv Ea) as [Hve' Hue].
        destruct (timedelta_of_hours_spec _ _ Et) as (h & _ & Hh).
        apply (whole_minute_hours s e h); [assumption..|lia|assumption].
      + intros [= <- <-]. split; assumption.
    - destruct (Hwe e eq_refl) as [Hv Hw].
      destruct (truthy hours).
      + destruct (timedelta_of_hours hours) as [td|] eqn:Et; [|discriminate].
        rstep. destruct (dt_sub e td) as [s|] eqn:Ea; [|discriminate].
        intros [= <- <-]. split; [|exact Hw].
        destruct (dt_sub_spec _ _ _ Hv Ea) as [Hvs' Hus].
        destruct (timedelta_of_hours_spec _ _ Et) as (h & _ & Hh).
        apply (whole_minute_hours e s (- h)); [assumption..|lia|assumption].
      + intros [= <- <-]. split; [split; reflexivity|assumption].
    - destruct (timedelta_of_hours hours) as [td|] eqn:Et; [|discriminate].
      rstep. destruct (dt_sub now td) as [s|] eqn:Ea; [|discriminate].
      intros [= <- <-]. split; [|exact Hwn].
      destruct (dt_sub_spec _ _ _ Hn Ea) as [Hvs' Hus].
      destruct (timedelta_of_hours_spec _ _ Et) as (h & _ & Hh).
      apply (whole_minute_hours now s (- h)); [assumption..|lia|assumption]. }
  destruct Hw as [Hw1 Hw2]. split; [exact Hw1|].
  unfold dt_min. destruct (dt_ltb end0 now); assumption.
Qed.

(* ===================================================================== *)
(** * Observations in monthly chunks                                     *)
(* ===================================================================== *)

Ltac calc_us dt :=
  let v := eval vm_compute in (to_us dt) in
  change (to_us dt) with v in *.

Lemma last_month_us dt :
  valid_datetime dt -> last_month dt ->
  to_us (mkdatetime 9999 12 1 0 0 0 0) <= to_us dt.
Proof.
  intros (Hd & Hh & Hm & Hs & Hu) [Ey Em]. destruct Hd as (_ & _ & Hd).
  unfold to_us, toordinal, seconds_of_day, _ymd2ord. rewrite Ey, Em. simpl.
  unfold MAXYEAR. lia.
Qed.

Lemma on_the_hour_us t :
  on_the_hour t -> exists k, to_us t = k * us_per_hour.
Proof.
  intros (Hm & Hs & Hu). unfold to_us, seconds_of_day, us_per_hour.
  rewrite Hm, Hs, Hu. exists (toordinal t * 24 + hour t). lia.
Qed.

Lemma month_last_hour_on_the_hour dt : on_the_hour (month_last_hour dt).
Proof. repeat split. Qed.

Lemma next_month_start_valid dt :
  valid_datetime dt -> ~ last_month dt -> valid_datetime (next_month_start dt).
Proof.
  intros ((Hy & Hm & Hd) & _) Hn. unfold last_month, MAXYEAR in Hn.
  pose proof (next_month_valid (year dt) (month dt) 1 Hy Hm Hn ltac:(lia)) as H.
  unfold next_month_start. destruct (next_month _ _) as [y m].
  unfold valid_datetime; simpl in *. split; [exact H|lia].
Qed.

Lemma next_month_start_us dt :
  valid_datetime dt ->
  to_us (next_month_start dt) = to_us (month_last_hour dt) + us_per_hour.
Proof.
  intros ((Hy & Hm & Hd) & _).
  pose proof (ymd2ord_next_month (year dt) (month dt) 1 Hm) as H.
  unfold next_month_start, month_last_hour.
  destruct (next_month _ _) as [y m]. simpl in H.
  unfold to_us, toordinal, seconds_of_day, us_per_hour; simpl.
  rewrite H. lia.
Qed.

Lemma next_month_start_index dt :
  month_index (next_month_start dt) = month_index dt + 1.
Proof.
  unfold next_month_start, next_month, month_index.
  destruct (Z.eqb_spec (month dt) 12) as [E|E]; simpl; lia.
Qed.

Section Observations.
Context `{Ext : Externals}.

Lemma stamp_stamp base c c' : stamp (stamp base c') c = stamp base c.
Proof.
  unfold stamp. apply map_eq. intros k.
  destruct (decide (k = "endtime")) as [->|Hne1];
    [rewrite !lookup_insert_eq; reflexivity|].
  rewrite !(lookup_insert_ne _ "endtime") by congruence.
  destruct (decide (k = "starttime")) as [->|Hne2];
    [rewrite !lookup_insert_eq; reflexivity|].
  rewrite !(lookup_insert_ne _ "starttime") by congruence.
  rewrite !(lookup_insert_ne _ "endtime") by congruence.
  rewrite !(lookup_insert_ne _ "starttime") by congruence.
  reflexivity.
Qed.

(** What one call of [_load_obs] does. *)
Lemma load_obs_unfold q params s e st :
  _load_obs q params s e st =
  let p := stamp params (s, e) in
  let '(w, r) := wfs_getfeature (world st) q p in
  let st' := mkstate w (sent st ++ [(q, p)]) in
  match r with
  | Ok tree =>
      match _tree_to_df tree with
      | Ok df => (st', Ok (p, df))
      | Raise err => (st', Raise err)
      end
  | Raise err => (st', Raise err)
  end.
Proof.
  unfold _load_obs, stamp, _do_query, lift, mret, mbind, M_bind, mbind'.
  simpl. destruct (wfs_getfeature _ _ _) as [w [tree|err]]; [|reflexivity].
  destruct (_tree_to_df tree); reflexivity.
Qed.

Lemma stamped_stamp base params c :
  stamped base params -> stamp params c = stamp base c.
Proof. intros [->|[c' ->]]; [reflexivity|apply stamp_stamp]. Qed.

Lemma load_obs_stamped q base params s e st :
  stamped base params ->
  _load_obs q params s e st = _load_obs q base s e st.
Proof.
  intros H. rewrite !load_obs_unfold. cbv zeta.
  rewrite (stamped_stamp _ _ _ H). reflexivity.
Qed.

Lemma load_obs_params q base s e st st' p df :
  _load_obs q base s e st = (st', Ok (p, df)) -> p = stamp base (s, e).
Proof.
  rewrite load_obs_unfold. cbv zeta.
  destruct (wfs_getfeature _ _ _) as [w [tree|err]]; [|discriminate].
  destruct (_tree_to_df tree); [|discriminate]. congruence.
Qed.

Lemma month_loop_refines base end_ :
  valid_datetime end_ -> dt_lt end_ last_chunk_limit ->
  forall fuel params start df st,
    valid_datetime start -> ~ last_month start ->
    stamped base params ->
    (Z.to_nat (120001 - month_index start) <= fuel)%nat ->
    exists chunks,
      monthly_chunks end_ start chunks
      /\ month_loop fuel observations_queryid params start end_ df st
         = Some (fetch_chunks base chunks df st).
Proof.
  intros Hve Hlim.
  assert (Hvl : valid_datetime last_chunk_limit)
    by (vm_compute; intuition discriminate).
  apply dt_lt_iff in Hlim; [|assumption..].
  calc_us last_chunk_limit.
  induction fuel as [|fuel IH]; intros params start df st Hvs Hnl Hst Hfuel.
  { exfalso. destruct Hvs as ((Hy & Hm & _) & _).
    unfold month_index, MINYEAR, MAXYEAR in *. lia. }
  pose proof (month_last_hour_valid _ Hvs) as Hvlh.
  cbn [month_loop]. rewrite (month_last_h_spec _ Hvs Hnl).
  destruct (dt_ltb end_ (month_last_hour start)) eqn:Elt;
    cbv beta iota zeta;
    rewrite (load_obs_stamped _ base params) by assumption.
  - (* the last chunk *)
    exists [(start, end_)]. split; [constructor; exact Elt|].
    cbn [fetch_chunks fst snd].
    destruct (_load_obs _ base start end_ st) as [st' [[p more]|err]];
      [|reflexivity].
    change (timedelta_hours 1) with (Ok (mktimedelta 0 3600 0)). rstep.
    destruct (dt_add_exists end_ (mktimedelta 0 3600 0) Hve) as [r ->];
      [|reflexivity].
    change (total_microseconds _) with 3600000000.
    pose proof (to_us_parts _ Hve) as (Ho & Hs & Hu).
    unfold _MAXORDINAL in *. unfold to_us in *. lia.
  - (* a whole month, and on to the next *)
    rewrite dt_ltb_spec in Elt by assumption. apply Z.ltb_ge in Elt.
    pose proof (next_month_start_valid _ Hvs Hnl) as Hvn.
    pose proof (next_month_start_us _ Hvs) as Hun.
    assert (Hnl' : ~ last_month (next_month_start start)).
    { intros Hl. apply last_month_us in Hl; [|assumption].
      calc_us (mkdatetime 9999 12 1 0 0 0 0).
      unfold us_per_hour in Hun. lia. }
    destruct (_load_obs _ base start (month_last_hour start) st)
      as [st' [[p more]|err]] eqn:El.
    + pose proof (load_obs_params _ _ _ _ _ _ _ _ El) as ->.
      change (timedelta_hours 1) with (Ok (mktimedelta 0 3600 0)). rstep.
      rewrite (dt_add_intro (month_last_hour start) (mktimedelta 0 3600 0)
                 (next_month_start start) Hvlh Hvn Hun).
      destruct (IH (stamp base (start, month_last_hour start))
                  (next_month_start start) (pd_concat df more) st' Hvn Hnl')
        as (rest & Hrest & Hloop).
      { right. eexists. reflexivity. }
      { rewrite next_month_start_index. lia. }
      exists ((start, month_last_hour start) :: rest). split.
      * econstructor; [| |exact Hrest].
        -- apply dt_le_iff; assumption.
        -- split; assumption.
      * rewrite Hloop. cbn [fetch_chunks fst snd]. rewrite El. reflexivity.
    + (* the query failed: the plan is cut short *)
      destruct (IH base (next_month_start start) df st Hvn Hnl')
        as (rest & Hrest & _).
      { left. reflexivity. }
      { rewrite next_month_start_index. lia. }
      exists ((start, month_last_hour start) :: rest). split.
      * econstructor; [| |exact Hrest].
        -- apply dt_le_iff; assumption.
        -- split; assumption.
      * cbn [fetch_chunks fst snd]. rewrite El. reflexivity.
Qed.


Lemma fetch_chunks_sent base chunks :
  forall df st st' df',
    fetch_chunks base chunks df st = (st', Ok df') ->
    sent st' = (sent st ++ map (obs_query base) chunks)%list
    /\ exists answers,
         length answers = length chunks
         /\ df' = foldl pd_concat df answers.
Proof.
  induction chunks as [|c chunks IH]; intros df st st' df' H.
  - injection H as <- <-. rewrite app_nil_r. split; [reflexivity|].
    exists []. split; reflexivity.
  - cbn [fetch_chunks] in H. rewrite load_obs_unfold in H. cbv zeta in H.
    destruct (wfs_getfeature _ _ _) as [w [tree|err]]; [|discriminate].
    destruct (_tree_to_df tree) as [more|]; [|discriminate].
    apply IH in H. destruct H as (Hs & answers & Hl & Hd).
    cbn [sent] in Hs. rewrite Hs, <- app_assoc.
    split; [destruct c; reflexivity|].
    exists (more :: answers). split; [simpl; congruence|exact Hd].
Qed.

Lemma fetch_chunks_sent_prefix base chunks :
  forall df st st' r,
    fetch_chunks base chunks df st = (st', r) ->
    exists n, sent st' = (sent st ++ map (obs_query base) (take n chunks))%list.
Proof.
  induction chunks as [|c chunks IH]; intros df st st' r H.
  - injection H as <- <-. exists 0%nat. rewrite app_nil_r. reflexivity.
  - cbn [fetch_chunks] in H. rewrite load_obs_unfold in H. cbv zeta in H.
    destruct (wfs_getfeature _ _ _) as [w [tree|err]].
    + destruct (_tree_to_df tree) as [more|].
      * apply IH in H. destruct H as (n & Hs). exists (S n).
        cbn [sent] in Hs. rewrite Hs, <- app_assoc. destruct c. reflexivity.
      * injection H as <- <-. exists 1%nat. destruct c. reflexivity.
    + injection H as <- <-. exists 1%nat. destruct c. reflexivity.
Qed.

End Observations.

(** The plan of chunks *)
Lemma month_last_hour_after dt :
  valid_datetime dt -> to_us dt < to_us (month_last_hour dt) + us_per_hour.
Proof.
  intros ((Hy & Hm & Hd) & Hh & Hmi & Hs & Hu).
  unfold month_last_hour, to_us, toordinal, seconds_of_day, _ymd2ord,
    us_per_hour; simpl. lia.
Qed.

Lemma monthly_chunks_bounds end_ start chunks :
  valid_datetime start -> valid_datetime end_ ->
  monthly_chunks end_ start chunks ->
  Forall (fun c : chunk => valid_datetime c.1 /\ valid_datetime c.2
                           /\ to_us start <= to_us c.1) chunks.
Proof.
  intros Hs He H. induction H as [s Hlt | s s' rest Hle [Hv' Hu] Hrest IH].
  - constructor; [|constructor]. simpl. split_and!; [assumption..|lia].
  - constructor.
    + simpl. split_and!; [assumption| |lia].
      apply month_last_hour_valid; assumption.
    + specialize (IH Hv').
      pose proof (month_last_hour_after _ Hs).
      eapply Forall_impl; [exact IH|].
      intros c (? & ? & ?). split_and!; [assumption..|lia].
Qed.

Lemma monthly_chunks_cover end_ start chunks :
  valid_datetime start -> valid_datetime end_ ->
  monthly_chunks end_ start chunks ->
  forall t, valid_datetime t -> on_the_hour t ->
    dt_le start t -> dt_le t end_ ->
    exists i c, chunks !! i = Some c /\ in_chunk t c
      /\ forall j c', chunks !! j = Some c' -> in_chunk t c' -> j = i.
Proof.
  intros Hs He H t Ht Hh.
  induction H as [s Hlt | s s' rest Hle [Hv' Hu] Hrest IH]; intros Hst Hte.
  - exists 0%nat, (s, end_). split; [reflexivity|]. split; [split; assumption|].
    intros [|j] c' Hj _; [reflexivity|]. destruct j; discriminate.
  - pose proof (month_last_hour_valid _ Hs) as Hvl.
    destruct (Z.le_gt_cases (to_us t) (to_us (month_last_hour s))) as [Hin|Hout].
    + exists 0%nat, (s, month_last_hour s). split; [reflexivity|].
      split; [split; [assumption|apply dt_le_iff; assumption]|].
      intros [|j] c' Hj [Hc1 Hc2]; [reflexivity|]. exfalso.
      pose proof (monthly_chunks_bounds _ _ _ Hv' He Hrest) as Hb.
      rewrite Forall_forall in Hb.
      assert (Hc : c' ∈ rest) by (eapply list_elem_of_lookup_2; exact Hj).
      destruct (Hb _ Hc) as (Hv1 & Hv2 & Hge).
      apply dt_le_iff in Hc1; [|assumption..]. unfold us_per_hour in Hu. lia.
    + destruct (on_the_hour_us _ Hh) as [k Hk].
      destruct (on_the_hour_us _ (month_last_hour_on_the_hour s)) as [k' Hk'].
      assert (Hge : to_us s' <= to_us t)
        by (unfold us_per_hour in *; lia).
      destruct IH as (i & c & Hi & Hc & Huniq); [assumption| |assumption|].
      { apply dt_le_iff; assumption. }
      exists (S i), c. split; [exact Hi|]. split; [exact Hc|].
      intros [|j] c' Hj [Hc1 Hc2].
      * exfalso. injection Hj as <-. simpl in Hc2.
        apply dt_le_iff in Hc2; [|assumption..]. lia.
      * f_equal. eapply Huniq; [exact Hj|split; assumption].
Qed.

(** The plan, chunk by chunk. *)
Lemma monthly_chunks_shape end_ start chunks :
  valid_datetime start -> valid_datetime end_ ->
  monthly_chunks end_ start chunks ->
  (exists c, chunks !! 0%nat = Some c /\ c.1 = start)
  /\ (exists s, last chunks = Some (s, end_)
                /\ dt_lt end_ (month_last_hour s))
  /\ (forall i a b,
        chunks !! i = Some a -> chunks !! S i = Some b ->
        a.2 = month_last_hour a.1 /\ dt_le a.2 end_
        /\ hour_later a.2 b.1 /\ dt_lt a.1 b.1).
Proof.
  intros Hs He H.
  induction H as [s Hlt | s s' rest Hle [Hv' Hu] Hrest IH].
  - split_and!.
    + exists (s, end_). split; reflexivity.
    + exists s. split; [reflexivity|exact Hlt].
    + intros [|i] a b _ Hb; discriminate Hb.
  - destruct (IH Hv') as ((c & Hc & Hc1) & (sl & Hl & Hll) & Hcons).
    split_and!.
    + exists (s, month_last_hour s). split; reflexivity.
    + exists sl. split; [|exact Hll].
      destruct rest as [|c' rest']; [discriminate Hc|]. exact Hl.
    + intros [|i] a b Ha Hb.
      * injection Ha as <-. change (rest !! 0%nat = Some b) in Hb.
        rewrite Hc in Hb.
        injection Hb as <-. simpl. rewrite Hc1.
        split_and!; [reflexivity|exact Hle|split; assumption|].
        apply dt_lt_iff; [assumption..|].
        pose proof (month_last_hour_after _ Hs). lia.
      * apply (Hcons i); assumption.
Qed.

Section ObservationsTop.
Context `{Ext : Externals}.

Lemma span_hours_spec start end_ :
  valid_datetime start -> valid_datetime end_ ->
  span_hours start end_ = Ok ((to_us end_ - to_us start) / us_per_hour).
Proof.
  intros Hs He. unfold span_hours.
  destruct (dt_diff_spec end_ start He Hs) as (td & -> & Ht).
  rstep. rewrite Ht. reflexivity.
Qed.

(** [get_observations] from the point where the range is known. *)
Lemma get_observations_unfold clock place fmisid parameter hours sd ed st
    code start end_ :
  valid_datetime start -> valid_datetime end_ ->
  _fmi_inputchecks place fmisid parameter PNone = Ok tt ->
  _get_param_name parameter (PStr "observation") = Ok code ->
  _get_datetime_limits clock sd ed hours = Ok (start, end_) ->
  get_observations clock place fmisid parameter hours sd ed st =
  let base := observation_base place fmisid code in
  if 744 <? (to_us end_ - to_us start) / us_per_hour then
    month_loop max_months observations_queryid base start end_
               (mkDataFrame [] []) st
  else
    match _load_obs observations_queryid base start end_ st with
    | (st', Ok (_, df)) => Some (st', Ok df)
    | (st', Raise e) => Some (st', Raise e)
    end.
Proof.
  intros Hs He Hc Hp Hl. unfold get_observations.
  rewrite Hc, Hp, Hl, (span_hours_spec _ _ Hs He). cbv zeta.
  fold (observation_base place fmisid code).
  destruct (744 <? _); reflexivity.
Qed.



Lemma last_month_dec dt : {last_month dt} + {~ last_month dt}.
Proof.
  unfold last_month.
  destruct (Z.eq_dec (year dt) MAXYEAR), (Z.eq_dec (month dt) 12);
    [left|right..]; tauto.
Defined.

(** The loop comes to an end within the fuel. *)
Lemma month_loop_total q end_ fuel :
  forall params start df st,
    valid_datetime start ->
    (Z.to_nat (120001 - month_index start) <= fuel)%nat ->
    exists res, month_loop fuel q params start end_ df st = Some res.
Proof.
  induction fuel as [|fuel IH]; intros params start df st Hvs Hfuel.
  { exfalso. destruct Hvs as ((Hy & Hm & _) & _).
    unfold month_index, MINYEAR, MAXYEAR in *. lia. }
  cbn [month_loop].
  destruct (last_month_dec start) as [Hl|Hnl].
  { rewrite (month_last_h_overflow _ Hvs Hl). eauto. }
  rewrite (month_last_h_spec _ Hvs Hnl).
  pose proof (month_last_hour_valid _ Hvs) as Hvlh.
  destruct (dt_ltb end_ (month_last_hour start)); cbv beta iota zeta.
  - destruct (_load_obs _ _ _ _ _) as [st' [[p more]|e]]; [|eauto].
    destruct (td ← timedelta_hours 1; dt_add end_ td); eauto.
  - destruct (_load_obs _ _ _ _ _) as [st' [[p more]|e]]; [|eauto].
    change (timedelta_hours 1) with (Ok (mktimedelta 0 3600 0)). rstep.
    rewrite (dt_add_intro (month_last_hour start) (mktimedelta 0 3600 0)
               (next_month_start start) Hvlh
               (next_month_start_valid _ Hvs Hnl)
               (next_month_start_us _ Hvs)).
    apply IH; [apply next_month_start_valid; assumption|].
    rewrite next_month_start_index. lia.
Qed.

(** [get_observations] returns or raises: the model does not run dry. *)
Lemma get_observations_total clock place fmisid parameter hours sd ed st :
  valid_datetime clock -> valid_arg sd -> valid_arg ed ->
  exists res,
    get_observations clock place fmisid parameter hours sd ed st = Some res.
Proof.
  intros Hc Hs He. unfold get_observations.
  destruct (_fmi_inputchecks _ _ _ _); [|eauto].
  destruct (_get_param_name _ _) as [code|]; [|eauto].
  destruct (_get_datetime_limits _ _ _ _) as [[start end_]|] eqn:El; [|eauto].
  destruct (get_datetime_limits_spec _ _ _ _ _ _ Hc Hs He El)
    as (end0 & _ & _ & Hvs & _ & Hve & _).
  destruct (span_hours start end_); [|eauto]. cbv zeta.
  destruct (negb _).
  - destruct (_load_obs _ _ _ _ _) as [st' [[p df]|e]]; eauto.
  - apply month_loop_total; [assumption|].
    destruct Hvs as ((Hy & Hm & _) & _).
    unfold month_index, MINYEAR in *. unfold max_months. lia.
Qed.

End ObservationsTop.

(* ===================================================================== *)
(** * Checks, queries and conversion                                     *)
(* ===================================================================== *)

Section Service.
Context `{Ext : Externals}.

Lemma inputchecks_pass place fmisid parameter model :
  supplied place \/ supplied fmisid -> supplied parameter ->
  known_model model ->
  _fmi_inputchecks place fmisid parameter model = Ok tt.
Proof.
  unfold supplied, known_model, _fmi_inputchecks. intros Hl -> Hm. cbn [negb].
  assert ((negb (truthy place) && negb (truthy fmisid)) = false) as ->.
  { destruct Hl as [-> | ->]; [reflexivity|apply andb_false_r]. }
  destruct Hm as [Hm|[-> | ->]]; [|reflexivity..].
  apply not_true_is_false in Hm. rewrite Hm. reflexivity.
Qed.

Lemma inputchecks_no_location place fmisid parameter model :
  ~ supplied place -> ~ supplied fmisid ->
  is_ValueError (_fmi_inputchecks place fmisid parameter model).
Proof.
  unfold supplied, _fmi_inputchecks, is_ValueError. intros Hp Hf.
  apply not_true_is_false in Hp, Hf. rewrite Hp, Hf.
  destruct (truthy parameter); simpl; eauto.
Qed.

Lemma inputchecks_fmisid place fmisid parameter model :
  supplied place ->
  _fmi_inputchecks place fmisid parameter model
  = _fmi_inputchecks place PNone parameter model.
Proof.
  unfold supplied, _fmi_inputchecks. intros ->. reflexivity.
Qed.

Lemma location_place place fmisid :
  supplied place -> location place fmisid = {[ "place" := place ]}.
Proof. unfold supplied, location. intros ->. reflexivity. Qed.

Lemma get_observations_fmisid clock place fmisid parameter hours sd ed st :
  supplied place ->
  get_observations clock place fmisid parameter hours sd ed st
  = get_observations clock place PNone parameter hours sd ed st.
Proof.
  intros Hp. unfold get_observations.
  rewrite (inputchecks_fmisid _ fmisid), (location_place _ fmisid),
    (location_place _ PNone) by assumption.
  reflexivity.
Qed.

Lemma get_forecast_fmisid clock place fmisid parameter model hours st :
  supplied place ->
  get_forecast clock place fmisid parameter model hours st
  = get_forecast clock place PNone parameter model hours st.
Proof.
  intros Hp. unfold get_forecast.
  rewrite (inputchecks_fmisid _ fmisid), (location_place _ fmisid),
    (location_place _ PNone) by assumption.
  reflexivity.
Qed.

Lemma stamp_same_but_times params c k :
  k <> "starttime" -> k <> "endtime" -> stamp params c !! k = params !! k.
Proof.
  intros H1 H2. unfold stamp.
  rewrite !lookup_insert_ne by congruence. reflexivity.
Qed.

Lemma load_obs_sent q params s e st st' r :
  _load_obs q params s e st = (st', r) ->
  sent st' = (sent st ++ [(q, stamp params (s, e))])%list.
Proof.
  rewrite load_obs_unfold. cbv zeta.
  destruct (wfs_getfeature _ _ _) as [w [tree|err]];
    [destruct (_tree_to_df tree)|]; intros [= <- _]; reflexivity.
Qed.

Lemma month_loop_sent q end_ fuel :
  forall params start df st st' r,
    month_loop fuel q params start end_ df st = Some (st', r) ->
    exists new, sent st' = (sent st ++ new)%list
                /\ Forall (same_but_times params) new.
Proof.
  induction fuel as [|fuel IH]; intros params start df st st' r H;
    [discriminate|].
  cbn [month_loop] in H.
  destruct (_month_last_h start) as [lh|].
  2:{ injection H as <- <-. exists []. rewrite app_nil_r. split; constructor. }
  set (block_end := if dt_ltb end_ lh then end_ else lh) in *.
  assert (H' :
    match _load_obs q params start block_end st with
    | (st0, Ok (params0, more)) =>
        match (td ← timedelta_hours 1; dt_add block_end td) with
        | Ok start0 =>
            if dt_ltb end_ lh then Some (st0, Ok (pd_concat df more))
            else month_loop fuel q params0 start0 end_ (pd_concat df more) st0
        | Raise e => Some (st0, Raise e)
        end
    | (st0, Raise e) => Some (st0, Raise e)
    end = Some (st', r)).
  { subst block_end. destruct (dt_ltb end_ lh); exact H. }
  clear H.
  assert (Hone : Forall (same_but_times params)
                   [(q, stamp params (start, block_end))]).
  { constructor; [|constructor]. intros k. apply stamp_same_but_times. }
  destruct (_load_obs q params start block_end st)
    as [st0 [[params0 more]|e]] eqn:El.
  - pose proof (load_obs_sent _ _ _ _ _ _ _ El) as Hs.
    pose proof (load_obs_params _ _ _ _ _ _ _ _ El) as ->.
    destruct (td ← timedelta_hours 1; dt_add block_end td) as [start0|e].
    + destruct (dt_ltb end_ lh).
      * injection H' as <- <-. eauto.
      * apply IH in H'. destruct H' as (new & Hn & Hf).
        exists ((q, stamp params (start, block_end)) :: new).
        split; [rewrite Hn, Hs, <- app_assoc; reflexivity|].
        constructor; [intros k; apply stamp_same_but_times|].
        eapply Forall_impl; [exact Hf|].
        intros query Hq k H1 H2. rewrite (Hq k H1 H2).
        apply stamp_same_but_times; assumption.
    + injection H' as <- <-. eauto.
  - pose proof (load_obs_sent _ _ _ _ _ _ _ El) as Hs.
    injection H' as <- <-. eauto.
Qed.

Lemma get_observations_sent clock place fmisid parameter hours sd ed st st' r :
  get_observations clock place fmisid parameter hours sd ed st
  = Some (st', r) ->
  exists new,
    sent st' = (sent st ++ new)%list
    /\ Forall (fun query =>
                 forall k, k <> "starttime" -> k <> "endtime" ->
                           k <> "parameters" ->
                           query.2 !! k = location place fmisid !! k) new.
Proof.
  unfold get_observations.
  assert (Hnone : exists new : list (string * gmap string pyval),
             sent st = (sent st ++ new)%list
             /\ Forall (fun query =>
                 forall k, k <> "starttime" -> k <> "endtime" ->
                           k <> "parameters" ->
                           query.2 !! k = location place fmisid !! k) new).
  { exists []. rewrite app_nil_r. split; constructor. }
  destruct (_fmi_inputchecks _ _ _ _); [|intros [= <- _]; exact Hnone].
  destruct (_get_param_name _ _) as [code|]; [|intros [= <- _]; exact Hnone].
  destruct (_get_datetime_limits _ _ _ _) as [[start end_]|];
    [|intros [= <- _]; exact Hnone].
  destruct (span_hours start end_) as [h|]; [|intros [= <- _]; exact Hnone].
  cbv zeta.
  assert (Hbase : forall query,
             same_but_times (<["parameters" := code]> (location place fmisid))
               query ->
             forall k, k <> "starttime" -> k <> "endtime" ->
                       k <> "parameters" ->
                       query.2 !! k = location place fmisid !! k).
  { intros query Hq k H1 H2 H3. rewrite (Hq k H1 H2).
    apply lookup_insert_ne. congruence. }
  destruct (negb (744 <? h)).
  - destruct (_load_obs _ _ start end_ st) as [st0 res] eqn:El.
    pose proof (load_obs_sent _ _ _ _ _ _ _ El) as Hs.
    intros H. assert (st0 = st') as <-
      by (destruct res as [[? ?]|]; congruence).
    eexists. split; [exact Hs|]. constructor; [|constructor].
    apply Hbase. intros k. apply stamp_same_but_times.
  - intros H. apply month_loop_sent in H. destruct H as (new & Hn & Hf).
    exists new. split; [exact Hn|].
    eapply Forall_impl; [exact Hf|]. exact Hbase.
Qed.


(** [get_forecast], step by step. *)
Lemma get_forecast_unfold clock place fmisid parameter model hours st :
  get_forecast clock place fmisid parameter model hours st =
  match _fmi_inputchecks place fmisid parameter model with
  | Raise e => (st, Raise e)
  | Ok _ =>
  match _get_param_name parameter (PStr "forecast") with
  | Raise e => (st, Raise e)
  | Ok code =>
  match timedelta_of_hours (forecast_hours model hours) with
  | Raise e => (st, Raise e)
  | Ok td =>
  match dt_add (replace_sec0 clock) td with
  | Raise e => (st, Raise e)
  | Ok end_ =>
      let params := forecast_params place fmisid code end_ in
      let '(w, r) :=
        wfs_getfeature (world st) (forecast_queryid model) params in
      (mkstate w (sent st ++ [(forecast_queryid model, params)]),
       match r with
       | Ok tree => _tree_to_df tree
       | Raise e => Raise e
       end)
  end end end end.
Proof.
  unfold get_forecast, forecast_hours, forecast_queryid, forecast_params,
    _do_query, lift, mbind, M_bind, mbind'.
  destruct (_fmi_inputchecks _ _ _ _); [|reflexivity].
  destruct (_get_param_name _ _); [|reflexivity].
  cbv zeta.
  destruct (timedelta_of_hours _); [|reflexivity].
  destruct (dt_add _ _); [|reflexivity].
  destruct (wfs_getfeature _ _ _) as [w [tree|e]]; reflexivity.
Qed.

Lemma get_forecast_sent clock place fmisid parameter model hours st st' r :
  get_forecast clock place fmisid parameter model hours st = (st', r) ->
  exists new,
    sent st' = (sent st ++ new)%list
    /\ Forall (fun query =>
                 forall k, k <> "endtime" -> k <> "parameters" ->
                           query.2 !! k = location place fmisid !! k) new.
Proof.
  rewrite get_forecast_unfold.
  assert (Hnone : exists new : list (string * gmap string pyval),
             sent st = (sent st ++ new)%list
             /\ Forall (fun query =>
                 forall k, k <> "endtime" -> k <> "parameters" ->
                           query.2 !! k = location place fmisid !! k) new).
  { exists []. rewrite app_nil_r. split; constructor. }
  destruct (_fmi_inputchecks _ _ _ _); [|intros [= <- _]; exact Hnone].
  destruct (_get_param_name _ _) as [code|]; [|intros [= <- _]; exact Hnone].
  destruct (timedelta_of_hours _); [|intros [= <- _]; exact Hnone].
  destruct (dt_add _ _) as [end_|]; [|intros [= <- _]; exact Hnone].
  cbv zeta. destruct (wfs_getfeature _ _ _) as [w res].
  intros [= <- _]. eexists. split; [reflexivity|].
  constructor; [|constructor]. intros k H1 H2. unfold forecast_params. simpl.
  rewrite !lookup_insert_ne by congruence. reflexivity.
Qed.

Lemma location_place_only place fmisid (query : string * gmap string pyval) :
  supplied place ->
  query.2 !! "place" = location place fmisid !! "place" ->
  query.2 !! "fmisid" = location place fmisid !! "fmisid" ->
  uses_place_only place query.
Proof.
  intros Hp H1 H2. rewrite (location_place _ _ Hp) in H1, H2.
  split; [rewrite H1|rewrite H2]; reflexivity.
Qed.

Lemma collect_values els :
  forall times values times' values',
    collect els times values = Ok (times', values') ->
    values' = (values ++ omap value_cell els)%list.
Proof.
  induction els as [|[tag [text|] children] els IH];
    intros times values times' values' H; cbn [collect] in H.
  - injection H as <- <-. simpl. rewrite app_nil_r. reflexivity.
  - cbn [omap list_omap value_cell].
    destruct (String.eqb_spec tag value_tag) as [->|Hv].
    + change (bool_decide (value_tag ∈ const_tags)) with false in H.
      change (value_tag =? time_tag)%string with false in H.
      destruct (isspace text); cbn [negb andb] in H |- *.
      * apply IH in H. exact H.
      * apply IH in H. rewrite H, <- app_assoc. reflexivity.
    + cbn [andb].
      destruct (negb (isspace text) && negb (bool_decide (tag ∈ const_tags)));
        [destruct (tag =? time_tag)%string|]; apply IH in H; exact H.
  - discriminate.
Qed.

End Service.

(* ===================================================================== *)
(** * Properties of the specification                                     *)
(* ===================================================================== *)

(** ** The month boundary *)

(** C2, as the code has it.  For every datetime [dt] outside December of
    the year 9999, the helper [_month_last_h] (day 28, plus 4 days, first
    day of that month at midnight, minus one hour) returns the final hour of
    the calendar month of [dt]: 23:00:00 on its last day.  A December leads
    to 31 December of the same year, the rollover into January
    notwithstanding, and a February of a leap year to the 29th, so any [dt]
    of February 2024 to 2024-02-29 23:00. *)
Theorem month_last_h_final_hour dt :
  valid_datetime dt -> ~ last_month dt ->
  _month_last_h dt = Ok (month_last_hour dt)
  /\ (month dt = 12 ->
      month_last_hour dt = mkdatetime (year dt) 12 31 23 0 0 0)
  /\ (month dt = 2 -> _is_leap (year dt) = true ->
      month_last_hour dt = mkdatetime (year dt) 2 29 23 0 0 0)
  /\ (year dt = 2024 -> month dt = 2 ->
      _month_last_h dt = Ok (mkdatetime 2024 2 29 23 0 0 0)).
Proof.
  intros Hv Hne. pose proof (month_last_h_spec dt Hv Hne) as Hs.
  split; [exact Hs|]. unfold month_last_hour in *.
  split; [|split].
  - intros ->. unfold _days_in_month. reflexivity.
  - intros -> Hl. unfold _days_in_month. rewrite Hl. reflexivity.
  - intros Ey Em. rewrite Hs, Ey, Em. reflexivity.
Qed.

Lemma month_last_h_final_hour_witness :
  _month_last_h (mkdatetime 2024 2 15 10 30 0 0)
  = Ok (mkdatetime 2024 2 29 23 0 0 0).
Proof.
  refine (proj2 (proj2 (proj2
    (month_last_h_final_hour (mkdatetime 2024 2 15 10 30 0 0) _ _)))
    eq_refl eq_refl).
  - vm_compute. intuition discriminate.
  - unfold last_month. vm_compute. intros [H _]. discriminate H.
Defined.

(** C2 as stated fails in the last month that [datetime] has: day 28 plus
    4 days is past 9999-12-31, and the addition raises. *)
Lemma month_last_h_december_9999 :
  valid_datetime (mkdatetime 9999 12 15 0 0 0 0)
  /\ _month_last_h (mkdatetime 9999 12 15 0 0 0 0)
     = Raise (OverflowError "date value out of range")
  /\ _month_last_h (mkdatetime 9999 12 15 0 0 0 0)
     <> Ok (mkdatetime 9999 12 31 23 0 0 0).
Proof.
  split; [|split].
  - vm_compute. intuition discriminate.
  - vm_compute. reflexivity.
  - vm_compute. discriminate.
Qed.

(** ** Parameter names *)

(** C5.  [_get_param_name] is a total function on the whitelist of each
    category: each of the 13 names of the "observation" whitelist maps to
    its documented code ("temperature" to "TA_PT1H_AVG", "rain_accumulated"
    to "PRA_PT1H_ACC", ...), each of the 5 names of the "forecast" whitelist
    to its own ("wind_speed" to "WindSpeedMS", ...), and a name that is not
    on the whitelist of the category raises [ValueError], whatever the other
    category makes of it. *)
Theorem get_param_name_whitelist (name : string) :
  (forall code, (name, code) ∈ observation_codes ->
     _get_param_name (PStr name) (PStr "observation") = Ok (PStr code))
  /\ (name ∉ observation_codes.*1 ->
      is_ValueError (_get_param_name (PStr name) (PStr "observation")))
  /\ (forall code, (name, code) ∈ forecast_codes ->
        _get_param_name (PStr name) (PStr "forecast") = Ok (PStr code))
  /\ (name ∉ forecast_codes.*1 ->
      is_ValueError (_get_param_name (PStr name) (PStr "forecast")))
  /\ observation_codes.*1 = observation_legit
  /\ length observation_legit = 13%nat
  /\ forecast_codes.*1 = forecast_legit
  /\ length forecast_legit = 5%nat.
Proof.
  split_and!; try reflexivity.
  - intros code Hin.
    exact (get_param_name_listed _ _ _ _ Hin observation_codes_hold).
  - apply get_param_name_unlisted_obs.
  - intros code Hin.
    exact (get_param_name_listed _ _ _ _ Hin forecast_codes_hold).
  - apply get_param_name_unlisted_fc.
Qed.

Lemma get_param_name_whitelist_witness :
  _get_param_name (PStr "rain_accumulated") (PStr "observation")
  = Ok (PStr "PRA_PT1H_ACC")
  /\ is_ValueError (_get_param_name (PStr "wind_speed") (PStr "observation"))
  /\ _get_param_name (PStr "wind_speed") (PStr "forecast")
     = Ok (PStr "WindSpeedMS")
  /\ is_ValueError (_get_param_name (PStr "rain_accumulated")
                      (PStr "forecast")).
Proof.
  split_and!.
  - apply (proj1 (get_param_name_whitelist "rain_accumulated")).
    vm_compute. do 10 apply list_elem_of_further. apply list_elem_of_here.
  - apply (proj1 (proj2 (get_param_name_whitelist "wind_speed"))).
    compute_done.
  - apply (proj1 (proj2 (proj2 (get_param_name_whitelist "wind_speed")))).
    do 4 apply list_elem_of_further. apply list_elem_of_here.
  - apply (proj1 (proj2 (proj2 (proj2
             (get_param_name_whitelist "rain_accumulated"))))).
    compute_done.
Defined.

(** ** Date-range inference *)

(** C4, as the code has it.  [_get_datetime_limits] raises [ValueError]
    when none of hours, start date and end date is supplied and when all
    three are.  With none supplied nothing is computed first.  With all
    three supplied the two dates are read first (text is parsed, a time of
    day attached), so the rejection comes only if both dates can be read;
    text that is no date raises the [ValueError] of [strptime] instead. *)
Theorem datetime_limits_rejections clock start_date end_date hours :
  (~ supplied hours -> ~ supplied start_date -> ~ supplied end_date ->
   _get_datetime_limits clock start_date end_date hours = Raise none_provided)
  /\ (supplied hours -> supplied start_date -> supplied end_date ->
      is_date_arg start_date -> is_date_arg end_date ->
      is_ValueError (_get_datetime_limits clock start_date end_date hours)
      /\ match read_date start_date combine_min,
               read_date end_date end_of_day with
         | Ok _, Ok _ =>
             _get_datetime_limits clock start_date end_date hours
             = Raise all_provided
         | Ok _, Raise e | Raise e, _ =>
             _get_datetime_limits clock start_date end_date hours = Raise e
         end).
Proof.
  unfold supplied. split.
  - intros Hh Hs He.
    apply not_true_is_false in Hh, Hs, He.
    unfold _get_datetime_limits, initial_limits, read_date.
    rewrite Hh, Hs, He. reflexivity.
  - intros Hh Hs He Ds De.
    unfold _get_datetime_limits, initial_limits. fold end_of_day.
    rewrite Hh, Hs, He.
    destruct (read_date_is_date start_date combine_min Ds) as [[r1 ->]|[m1 ->]];
      [|split; [eexists|]; reflexivity].
    destruct (read_date_is_date end_date end_of_day De) as [[r2 ->]|[m2 ->]];
      split; try eexists; reflexivity.
Qed.

Lemma datetime_limits_rejections_witness :
  _get_datetime_limits Canned.clock PNone PNone PNone = Raise none_provided
  /\ _get_datetime_limits Canned.clock (PStr "2022-09-01")
       (PStr "2022-09-30") (PInt 24)
     = Raise all_provided.
Proof.
  split.
  - apply (proj1 (datetime_limits_rejections Canned.clock PNone PNone PNone));
      unfold supplied; simpl; discriminate.
  - refine (proj2 (proj2 (datetime_limits_rejections Canned.clock
              (PStr "2022-09-01") (PStr "2022-09-30") (PInt 24))
              eq_refl eq_refl eq_refl _ _)).
    + left. exists "2022-09-01". reflexivity.
    + left. exists "2022-09-30". reflexivity.
Defined.

(** C4 as stated fails where it has the rejection come before any work on
    the inputs: with all three supplied and a start date that is no date,
    the error is that of the parser. *)
Lemma datetime_limits_parse_before_rejection :
  supplied (PInt 24) /\ supplied (PStr "yesterday")
  /\ supplied (PStr "2022-09-30")
  /\ _get_datetime_limits Canned.clock (PStr "yesterday")
       (PStr "2022-09-30") (PInt 24)
     = Raise (ValueError
                "time data 'yesterday' does not match format '%Y-%m-%d'")
  /\ _get_datetime_limits Canned.clock (PStr "yesterday")
       (PStr "2022-09-30") (PInt 24)
     <> Raise all_provided.
Proof.
  split_and!; try reflexivity. vm_compute. discriminate.
Qed.

(** C3, as the code has it.  Take a valid combination of hours, start date
    and end date (one or two of them supplied), with the clock fixed.
    [_get_datetime_limits] returns a pair when the dates can be read and
    the hours, if any, keep the result on the calendar.  Whenever it
    returns [(start, end)], the end is at or before [now] (the clock cut to
    the minute), and an end date in the future gives [end = now].  The
    start is not compared with anything: [start <= end] holds exactly when
    the start is neither after [now] nor after the end before it was held
    back to [now].  That is so for hours alone, when they are positive. *)
Theorem datetime_limits_order clock start_date end_date hours :
  valid_datetime clock -> valid_arg start_date -> valid_arg end_date ->
  supplied hours \/ supplied start_date \/ supplied end_date ->
  ~ (supplied hours /\ supplied start_date /\ supplied end_date) ->
  let now := replace_sec0 clock in
  (forall s0 e0,
      read_date start_date combine_min = Ok s0 ->
      read_date end_date end_of_day = Ok e0 ->
      (supplied hours ->
       exists h, hours = PInt h /\ on_calendar (shifted s0 e0 now h)) ->
      exists start end_,
        _get_datetime_limits clock start_date end_date hours
        = Ok (start, end_))
  /\ (forall start end_,
        _get_datetime_limits clock start_date end_date hours
        = Ok (start, end_) ->
        dt_le end_ now
        /\ (forall e, read_date end_date end_of_day = Ok (Some e) ->
            dt_lt now e -> end_ = now)
        /\ (exists end0,
              initial_limits now start_date end_date hours = Ok (start, end0)
              /\ end_ = dt_min now end0
              /\ (dt_le start end_ <-> dt_le start now /\ dt_le start end0))
        /\ (~ supplied start_date -> ~ supplied end_date ->
            forall h, hours = PInt h -> 0 < h ->
                      dt_le start end_ /\ end_ = now)).
Proof.
  intros Hc Hs He Hany Hall now. split.
  { intros s0 e0 Es Ee Hh.
    exact (get_datetime_limits_returns _ _ _ _ _ _ Hc Hs He Hany Hall Es Ee Hh). }
  intros start end_ Hl.
  destruct (get_datetime_limits_spec _ _ _ _ _ _ Hc Hs He Hl)
    as (end0 & Hi & -> & Hvs & Hv0 & Hve & Hmin).
  fold now in Hi, Hmin, Hve |- *.
  pose proof (replace_sec0_valid _ Hc) as Hn. fold now in Hn.
  destruct (initial_limits_spec _ _ _ _ _ _ Hn Hs He Hi) as (_ & _ & Hed & Hho).
  split; [|split; [|split]].
  - apply dt_le_iff; [assumption..|]. lia.
  - intros e Hr Hlt. rewrite (Hed _ Hr) in *.
    unfold dt_min. unfold dt_lt in Hlt.
    destruct (dt_ltb e now) eqn:E; [|reflexivity].
    rewrite dt_ltb_spec in E, Hlt by assumption.
    apply Z.ltb_lt in E, Hlt. lia.
  - exists end0. split; [assumption|]. split; [reflexivity|].
    rewrite !dt_le_iff by assumption. lia.
  - intros Hns Hne h Hh Hpos.
    destruct (Hho Hns Hne) as (-> & h' & Hh' & _ & Hus).
    rewrite Hh in Hh'. injection Hh' as <-.
    assert (Em : dt_min now now = now)
      by (unfold dt_min; destruct (dt_ltb now now); reflexivity).
    rewrite Em. split; [|reflexivity].
    apply dt_le_iff; [assumption..|]. unfold us_per_hour in Hus. lia.
Qed.

Lemma datetime_limits_order_witness :
  exists start end_,
    _get_datetime_limits Canned.clock PNone PNone (PInt 24)
    = Ok (start, end_)
    /\ dt_le start end_ /\ end_ = replace_sec0 Canned.clock.
Proof.
  assert (Hv : valid_datetime Canned.clock)
    by (vm_compute; intuition discriminate).
  assert (Hany : supplied (PInt 24) \/ supplied PNone \/ supplied PNone)
    by (left; reflexivity).
  assert (Hall : ~ (supplied (PInt 24) /\ supplied PNone /\ supplied PNone))
    by (intros (_ & H & _); discriminate H).
  destruct (datetime_limits_order Canned.clock PNone PNone (PInt 24)
              Hv I I Hany Hall) as [Hret Hord].
  destruct (Hret None None eq_refl eq_refl) as (start & end_ & Hl).
  { intros _. exists 24. split; [reflexivity|].
    vm_compute. split; [discriminate|reflexivity]. }
  exists start, end_. split; [exact Hl|].
  refine (proj2 (proj2 (proj2 (Hord start end_ Hl))) _ _ 24 eq_refl _).
  - unfold supplied. simpl. discriminate.
  - unfold supplied. simpl. discriminate.
  - lia.
Defined.

(** C3 as stated fails for a start date in the future: the end is held back
    to now, the start is not. *)
Lemma datetime_limits_future_start :
  supplied (PStr "2030-01-01") /\ ~ supplied PNone
  /\ _get_datetime_limits Canned.clock (PStr "2030-01-01") PNone PNone
     = Ok (mkdatetime 2030 1 1 0 0 0 0, mkdatetime 2022 10 15 12 30 0 0)
  /\ dt_lt (mkdatetime 2022 10 15 12 30 0 0) (mkdatetime 2030 1 1 0 0 0 0)
  /\ ~ dt_le (mkdatetime 2030 1 1 0 0 0 0) (mkdatetime 2022 10 15 12 30 0 0).
Proof.
  split_and!; try (vm_compute; reflexivity).
  - unfold supplied. simpl. discriminate.
  - unfold dt_le. vm_compute. discriminate.
Qed.

(** ** The service *)

Section ServiceProperties.
Context `{Ext : Externals}.

(** C6.  When the range [(start, end)] that the call arrives at spans 744
    hours or less, [get_observations] sends exactly one query, whose
    [starttime] and [endtime] are the start and the end of the range: there
    is no chunking.  It does so whatever the service answers. *)
Theorem short_range_single_query clock place fmisid parameter hours
    start_date end_date st code start end_ :
  valid_datetime clock -> valid_arg start_date -> valid_arg end_date ->
  _fmi_inputchecks place fmisid parameter PNone = Ok tt ->
  _get_param_name parameter (PStr "observation") = Ok code ->
  _get_datetime_limits clock start_date end_date hours = Ok (start, end_) ->
  to_us end_ - to_us start <= 744 * us_per_hour ->
  let base := observation_base place fmisid code in
  exists st' r,
    get_observations clock place fmisid parameter hours
      start_date end_date st = Some (st', r)
    /\ sent st' = (sent st ++ [obs_query base (start, end_)])%list
    /\ (obs_query base (start, end_)).2 !! "starttime"
       = Some (PStr (isoformat start))
    /\ (obs_query base (start, end_)).2 !! "endtime"
       = Some (PStr (isoformat end_)).
Proof.
  intros Hc Hvs Hve Hchk Hpar Hlim Hspan base.
  destruct (get_datetime_limits_spec _ _ _ _ _ _ Hc Hvs Hve Hlim)
    as (end0 & _ & _ & Hs & _ & He & _).
  rewrite (get_observations_unfold _ _ _ _ _ _ _ _ _ _ _ Hs He Hchk Hpar Hlim).
  cbv zeta. fold base.
  assert ((744 <? (to_us end_ - to_us start) / us_per_hour) = false) as ->.
  { apply Z.ltb_ge.
    assert ((to_us end_ - to_us start) / us_per_hour <= 744).
    { apply Z.div_le_upper_bound; unfold us_per_hour in *; lia. }
    lia. }
  rewrite load_obs_unfold. cbv zeta.
  destruct (wfs_getfeature _ _ _) as [w [tree|err]];
    [destruct (_tree_to_df tree)|];
    eexists _, _; (split; [reflexivity|]); (split; [reflexivity|]);
    unfold obs_query, stamp; simpl;
    (split; [rewrite lookup_insert_ne by discriminate|]);
    apply lookup_insert_eq.
Qed.

(** The chunked run.  A range is split when its span in whole hours
    exceeds 744, that is from 745 hours on.  Then, as long as the end
    lies before 9999-11-30 23:00 (beyond it the month arithmetic leaves the
    range of [datetime]), the run of [get_observations] is the fetch, one
    after the other, of the chunks of a plan: every chunk but the last runs
    from its start to the last hour of the month of that start, the next
    chunk starts one hour after, and the last chunk, the first whose month
    would end after the requested end, ends at the requested end.  The
    tables of the chunks are put together in this order, a failed query
    ends the run, and every full hour from the start to the end lies in one
    chunk and in one only. *)
Theorem long_range_monthly_chunks clock place fmisid parameter hours
    start_date end_date st code start end_ :
  valid_datetime clock -> valid_arg start_date -> valid_arg end_date ->
  _fmi_inputchecks place fmisid parameter PNone = Ok tt ->
  _get_param_name parameter (PStr "observation") = Ok code ->
  _get_datetime_limits clock start_date end_date hours = Ok (start, end_) ->
  745 * us_per_hour <= to_us end_ - to_us start ->
  dt_lt end_ last_chunk_limit ->
  let base := observation_base place fmisid code in
  let empty := mkDataFrame [] [] in
  exists chunks,
    monthly_chunks end_ start chunks
    /\ (exists c, chunks !! 0%nat = Some c /\ c.1 = start)
    /\ (exists s, last chunks = Some (s, end_)
                  /\ dt_lt end_ (month_last_hour s))
    /\ (forall i a b,
          chunks !! i = Some a -> chunks !! S i = Some b ->
          a.2 = month_last_hour a.1 /\ dt_le a.2 end_
          /\ hour_later a.2 b.1 /\ dt_lt a.1 b.1)
    /\ get_observations clock place fmisid parameter hours
         start_date end_date st
       = Some (fetch_chunks base chunks empty st)
    /\ (forall st' df,
          fetch_chunks base chunks empty st = (st', Ok df) ->
          sent st' = (sent st ++ map (obs_query base) chunks)%list
          /\ exists answers,
               length answers = length chunks
               /\ df = foldl pd_concat empty answers)
    /\ (forall t, valid_datetime t -> on_the_hour t ->
          dt_le start t -> dt_le t end_ ->
          exists i c, chunks !! i = Some c /\ in_chunk t c
            /\ forall j c', chunks !! j = Some c' -> in_chunk t c' -> j = i).
Proof.
  intros Hc Hvs Hve Hchk Hpar Hlim Hspan Hend base empty.
  destruct (get_datetime_limits_spec _ _ _ _ _ _ Hc Hvs Hve Hlim)
    as (end0 & _ & _ & Hs & _ & He & _).
  assert (Hvl : valid_datetime last_chunk_limit)
    by (vm_compute; intuition discriminate).
  assert (Hnl : ~ last_month start).
  { intros Hl. apply last_month_us in Hl; [|assumption].
    apply dt_lt_iff in Hend; [|assumption..].
    calc_us (mkdatetime 9999 12 1 0 0 0 0). calc_us last_chunk_limit.
    unfold us_per_hour in Hspan. lia. }
  destruct (month_loop_refines base end_ He Hend max_months base start empty st
              Hs Hnl) as (chunks & Hplan & Hloop).
  { left. reflexivity. }
  { destruct Hs as ((Hy & Hm & _) & _).
    unfold month_index, MINYEAR in *. unfold max_months. lia. }
  exists chunks. split; [exact Hplan|].
  destruct (monthly_chunks_shape _ _ _ Hs He Hplan) as (Hfst & Hlst & Hcons).
  split; [exact Hfst|]. split; [exact Hlst|]. split; [exact Hcons|].
  split; [|split].
  - rewrite (get_observations_unfold _ _ _ _ _ _ _ _ _ _ _ Hs He Hchk Hpar Hlim).
    cbv zeta. fold base empty.
    assert ((744 <? (to_us end_ - to_us start) / us_per_hour) = true) as ->.
    { apply Z.ltb_lt.
      assert (745 <= (to_us end_ - to_us start) / us_per_hour)
        by (apply Z.div_le_lower_bound; unfold us_per_hour in *; lia).
      lia. }
    exact Hloop.
  - intros st' df Hf. apply (fetch_chunks_sent _ _ _ _ _ _ Hf).
  - apply monthly_chunks_cover; assumption.
Qed.

(** C7.  With the checks passed, a forecast request with no hours supplied
    asks for data until [now + 66 hours] when the model is "harmonie", which
    is the default, and until [now + 54 hours] when it is "hirlam"; hours
    that are supplied take the place of the default.  [now] is the clock
    cut to the minute, and hours are supplied when the code finds them true
    (zero is not).  The end time is a datetime, so the sum has to be one. *)
Theorem forecast_end_time clock place fmisid parameter model hours st
    code h end_ :
  valid_datetime clock ->
  _fmi_inputchecks place fmisid parameter model = Ok tt ->
  _get_param_name parameter (PStr "forecast") = Ok code ->
  lookahead model hours h ->
  valid_datetime end_ ->
  to_us end_ = to_us (replace_sec0 clock) + h * us_per_hour ->
  default_model = PStr "harmonie"
  /\ exists st' r params,
       get_forecast clock place fmisid parameter model hours st = (st', r)
       /\ sent st' = (sent st ++ [(forecast_queryid model, params)])%list
       /\ params !! "endtime" = Some (PStr (isoformat end_)).
Proof.
  intros Hc Hchk Hpar Hh He Hus. split; [reflexivity|].
  pose proof (replace_sec0_valid _ Hc) as Hn.
  assert (Eh : forecast_hours model hours = PInt h).
  { unfold forecast_hours, supplied in *.
    destruct Hh as [(Hs & -> & ->)|[(Hs & -> & ->)|(Hs & ->)]].
    - apply not_true_is_false in Hs. rewrite Hs. reflexivity.
    - apply not_true_is_false in Hs. rewrite Hs. reflexivity.
    - rewrite Hs. reflexivity. }
  pose proof (to_us_parts _ Hn) as (Ho1 & Hs1 & Hu1).
  pose proof (to_us_parts _ He) as (Ho2 & Hs2 & Hu2).
  destruct (timedelta_new_ok 0 (h * 3600) 0) as [td Etd].
  { unfold to_us, us_per_hour, _MAXORDINAL in *. lia. }
  pose proof (timedelta_hours_spec h td Etd) as Htd.
  rewrite get_forecast_unfold, Hchk, Hpar, Eh. cbn [timedelta_of_hours].
  unfold timedelta_hours. rewrite Etd.
  rewrite (dt_add_intro _ td end_ Hn He) by lia.
  cbv zeta. destruct (wfs_getfeature _ _ _) as [w res].
  eexists _, _, _. split; [reflexivity|]. split; [reflexivity|].
  unfold forecast_params. apply lookup_insert_eq.
Qed.

(** C8, as the code has it.  The check asks for at least one of place and
    station: with neither, [_fmi_inputchecks] raises [ValueError], and
    [get_observations] and [get_forecast] raise it with the state as it
    was, so before any query; with one of them or with both the check
    passes (given a parameter and a known model). *)
Theorem location_is_required clock place fmisid parameter model hours
    start_date end_date st :
  (~ supplied place -> ~ supplied fmisid ->
   is_ValueError (_fmi_inputchecks place fmisid parameter model)
   /\ (exists msg,
         get_observations clock place fmisid parameter hours start_date
           end_date st = Some (st, Raise (ValueError msg)))
   /\ (exists msg,
         get_forecast clock place fmisid parameter model hours st
         = (st, Raise (ValueError msg))))
  /\ (supplied place \/ supplied fmisid -> supplied parameter ->
      known_model model ->
      _fmi_inputchecks place fmisid parameter model = Ok tt).
Proof.
  split.
  - intros Hp Hf. split_and!.
    + apply inputchecks_no_location; assumption.
    + destruct (inputchecks_no_location place fmisid parameter PNone Hp Hf)
        as [msg Hm].
      exists msg. unfold get_observations. rewrite Hm. reflexivity.
    + destruct (inputchecks_no_location place fmisid parameter model Hp Hf)
        as [msg Hm].
      exists msg. rewrite get_forecast_unfold, Hm. reflexivity.
  - apply inputchecks_pass.
Qed.

End ServiceProperties.

(** ** The properties at work on the canned service *)

Lemma short_range_single_query_witness :
  exists st' r,
    get_observations Canned.clock (PStr "Helsinki") PNone
      (PStr "temperature") PNone (PStr "2022-10-01") PNone Canned.fresh
    = Some (st', r)
    /\ length (sent st') = 1%nat.
Proof.
  destruct (short_range_single_query Canned.clock (PStr "Helsinki") PNone
              (PStr "temperature") PNone (PStr "2022-10-01") PNone
              Canned.fresh (PStr "TA_PT1H_AVG")
              (mkdatetime 2022 10 1 0 0 0 0)
              (mkdatetime 2022 10 15 12 30 0 0))
    as (st' & r & Hrun & Hsent & _).
  - vm_compute. intuition discriminate.
  - exact I.
  - exact I.
  - vm_compute. reflexivity.
  - vm_compute. reflexivity.
  - vm_compute. reflexivity.
  - vm_compute. discriminate.
  - exists st', r. split; [exact Hrun|]. rewrite Hsent. reflexivity.
Defined.

Lemma long_range_monthly_chunks_witness :
  exists chunks,
    monthly_chunks (mkdatetime 2022 9 25 16 0 0 0)
      (mkdatetime 2022 8 15 0 0 0 0) chunks
    /\ get_observations Canned.clock (PStr "Helsinki") PNone
         (PStr "temperature") (PInt 1000) (PStr "2022-08-15") PNone
         Canned.fresh
       = Some (fetch_chunks
                 (observation_base (PStr "Helsinki") PNone
                    (PStr "TA_PT1H_AVG"))
                 chunks (mkDataFrame [] []) Canned.fresh).
Proof.
  destruct (long_range_monthly_chunks Canned.clock (PStr "Helsinki") PNone
              (PStr "temperature") (PInt 1000) (PStr "2022-08-15") PNone
              Canned.fresh (PStr "TA_PT1H_AVG")
              (mkdatetime 2022 8 15 0 0 0 0)
              (mkdatetime 2022 9 25 16 0 0 0))
    as (chunks & Hplan & _ & _ & _ & Hrun & _).
  - vm_compute. intuition discriminate.
  - exact I.
  - exact I.
  - vm_compute. reflexivity.
  - vm_compute. reflexivity.
  - vm_compute. reflexivity.
  - vm_compute. discriminate.
  - vm_compute. reflexivity.
  - exists chunks. split; [exact Hplan|exact Hrun].
Defined.

(** C1.  The code at the failing input.  From 2022-08-01 00:00 to
    2022-09-01 00:30 the range spans 744 hours and a half, more than the 744
    hours that one query returns (the comment on lines 66-67), and August
    ends within it.  The span is cut to whole hours before it is compared
    with 744, so a single query goes out, for the whole range, where a plan
    of monthly chunks of this range has two chunks at least. *)
Lemma long_range_not_chunked :
  _get_datetime_limits Canned.september_clock (PStr "2022-08-01") PNone PNone
  = Ok (mkdatetime 2022 8 1 0 0 0 0, mkdatetime 2022 9 1 0 30 0 0)
  /\ 744 * us_per_hour
     < to_us (mkdatetime 2022 9 1 0 30 0 0)
       - to_us (mkdatetime 2022 8 1 0 0 0 0)
  /\ (exists st' df,
        get_observations Canned.september_clock (PStr "Helsinki") PNone
          (PStr "temperature") PNone (PStr "2022-08-01") PNone Canned.fresh
        = Some (st', Ok df)
        /\ sent st'
           = [obs_query
                (observation_base (PStr "Helsinki") PNone
                   (PStr "TA_PT1H_AVG"))
                (mkdatetime 2022 8 1 0 0 0 0,
                 mkdatetime 2022 9 1 0 30 0 0)])
  /\ (forall chunks,
        monthly_chunks (mkdatetime 2022 9 1 0 30 0 0)
          (mkdatetime 2022 8 1 0 0 0 0) chunks ->
        (2 <= length chunks)%nat).
Proof.
  split_and!.
  - vm_compute. reflexivity.
  - vm_compute. reflexivity.
  - exists (@mkstate Canned.service 1%nat
              [obs_query
                 (observation_base (PStr "Helsinki") PNone
                    (PStr "TA_PT1H_AVG"))
                 (mkdatetime 2022 8 1 0 0 0 0,
                  mkdatetime 2022 9 1 0 30 0 0)]),
      (@mkDataFrame Canned.service ["2022-09-01T00:00:00Z"] [12]).
    split; [vm_compute|]; reflexivity.
  - intros chunks H. inversion H as [s Hlt | s s' rest Hle Hnext Hrest]; subst.
    + vm_compute in Hlt. discriminate Hlt.
    + inversion Hrest; simpl; lia.
Qed.

Lemma forecast_end_time_witness :
  exists st' r params,
    get_forecast Canned.clock (PStr "Helsinki") PNone (PStr "wind_speed")
      default_model PNone Canned.fresh = (st', r)
    /\ sent st'
       = [("fmi::forecast::harmonie::hybrid::point::simple", params)]
    /\ params !! "endtime" = Some (PStr "2022-10-18T06:30:00").
Proof.
  refine (proj2 (forecast_end_time Canned.clock (PStr "Helsinki") PNone
            (PStr "wind_speed") default_model PNone Canned.fresh
            (PStr "WindSpeedMS") 66 (mkdatetime 2022 10 18 6 30 0 0)
            _ _ _ _ _ _)).
  - vm_compute. intuition discriminate.
  - vm_compute. reflexivity.
  - vm_compute. reflexivity.
  - left. split_and!; [unfold supplied; simpl; discriminate|reflexivity..].
  - vm_compute. intuition discriminate.
  - vm_compute. reflexivity.
Defined.

Lemma location_is_required_witness :
  exists msg,
    get_observations Canned.clock PNone PNone (PStr "temperature") (PInt 24)
      PNone PNone Canned.fresh
    = Some (Canned.fresh, Raise (ValueError msg)).
Proof.
  refine (proj1 (proj2 (proj1
    (location_is_required Canned.clock PNone PNone (PStr "temperature")
       PNone (PInt 24) PNone PNone Canned.fresh) _ _)));
    unfold supplied; simpl; discriminate.
Defined.

(** C8 as stated fails for a call with both: the check lets it through,
    the query goes out for the place, and a table comes back. *)
Lemma both_locations_accepted :
  supplied (PStr "Helsinki") /\ supplied (PInt 101799)
  /\ _fmi_inputchecks (PStr "Helsinki") (PInt 101799) (PStr "temperature")
       PNone = Ok tt
  /\ exists st' df query,
       get_observations Canned.clock (PStr "Helsinki") (PInt 101799)
         (PStr "temperature") (PInt 24) PNone PNone Canned.fresh
       = Some (st', Ok df)
       /\ sent st' = [query]
       /\ query.2 !! "place" = Some (PStr "Helsinki").
Proof.
  split_and!; try reflexivity.
  pose (query :=
    obs_query
      (observation_base (PStr "Helsinki") (PInt 101799) (PStr "TA_PT1H_AVG"))
      (mkdatetime 2022 10 14 12 30 0 0, mkdatetime 2022 10 15 12 30 0 0)).
  exists (@mkstate Canned.service 1%nat [query]),
    (@mkDataFrame Canned.service ["2022-09-01T00:00:00Z"] [12]), query.
  split_and!; [vm_compute| |vm_compute]; reflexivity.
Qed.

(* ===================================================================== *)
(** * Further properties of the code                                   *)
(* ===================================================================== *)

(** ** The checks of the arguments *)

(** A closed equation, settled by evaluation of its left side. *)
Ltac run_closed :=
  match goal with
  | |- _ = ?r => vm_cast_no_check (eq_refl r)
  end.

Lemma pyval_in_inv v l : pyval_in v l = true -> exists s, v = PStr s /\ s ∈ l.
Proof.
  unfold pyval_in. intros H. apply bool_decide_eq_true in H.
  apply list_elem_of_fmap in H. destruct H as (s & -> & Hs). eauto.
Qed.

Lemma codes_listed (codes : list (string * string)) name :
  name ∈ codes.*1 -> exists code, (name, code) ∈ codes.
Proof.
  intros H. apply list_elem_of_fmap in H. destruct H as ([n c] & -> & H).
  exists c. exact H.
Qed.

Section Checks.
Context `{Ext : Externals}.


(** X1.  [_fmi_inputchecks] lets a call through exactly when a parameter
    is supplied, a place or a station is supplied, and the model, if one is
    supplied, is "harmonie" or "hirlam".  Whatever it raises is a
    [ValueError], and the missing parameter is reported first, whatever the
    other arguments are. *)
Theorem inputchecks_verdict place fmisid parameter model :
  (_fmi_inputchecks place fmisid parameter model = Ok tt
   <-> supplied parameter /\ (supplied place \/ supplied fmisid)
       /\ known_model model)
  /\ (forall e, _fmi_inputchecks place fmisid parameter model = Raise e ->
                exists msg, e = ValueError msg)
  /\ (~ supplied parameter ->
      _fmi_inputchecks place fmisid parameter model
      = Raise (ValueError "argument 'parameter' not provided")).
Proof.
  unfold _fmi_inputchecks, known_model, supplied. split_and!.
  - split.
    + destruct (truthy parameter); [|discriminate]. cbn [negb].
      destruct (truthy place), (truthy fmisid); cbn [negb andb];
        try discriminate;
        (destruct (truthy model) eqn:Em;
         [destruct (pyval_in model _) eqn:Ei; [|discriminate];
          apply pyval_in_inv in Ei; destruct Ei as (s & -> & Hs);
          intros _; split_and!; auto; right;
          apply elem_of_cons in Hs; destruct Hs as [->|Hs]; [auto|];
          apply elem_of_cons in Hs; destruct Hs as [->|Hs]; [auto|];
          inversion Hs
         |intros _; split_and!; auto; left; discriminate]).
    + intros (Hp & Hl & Hm). apply inputchecks_pass; assumption.
  - destruct (negb _); [intros e [= <-]; eauto|].
    destruct (_ && _); [intros e [= <-]; eauto|].
    destruct (truthy model); [|discriminate].
    destruct (negb _); [intros e [= <-]; eauto|discriminate].
  - intros H. apply not_true_is_false in H. rewrite H. reflexivity.
Qed.



(** X2.  A model that is supplied and is neither "harmonie" nor "hirlam"
    makes [get_forecast] raise [ValueError], whatever the other arguments,
    with the state as it was: no query is sent. *)
Theorem forecast_unknown_model clock place fmisid parameter model hours st :
  supplied model -> model <> PStr "harmonie" -> model <> PStr "hirlam" ->
  exists msg,
    get_forecast clock place fmisid parameter model hours st
    = (st, Raise (ValueError msg)).
Proof.
  intros Hm Hh Hl. rewrite get_forecast_unfold.
  unfold _fmi_inputchecks. unfold supplied in Hm. rewrite Hm.
  destruct (negb (truthy parameter)); [eauto|].
  destruct (_ && _); [eauto|].
  destruct (pyval_in model _) eqn:Ei; [|cbn [negb]; eauto].
  apply pyval_in_inv in Ei. destruct Ei as (s & -> & Hs).
  apply elem_of_cons in Hs. destruct Hs as [->|Hs]; [congruence|].
  apply elem_of_cons in Hs. destruct Hs as [->|Hs]; [congruence|].
  inversion Hs.
Qed.

(** X3.  Whatever [_get_param_name] returns is the provider code of a
    name of the whitelist of the category asked for, "observation" or
    "forecast": it returns for no other category and for no other name, it
    never falls off the end of its [match] and returns [None], and the
    observation code for "wind_speed", a name that has an arm of the
    [match] and is not on the whitelist, is never given for that name. *)
Theorem get_param_name_returns wanted_param query_type v :
  _get_param_name wanted_param query_type = Ok v ->
  exists name code,
    wanted_param = PStr name /\ v = PStr code
    /\ ((query_type = PStr "observation" /\ (name, code) ∈ observation_codes)
        \/ (query_type = PStr "forecast" /\ (name, code) ∈ forecast_codes)).
Proof.
  unfold _get_param_name.
  destruct (negb (truthy query_type)); [discriminate|].
  destruct (pyval_in query_type _) eqn:Eq; cbn [negb].
  2:{ destruct (str_of query_type); discriminate. }
  apply pyval_in_inv in Eq. destruct Eq as (q & -> & Hq).
  apply elem_of_cons in Hq. destruct Hq as [->|Hq].
  - rewrite bool_decide_eq_true_2 by reflexivity.
    destruct (pyval_in wanted_param observation_legit) eqn:Ew; cbn [negb].
    2:{ unfold not_legit. destruct (str_of wanted_param); discriminate. }
    apply pyval_in_inv in Ew. destruct Ew as (name & -> & Hn).
    destruct (codes_listed observation_codes name Hn) as [code Hc].
    pose proof (get_param_name_listed _ _ _ _ Hc observation_codes_hold) as E.
    unfold _get_param_name in E. cbn [truthy negb] in E.
    rewrite bool_decide_eq_true_2 in E by reflexivity.
    assert (Ei : pyval_in (PStr name) observation_legit = true).
    { rewrite pyval_in_str. apply bool_decide_eq_true_2. exact Hn. }
    change (pyval_in (PStr "observation") ["observation"; "forecast"])
      with true in E. cbn [negb] in E.
    rewrite Ei in E. cbn [negb] in E.
    intros [= <-]. injection E as E. eauto 10.
  - apply elem_of_cons in Hq. destruct Hq as [->|Hq]; [|inversion Hq].
    rewrite bool_decide_eq_false_2 by discriminate.
    rewrite bool_decide_eq_true_2 by reflexivity.
    destruct (pyval_in wanted_param forecast_legit) eqn:Ew; cbn [negb].
    2:{ unfold not_legit. destruct (str_of wanted_param); discriminate. }
    apply pyval_in_inv in Ew. destruct Ew as (name & -> & Hn).
    destruct (codes_listed forecast_codes name Hn) as [code Hc].
    pose proof (get_param_name_listed _ _ _ _ Hc forecast_codes_hold) as E.
    unfold _get_param_name in E. cbn [truthy negb] in E.
    rewrite bool_decide_eq_false_2 in E by discriminate.
    rewrite bool_decide_eq_true_2 in E by reflexivity.
    assert (Ei : pyval_in (PStr name) forecast_legit = true).
    { rewrite pyval_in_str. apply bool_decide_eq_true_2. exact Hn. }
    change (pyval_in (PStr "forecast") ["observation"; "forecast"])
      with true in E. cbn [negb] in E.
    rewrite Ei in E. cbn [negb] in E.
    intros [= <-]. injection E as E. eauto 10.
Qed.

(** X4.  A parameter that is not text is not refused as an unknown name
    is: building the message of that refusal concatenates it to text, which
    raises [TypeError].  [get_observations] and [get_forecast], whose check
    asks only that the parameter counts as true, raise it before any
    query. *)
Theorem parameter_not_text clock place fmisid parameter hours start_date
    end_date st :
  (forall s, parameter <> PStr s) ->
  supplied parameter -> supplied place \/ supplied fmisid ->
  (exists msg,
     _get_param_name parameter (PStr "observation") = Raise (TypeError msg))
  /\ (exists msg,
        _get_param_name parameter (PStr "forecast") = Raise (TypeError msg))
  /\ (exists msg,
        get_observations clock place fmisid parameter hours start_date
          end_date st = Some (st, Raise (TypeError msg)))
  /\ (exists msg,
        get_forecast clock place fmisid parameter default_model hours st
        = (st, Raise (TypeError msg))).
Proof.
  intros Hn Hp Hl.
  assert (Hin : forall l, pyval_in parameter l = false).
  { intros l. destruct (pyval_in parameter l) eqn:E; [|reflexivity].
    apply pyval_in_inv in E. destruct E as (s & E & _).
    exfalso. exact (Hn s E). }
  assert (Hstr : exists msg,
             str_of parameter = Raise (TypeError msg)).
  { destruct parameter as [|s| |]; try (eexists; reflexivity).
    exfalso. exact (Hn s eq_refl). }
  destruct Hstr as [msg Hstr].
  assert (Ho : _get_param_name parameter (PStr "observation")
               = Raise (TypeError msg)).
  { unfold _get_param_name. cbn [truthy negb].
    change (pyval_in (PStr "observation") ["observation"; "forecast"])
      with true. cbn [negb].
    rewrite bool_decide_eq_true_2 by reflexivity.
    rewrite Hin. cbn [negb]. unfold not_legit. rewrite Hstr. reflexivity. }
  assert (Hf : _get_param_name parameter (PStr "forecast")
               = Raise (TypeError msg)).
  { unfold _get_param_name. cbn [truthy negb].
    change (pyval_in (PStr "forecast") ["observation"; "forecast"])
      with true. cbn [negb].
    rewrite bool_decide_eq_false_2 by discriminate.
    rewrite bool_decide_eq_true_2 by reflexivity.
    rewrite Hin. cbn [negb]. unfold not_legit. rewrite Hstr. reflexivity. }
  split_and!; exists msg.
  - exact Ho.
  - exact Hf.
  - unfold get_observations.
    rewrite inputchecks_pass by (try assumption; left; discriminate).
    rewrite Ho. reflexivity.
  - rewrite get_forecast_unfold.
    rewrite inputchecks_pass
      by (try assumption; right; left; reflexivity).
    rewrite Hf. reflexivity.
Qed.

End Checks.

Lemma inputchecks_verdict_witness :
  _fmi_inputchecks (PStr "Helsinki") PNone (PStr "temperature") (PStr "hirlam")
  = Ok tt
  /\ _fmi_inputchecks PNone PNone PNone (PStr "hirlam")
     = Raise (ValueError "argument 'parameter' not provided").
Proof.
  split.
  - apply (proj1 (inputchecks_verdict (PStr "Helsinki") PNone
                    (PStr "temperature") (PStr "hirlam"))).
    split_and!; [reflexivity|left; reflexivity|right; right; reflexivity].
  - apply (proj2 (proj2 (inputchecks_verdict PNone PNone PNone
                           (PStr "hirlam")))).
    unfold supplied. simpl. discriminate.
Defined.

Lemma forecast_unknown_model_witness :
  exists msg,
    get_forecast Canned.clock (PStr "Helsinki") PNone (PStr "temperature")
      (PStr "gfs") PNone Canned.fresh
    = (Canned.fresh, Raise (ValueError msg)).
Proof.
  apply (forecast_unknown_model Canned.clock (PStr "Helsinki") PNone
           (PStr "temperature") (PStr "gfs") PNone Canned.fresh).
  - reflexivity.
  - discriminate.
  - discriminate.
Defined.

Lemma get_param_name_returns_witness :
  exists name code,
    PStr "humidity" = PStr name /\ PStr "RH_PT1H_AVG" = PStr code
    /\ ((PStr "observation" = PStr "observation"
         /\ (name, code) ∈ observation_codes)
        \/ (PStr "observation" = PStr "forecast"
            /\ (name, code) ∈ forecast_codes)).
Proof.
  apply (get_param_name_returns (PStr "humidity") (PStr "observation")
           (PStr "RH_PT1H_AVG")).
  vm_compute. reflexivity.
Defined.

Lemma parameter_not_text_witness :
  exists msg,
    get_observations Canned.clock (PStr "Helsinki") PNone (PInt 7) (PInt 24)
      PNone PNone Canned.fresh
    = Some (Canned.fresh, Raise (TypeError msg)).
Proof.
  refine (proj1 (proj2 (proj2
    (parameter_not_text Canned.clock (PStr "Helsinki") PNone (PInt 7)
       (PInt 24) PNone PNone Canned.fresh _ _ _)))).
  - discriminate.
  - reflexivity.
  - left. reflexivity.
Defined.

(** ** Dates as text *)

Lemma chars_app (s1 s2 : string) :
  list_ascii_of_string (s1 +:+ s2)
  = (list_ascii_of_string s1 ++ list_ascii_of_string s2)%list.
Proof. induction s1 as [|c s1 IH]; simpl; [reflexivity|]. rewrite IH. reflexivity. Qed.

Lemma upto_elem n k : 1 <= k <= n -> k ∈ upto n.
Proof.
  intros H. unfold upto. apply list_elem_of_fmap. exists (Z.to_nat k).
  split; [lia|]. apply elem_of_seq. lia.
Qed.

Lemma forallb_elem {A} (f : A -> bool) (l : list A) x :
  forallb f l = true -> x ∈ l -> f x = true.
Proof.
  intros H Hx. rewrite forallb_forall in H. apply H.
  apply list_elem_of_In. exact Hx.
Qed.

Lemma year_text_all : forallb year_text_ok (upto 9999) = true.
Proof. run_closed. Qed.

Lemma month_text_all : forallb month_text_ok (upto 12) = true.
Proof. vm_compute. reflexivity. Qed.

Lemma day_text_all : forallb day_text_ok (upto 31) = true.
Proof. vm_compute. reflexivity. Qed.

Lemma year_text y rest :
  1 <= y <= 9999 ->
  match_Y (list_ascii_of_string (zfill 4 y) ++ "-"%char :: rest)%list
  = Some (y, rest).
Proof.
  intros H.
  pose proof (forallb_elem _ _ y year_text_all (upto_elem 9999 y H)) as Hy.
  unfold year_text_ok in Hy.
  destruct (list_ascii_of_string (zfill 4 y)) as [|a [|b [|c [|d [|? ?]]]]];
    try discriminate Hy.
  cbn [app]. unfold match_Y.
  destruct (digit a), (digit b), (digit c), (digit d); try discriminate Hy.
  apply Z.eqb_eq in Hy. rewrite Hy. reflexivity.
Qed.

Lemma digit_range c v : digit c = Some v -> 0 <= v <= 9.
Proof.
  unfold digit. destruct (_ && _) eqn:E; [|discriminate].
  intros [= <-]. lia.
Qed.

Lemma month_text m rest :
  1 <= m <= 12 ->
  match_m (list_ascii_of_string (zfill 2 m) ++ "-"%char :: rest)%list
  = Some (m, rest).
Proof.
  intros H.
  pose proof (forallb_elem _ _ m month_text_all (upto_elem 12 m H)) as Hm.
  unfold month_text_ok in Hm.
  destruct (list_ascii_of_string (zfill 2 m)) as [|a [|b [|? ?]]];
    try discriminate Hm.
  cbn [app]. unfold match_m, digit_in.
  destruct (digit a) as [va|] eqn:Ea; [|discriminate Hm].
  destruct (digit b) as [vb|] eqn:Eb; [|discriminate Hm].
  apply andb_true_iff in Hm. destruct Hm as [Hv Hle].
  apply Z.eqb_eq in Hv. apply Z.leb_le in Hle.
  pose proof (digit_range _ _ Ea). pose proof (digit_range _ _ Eb).
  assert (Hc : (va = 1 /\ 0 <= vb <= 2) \/ (va = 0 /\ 1 <= vb <= 9)) by lia.
  change (is_char "-" "-") with true. cbv beta iota.
  destruct Hc as [[-> Hb]|[-> Hb]].
  - change ((1 <=? 1) && (1 <=? 1)) with true. cbv iota.
    assert (((0 <=? vb) && (vb <=? 2)) = true) as -> by lia.
    rewrite <- Hv. reflexivity.
  - change ((1 <=? 0) && (0 <=? 1)) with false. cbv iota.
    change ((0 <=? 0) && (0 <=? 0)) with true. cbv iota.
    assert (((1 <=? vb) && (vb <=? 9)) = true) as -> by lia.
    rewrite <- Hv. reflexivity.
Qed.

Lemma day_text d :
  1 <= d <= 31 ->
  match_d (list_ascii_of_string (zfill 2 d)) = Some (d, []).
Proof.
  intros H.
  pose proof (forallb_elem _ _ d day_text_all (upto_elem 31 d H)) as Hd.
  unfold day_text_ok in Hd.
  destruct (match_d _) as [[v [|? ?]]|]; try discriminate Hd.
  apply Z.eqb_eq in Hd. rewrite Hd. reflexivity.
Qed.

(** [strptime] reads the text of a date back. *)
Lemma strptime_iso_date d :
  valid_dateobj d -> strptime (iso_date d) = Ok (combine_min d).
Proof.
  destruct d as [y m dd]. intros Hv. pose proof Hv as (Hy & Hm & Hd).
  cbn [dyear dmonth dday] in *.
  pose proof (days_in_month_range y m Hm).
  unfold strptime, iso_date. cbn [dyear dmonth dday].
  rewrite !chars_app. change (list_ascii_of_string "-") with ["-"%char].
  cbn [app].
  rewrite year_text by (unfold MINYEAR, MAXYEAR in *; lia).
  rewrite month_text by lia.
  rewrite day_text by lia.
  rewrite check_date_fields_ok by exact Hv. reflexivity.
Qed.

Lemma iso_date_supplied d : valid_dateobj d -> truthy (PStr (iso_date d)) = true.
Proof.
  intros Hv. cbn [truthy]. apply negb_true_iff, String.eqb_neq.
  intros E. pose proof (strptime_iso_date d Hv) as Hs. rewrite E in Hs.
  vm_compute in Hs. discriminate Hs.
Qed.

Lemma read_date_iso_date d f :
  valid_dateobj d ->
  read_date (PStr (iso_date d)) f = read_date (PDate d) f.
Proof.
  intros Hv. unfold read_date. rewrite iso_date_supplied by exact Hv.
  cbn [truthy]. rewrite strptime_iso_date by exact Hv. rstep.
  destruct d; reflexivity.
Qed.

Lemma dt_min_same a : dt_min a a = a.
Proof. unfold dt_min. destruct (dt_ltb a a); reflexivity. Qed.

(** X5.  A date given as the text [YYYY-MM-DD] acts as the [date] object
    of that day, as start date and as end date, whatever the other
    arguments.  With the start date alone the range runs from midnight of
    that day until now; with the end date alone it runs from 2018-01-01
    00:00 until 23:59 of that day, or until now if that comes first. *)
Theorem date_text_as_date_object clock d other hours :
  valid_dateobj d ->
  let now := replace_sec0 clock in
  _get_datetime_limits clock (PStr (iso_date d)) other hours
  = _get_datetime_limits clock (PDate d) other hours
  /\ _get_datetime_limits clock other (PStr (iso_date d)) hours
     = _get_datetime_limits clock other (PDate d) hours
  /\ _get_datetime_limits clock (PStr (iso_date d)) PNone PNone
     = Ok (combine_min d, now)
  /\ _get_datetime_limits clock PNone (PStr (iso_date d)) PNone
     = Ok (mkdatetime 2018 1 1 0 0 0 0, dt_min now (end_of_day d)).
Proof.
  intros Hv now.
  assert (E1 : forall o h,
    _get_datetime_limits clock (PStr (iso_date d)) o h
    = _get_datetime_limits clock (PDate d) o h).
  { intros o h. unfold _get_datetime_limits, initial_limits.
    rewrite read_date_iso_date, iso_date_supplied by exact Hv. reflexivity. }
  assert (E2 : forall o h,
    _get_datetime_limits clock o (PStr (iso_date d)) h
    = _get_datetime_limits clock o (PDate d) h).
  { intros o h. unfold _get_datetime_limits, initial_limits.
    rewrite read_date_iso_date, iso_date_supplied by exact Hv. reflexivity. }
  split_and!.
  - apply E1.
  - apply E2.
  - rewrite E1. unfold _get_datetime_limits, initial_limits. cbn.
    rstep. fold now. rewrite dt_min_same. reflexivity.
  - rewrite E2. reflexivity.
Qed.

Lemma date_text_as_date_object_witness :
  _get_datetime_limits Canned.clock (PStr "2022-09-01") PNone PNone
  = Ok (mkdatetime 2022 9 1 0 0 0 0, mkdatetime 2022 10 15 12 30 0 0).
Proof.
  refine (proj1 (proj2 (proj2
    (date_text_as_date_object Canned.clock (mkdate 2022 9 1) PNone PNone _)))).
  vm_compute. intuition discriminate.
Defined.

(** ** Hours back from now *)

Lemma timedelta_new_raises d s us e :
  timedelta_new d s us = Raise e -> exists msg, e = OverflowError msg.
Proof.
  unfold timedelta_new. cbv zeta.
  destruct (_ && _); [discriminate|]. intros [= <-]. eauto.
Qed.

Lemma dt_add_raises dt td e :
  dt_add dt td = Raise e -> exists msg, e = OverflowError msg.
Proof.
  unfold dt_add.
  destruct (timedelta_new _ _ _) as [delta|e'] eqn:E; rstep.
  - destruct (_ && _); [|intros [= <-]; eauto].
    destruct (_ord2ymd _) as [[y m] d]. discriminate.
  - intros [= <-]. eapply timedelta_new_raises. exact E.
Qed.

Lemma dt_sub_raises dt td e :
  dt_sub dt td = Raise e -> exists msg, e = OverflowError msg.
Proof.
  unfold dt_sub.
  destruct (timedelta_new _ _ _) as [neg|e'] eqn:E; rstep.
  - apply dt_add_raises.
  - intros [= <-]. eapply timedelta_new_raises. exact E.
Qed.

(** X6.  With hours alone (none of the dates), the range ends now and
    starts [hours] hours before now (after now, when the hours are
    negative), as long as that moment is on the calendar of [datetime];
    when it is not, what is raised is an [OverflowError], not the
    [ValueError] of the other rejections. *)
Theorem datetime_limits_hours_only clock h :
  valid_datetime clock -> h <> 0 ->
  let now := replace_sec0 clock in
  (on_calendar (to_us now - h * us_per_hour) ->
   exists start,
     _get_datetime_limits clock PNone PNone (PInt h) = Ok (start, now)
     /\ valid_datetime start
     /\ to_us start = to_us now - h * us_per_hour)
  /\ (~ on_calendar (to_us now - h * us_per_hour) ->
      exists msg,
        _get_datetime_limits clock PNone PNone (PInt h)
        = Raise (OverflowError msg)).
Proof.
  intros Hc Hh now.
  pose proof (replace_sec0_valid _ Hc) as Hn. fold now in Hn.
  assert (Et : truthy (PInt h) = true)
    by (cbn [truthy]; apply negb_true_iff, Z.eqb_neq; exact Hh).
  assert (E : _get_datetime_limits clock PNone PNone (PInt h)
              = (start ← (td ← timedelta_hours h; dt_sub now td);
                 Ok (start, now))).
  { unfold _get_datetime_limits, initial_limits. fold now.
    cbn [read_date truthy]. rstep. cbn [truthy] in Et. rewrite Et.
    cbn [orb andb negb timedelta_of_hours].
    destruct (timedelta_hours h) as [td|e]; [|reflexivity].
    destruct (dt_sub now td) as [start|e]; [|reflexivity].
    rewrite dt_min_same. reflexivity. }
  rewrite E. split.
  - intros Hon.
    destruct (dt_sub_hours_exists now h Hn Hon) as [start Hs].
    rewrite Hs. exists start. split; [reflexivity|].
    destruct (timedelta_hours h) as [td|e] eqn:Etd; [|discriminate Hs].
    rewrite bind_Ok in Hs.
    destruct (dt_sub_spec _ _ _ Hn Hs) as [Hv Hu].
    rewrite (timedelta_hours_spec _ _ Etd) in Hu. split; assumption.
  - intros Hoff.
    destruct (timedelta_hours h) as [td|e] eqn:Etd.
    + rewrite bind_Ok.
      destruct (dt_sub now td) as [start|e] eqn:Es.
      * exfalso. apply Hoff.
        destruct (dt_sub_spec _ _ _ Hn Es) as [Hv Hu].
        rewrite (timedelta_hours_spec _ _ Etd) in Hu. rewrite <- Hu.
        apply on_calendar_valid. exact Hv.
      * destruct (dt_sub_raises _ _ _ Es) as [msg ->]. exists msg. reflexivity.
    + destruct (timedelta_new_raises _ _ _ _ Etd) as [msg ->].
      exists msg. reflexivity.
Qed.

Lemma datetime_limits_hours_only_witness :
  exists start,
    _get_datetime_limits Canned.clock PNone PNone (PInt 24)
    = Ok (start, replace_sec0 Canned.clock)
    /\ valid_datetime start
    /\ to_us start = to_us (replace_sec0 Canned.clock) - 24 * us_per_hour.
Proof.
  refine (proj1 (datetime_limits_hours_only Canned.clock 24 _ _) _).
  - vm_compute. intuition discriminate.
  - discriminate.
  - vm_compute. split; [discriminate|reflexivity].
Defined.

(** X7.  The limits that [_get_datetime_limits] returns are datetimes of
    the calendar on a whole minute: their seconds and microseconds are
    zero, whatever the clock reads and whichever of hours, start date and
    end date made them. *)
Theorem datetime_limits_on_the_minute clock start_date end_date hours
    start end_ :
  valid_datetime clock -> valid_arg start_date -> valid_arg end_date ->
  _get_datetime_limits clock start_date end_date hours = Ok (start, end_) ->
  valid_datetime start /\ valid_datetime end_
  /\ second start = 0 /\ microsecond start = 0
  /\ second end_ = 0 /\ microsecond end_ = 0.
Proof.
  intros Hc Hs He Hl.
  destruct (get_datetime_limits_spec _ _ _ _ _ _ Hc Hs He Hl)
    as (end0 & _ & _ & Hvs & _ & Hve & _).
  destruct (get_datetime_limits_whole_minutes _ _ _ _ _ _ Hc Hs He Hl)
    as [[? ?] [? ?]].
  split_and!; assumption.
Qed.

Lemma datetime_limits_on_the_minute_witness :
  valid_datetime (mkdatetime 2022 10 14 12 30 0 0)
  /\ valid_datetime (mkdatetime 2022 10 15 12 30 0 0)
  /\ second (mkdatetime 2022 10 14 12 30 0 0) = 0
  /\ microsecond (mkdatetime 2022 10 14 12 30 0 0) = 0
  /\ second (mkdatetime 2022 10 15 12 30 0 0) = 0
  /\ microsecond (mkdatetime 2022 10 15 12 30 0 0) = 0.
Proof.
  apply (datetime_limits_on_the_minute Canned.clock PNone PNone (PInt 24)
           (mkdatetime 2022 10 14 12 30 0 0)
           (mkdatetime 2022 10 15 12 30 0 0)).
  - vm_compute. intuition discriminate.
  - exact I.
  - exact I.
  - vm_compute. reflexivity.
Defined.

(** ** The queries of [get_observations] *)

Section ObservationQueries.
Context `{Ext : Externals}.

(** The loop sends one query per chunk, every one of them the parameters of
    the call with the time stamps of the chunk, and the first for a chunk
    that starts where the loop starts. *)
Lemma month_loop_queries base end_ fuel :
  forall params start df st st' r,
    stamped base params ->
    month_loop fuel observations_queryid params start end_ df st
    = Some (st', r) ->
    exists cs,
      sent st' = (sent st ++ map (obs_query base) cs)%list
      /\ (forall c, head cs = Some c -> c.1 = start)
      /\ (forall lh, _month_last_h start = Ok lh -> cs <> []).
Proof.
  induction fuel as [|fuel IH]; intros params start df st st' r Hst H;
    [discriminate|].
  cbn [month_loop] in H.
  destruct (_month_last_h start) as [lh|e].
  2:{ injection H as <- <-. exists []. rewrite app_nil_r.
      split_and!; [reflexivity|discriminate|discriminate]. }
  set (be := if dt_ltb end_ lh then end_ else lh).
  assert (Hone : forall st1, sent st1
             = (sent st ++ [(observations_queryid, stamp base (start, be))])%list ->
           exists cs,
             sent st1 = (sent st ++ map (obs_query base) cs)%list
             /\ (forall c, head cs = Some c -> c.1 = start)
             /\ (forall lh', Ok lh = Ok lh' -> cs <> [])).
  { intros st1 Hs. exists [(start, be)]. split_and!.
    - exact Hs.
    - intros c [= <-]. reflexivity.
    - discriminate. }
  destruct (dt_ltb end_ lh) eqn:Elt; cbv beta iota zeta in H;
    rewrite (load_obs_stamped _ base params) in H by assumption;
    destruct (_load_obs _ base start _ st) as [st1 [[p more]|err]] eqn:El;
    pose proof (load_obs_sent _ _ _ _ _ _ _ El) as Hs1;
    try (injection H as <- <-; apply Hone; exact Hs1).
  - destruct (td ← timedelta_hours 1; dt_add end_ td);
      injection H as <- <-; apply Hone; exact Hs1.
  - destruct (td ← timedelta_hours 1; dt_add lh td) as [start'|e];
      [|injection H as <- <-; apply Hone; exact Hs1].
    pose proof (load_obs_params _ _ _ _ _ _ _ _ El) as ->.
    apply IH in H; [|right; eexists; reflexivity].
    destruct H as (cs & Hs & _ & _).
    exists ((start, be) :: cs). split_and!.
    + rewrite Hs, Hs1, <- app_assoc. reflexivity.
    + intros c [= <-]. reflexivity.
    + discriminate.
Qed.

(** A range that is too long for one query does not start in the last
    month of the calendar. *)
Lemma too_long_not_last_month start end_ :
  valid_datetime start -> valid_datetime end_ ->
  (744 <? (to_us end_ - to_us start) / us_per_hour) = true ->
  ~ last_month start.
Proof.
  intros Hs He Hlong Hl. apply Z.ltb_lt in Hlong.
  apply last_month_us in Hl; [|assumption].
  calc_us (mkdatetime 9999 12 1 0 0 0 0).
  pose proof (on_calendar_valid _ He) as [_ Hmax].
  unfold _MAXORDINAL in Hmax.
  assert ((to_us end_ - to_us start) / us_per_hour <= 744);
    [|lia].
  apply Z.div_le_upper_bound; unfold us_per_hour; lia.
Qed.

Lemma observation_preflight_Ok clock place fmisid parameter hours sd ed
    code start end_ :
  observation_preflight clock place fmisid parameter hours sd ed
  = Ok (code, (start, end_)) ->
  _fmi_inputchecks place fmisid parameter PNone = Ok tt
  /\ _get_param_name parameter (PStr "observation") = Ok code
  /\ _get_datetime_limits clock sd ed hours = Ok (start, end_).
Proof.
  unfold observation_preflight.
  destruct (_fmi_inputchecks _ _ _ _) as [[]|]; [|discriminate].
  destruct (_get_param_name _ _); [|discriminate].
  destruct (_get_datetime_limits _ _ _ _) as [[s e]|]; [|discriminate].
  rstep. intros [= <- <- <-]. split_and!; reflexivity.
Qed.

(** The queries of a call, whatever comes of it. *)
Lemma get_observations_queries clock place fmisid parameter hours sd ed st
    code start end_ st' r :
  valid_datetime clock -> valid_arg sd -> valid_arg ed ->
  observation_preflight clock place fmisid parameter hours sd ed
  = Ok (code, (start, end_)) ->
  get_observations clock place fmisid parameter hours sd ed st
  = Some (st', r) ->
  exists c cs,
    sent st'
    = (sent st
       ++ map (obs_query (observation_base place fmisid code)) (c :: cs))%list
    /\ c.1 = start.
Proof.
  intros Hc Hvs Hve Hpre Hrun.
  destruct (observation_preflight_Ok _ _ _ _ _ _ _ _ _ _ Hpre)
    as (Hchk & Hpar & Hlim).
  destruct (get_datetime_limits_spec _ _ _ _ _ _ Hc Hvs Hve Hlim)
    as (end0 & _ & _ & Hs & _ & He & _).
  rewrite (get_observations_unfold _ _ _ _ _ _ _ _ _ _ _ Hs He Hchk Hpar Hlim)
    in Hrun.
  cbv zeta in Hrun.
  destruct (744 <? _) eqn:Elong.
  - pose proof (too_long_not_last_month _ _ Hs He Elong) as Hnl.
    apply (month_loop_queries (observation_base place fmisid code)) in Hrun;
      [|left; reflexivity].
    destruct Hrun as (cs & Hsent & Hhd & Hne).
    destruct cs as [|c cs].
    + exfalso. apply (Hne _ (month_last_h_spec _ Hs Hnl)). reflexivity.
    + exists c, cs. split; [exact Hsent|]. apply Hhd. reflexivity.
  - destruct (_load_obs _ _ start end_ st) as [st1 r1] eqn:El.
    pose proof (load_obs_sent _ _ _ _ _ _ _ El) as Hs1.
    exists (start, end_), [].
    split; [|reflexivity].
    destruct r1 as [[p df]|e]; injection Hrun as <- <-; exact Hs1.
Qed.

(** X8.  [get_observations] turns to the service only once the arguments
    are checked, the parameter is translated and the range is worked out:
    when one of the three raises, the call raises the same exception and
    leaves the state as it was, no query sent; when they pass, the call
    comes back (with a table or an exception) having sent at least one
    query, the first of them with the start of the range as its
    [starttime]. *)
Theorem observations_query_after_checks clock place fmisid parameter hours
    start_date end_date st :
  valid_datetime clock -> valid_arg start_date -> valid_arg end_date ->
  (forall e,
     observation_preflight clock place fmisid parameter hours
       start_date end_date = Raise e ->
     get_observations clock place fmisid parameter hours start_date end_date
       st = Some (st, Raise e))
  /\ (forall code start end_,
        observation_preflight clock place fmisid parameter hours
          start_date end_date = Ok (code, (start, end_)) ->
        exists st' r first rest,
          get_observations clock place fmisid parameter hours start_date
            end_date st = Some (st', r)
          /\ sent st' = (sent st ++ first :: rest)%list
          /\ first.1 = observations_queryid
          /\ first.2 !! "starttime" = Some (PStr (isoformat start))).
Proof.
  intros Hc Hvs Hve. split.
  - intros e. unfold observation_preflight, get_observations.
    destruct (_fmi_inputchecks _ _ _ _) as [[]|]; [|intros [= <-]; reflexivity].
    rewrite bind_Ok.
    destruct (_get_param_name _ _); [|intros [= <-]; reflexivity].
    rewrite bind_Ok.
    destruct (_get_datetime_limits _ _ _ _) as [[s e']|];
      [discriminate|intros [= <-]; reflexivity].
  - intros code start end_ Hpre.
    destruct (get_observations_total clock place fmisid parameter hours
                start_date end_date st Hc Hvs Hve) as [[st' r] Hrun].
    destruct (get_observations_queries _ _ _ _ _ _ _ _ _ _ _ _ _
                Hc Hvs Hve Hpre Hrun) as (c & cs & Hsent & Hst).
    exists st', r, (obs_query (observation_base place fmisid code) c),
      (map (obs_query (observation_base place fmisid code)) cs).
    split_and!; [exact Hrun|exact Hsent|reflexivity|].
    unfold obs_query, stamp. cbn [snd]. rewrite Hst.
    rewrite lookup_insert_ne by discriminate. apply lookup_insert_eq.
Qed.

End ObservationQueries.

Lemma observations_query_after_checks_witness :
  get_observations Canned.clock (PStr "Helsinki") PNone (PStr "snow_depth")
    (PInt 24) PNone PNone Canned.fresh
  = Some (Canned.fresh,
          Raise (ValueError
                   ("Asked parameter 'snow_depth' does not match any expected value. Legit values are: "
                    +:+ join ", " observation_legit +:+ "."))).
Proof.
  assert (Hv : valid_datetime Canned.clock)
    by (vm_compute; intuition discriminate).
  apply (proj1 (observations_query_after_checks Canned.clock (PStr "Helsinki")
                  PNone (PStr "snow_depth") (PInt 24) PNone PNone
                  Canned.fresh Hv I I)).
  vm_compute. reflexivity.
Defined.

Section QueryShapes.
Context `{Ext : Externals}.

Lemma location_lookup place fmisid :
  location place fmisid !! location_key place
  = Some (if truthy place then place else fmisid).
Proof.
  unfold location, location_key. destruct (truthy place);
    apply lookup_singleton_eq.
Qed.

Lemma location_dom place fmisid :
  dom (location place fmisid) = ({[ location_key place ]} : gset string).
Proof.
  unfold location, location_key. destruct (truthy place);
    apply dom_singleton_L.
Qed.

Lemma location_key_cases place :
  location_key place = "place" \/ location_key place = "fmisid".
Proof. unfold location_key. destruct (truthy place); auto. Qed.

(** The chunks of the loop, one by one: the first starts where the loop
    starts, every one ends at the end of its own block, and the next starts
    an hour after the one before has ended. *)
Lemma month_loop_chunks base end_ fuel :
  valid_datetime end_ ->
  forall params start df st st' r,
    valid_datetime start ->
    stamped base params ->
    month_loop fuel observations_queryid params start end_ df st
    = Some (st', r) ->
    exists cs,
      sent st' = (sent st ++ map (obs_query base) cs)%list
      /\ (forall c, head cs = Some c -> c.1 = start)
      /\ Forall (fun c : chunk => c.2 = block_end end_ c.1) cs
      /\ (forall i a b,
            cs !! i = Some a -> cs !! S i = Some b -> hour_later a.2 b.1)
      /\ (~ last_month start -> cs <> []).
Proof.
  intros He.
  induction fuel as [|fuel IH]; intros params start df st st' r Hs Hst H;
    [discriminate|].
  cbn [month_loop] in H.
  destruct (last_month_dec start) as [Hl|Hnl].
  { rewrite (month_last_h_overflow _ Hs Hl) in H. injection H as <- <-.
    exists []. rewrite app_nil_r.
    split_and!; [reflexivity|discriminate|constructor|discriminate|].
    intros Hn. contradiction. }
  rewrite (month_last_h_spec _ Hs Hnl) in H.
  pose proof (month_last_hour_valid _ Hs) as Hvl.
  assert (Hone : forall st1, sent st1
             = (sent st ++ [(observations_queryid,
                             stamp base (start, block_end end_ start))])%list ->
           exists cs,
             sent st1 = (sent st ++ map (obs_query base) cs)%list
             /\ (forall c, head cs = Some c -> c.1 = start)
             /\ Forall (fun c : chunk => c.2 = block_end end_ c.1) cs
             /\ (forall i a b,
                   cs !! i = Some a -> cs !! S i = Some b ->
                   hour_later a.2 b.1)
             /\ (~ last_month start -> cs <> [])).
  { intros st1 Hs1. exists [(start, block_end end_ start)]. split_and!.
    - exact Hs1.
    - intros c [= <-]. reflexivity.
    - constructor; [reflexivity|constructor].
    - intros [|i] a b _ Hb; discriminate Hb.
    - discriminate. }
  unfold block_end in Hone |- *.
  destruct (dt_ltb end_ (month_last_hour start)) eqn:Elt;
    cbv beta iota zeta in H;
    rewrite (load_obs_stamped _ base params) in H by assumption;
    destruct (_load_obs _ base start _ st) as [st1 [[p more]|err]] eqn:El;
    pose proof (load_obs_sent _ _ _ _ _ _ _ El) as Hs1;
    try (injection H as <- <-; apply Hone; exact Hs1).
  - destruct (td ← timedelta_hours 1; dt_add end_ td);
      injection H as <- <-; apply Hone; exact Hs1.
  - destruct (td ← timedelta_hours 1; dt_add (month_last_hour start) td)
      as [start'|e] eqn:Ea;
      [|injection H as <- <-; apply Hone; exact Hs1].
    pose proof (load_obs_params _ _ _ _ _ _ _ _ El) as ->.
    assert (Hnext : hour_later (month_last_hour start) start').
    { change (timedelta_hours 1) with (Ok (mktimedelta 0 3600 0)) in Ea.
      rewrite bind_Ok in Ea. destruct (dt_add_spec _ _ _ Hvl Ea) as [Hv Hu].
      split; [exact Hv|exact Hu]. }
    apply IH in H; [|exact (proj1 Hnext)|right; eexists; reflexivity].
    destruct H as (cs & Hsent & Hhd & Hown & Hcons & _).
    exists ((start, month_last_hour start) :: cs). split_and!; [| | | |discriminate].
    + rewrite Hsent, Hs1, <- app_assoc. reflexivity.
    + intros c [= <-]. reflexivity.
    + constructor; [|exact Hown]. cbn [fst snd]. unfold block_end.
      rewrite Elt. reflexivity.
    + intros [|i] a b Ha Hb.
      * injection Ha as <-. cbn [snd].
        change (cs !! 0%nat = Some b) in Hb.
        rewrite (Hhd b); [exact Hnext|].
        destruct cs; [discriminate Hb|]. exact Hb.
      * exact (Hcons i a b Ha Hb).
Qed.

(** X9.  Every query that [get_observations] sends, in a single request
    or chunk by chunk, and whether the call ends in a table or in an
    exception, goes to the stored query of the hourly observations and
    carries four entries: the location (the place, or else the station),
    the code of the parameter, and the start and the end of its own chunk
    in ISO format.  The chunks are those of the loop and of no other run:
    the first starts at the start of the range; a range of less than 745
    hours is one chunk, from its start to its end; in a longer range every
    chunk ends at the end of the block of its own start (the last hour of
    that month, or the end of the range if that comes first) and the next
    chunk starts an hour after. *)
Theorem observation_queries_uniform clock place fmisid parameter hours
    start_date end_date st st' r code start end_ :
  valid_datetime clock -> valid_arg start_date -> valid_arg end_date ->
  observation_preflight clock place fmisid parameter hours start_date
    end_date = Ok (code, (start, end_)) ->
  get_observations clock place fmisid parameter hours start_date end_date st
  = Some (st', r) ->
  let base := observation_base place fmisid code in
  exists first rest,
    sent st' = (sent st ++ map (obs_query base) (first :: rest))%list
    /\ (forall c : chunk,
          (obs_query base c).1 = "fmi::observations::weather::hourly::simple"
          /\ (obs_query base c).2 !! location_key place
             = Some (if truthy place then place else fmisid)
          /\ (obs_query base c).2 !! "parameters" = Some code
          /\ (obs_query base c).2 !! "starttime"
             = Some (PStr (isoformat c.1))
          /\ (obs_query base c).2 !! "endtime" = Some (PStr (isoformat c.2))
          /\ dom (obs_query base c).2
             = ({[ location_key place; "parameters"; "starttime";
                   "endtime" ]} : gset string))
    /\ first.1 = start
    /\ (to_us end_ - to_us start < 745 * us_per_hour ->
        first = (start, end_) /\ rest = [])
    /\ (745 * us_per_hour <= to_us end_ - to_us start ->
        Forall (fun c : chunk => c.2 = block_end end_ c.1) (first :: rest)
        /\ forall i a b,
             (first :: rest) !! i = Some a ->
             (first :: rest) !! S i = Some b ->
             hour_later a.2 b.1).
Proof.
  intros Hc Hvs Hve Hpre Hrun base.
  destruct (observation_preflight_Ok _ _ _ _ _ _ _ _ _ _ Hpre)
    as (Hchk & Hpar & Hlim).
  destruct (get_datetime_limits_spec _ _ _ _ _ _ Hc Hvs Hve Hlim)
    as (end0 & _ & _ & Hs & _ & He & _).
  assert (Hshape : forall c : chunk,
    (obs_query base c).1 = "fmi::observations::weather::hourly::simple"
    /\ (obs_query base c).2 !! location_key place
       = Some (if truthy place then place else fmisid)
    /\ (obs_query base c).2 !! "parameters" = Some code
    /\ (obs_query base c).2 !! "starttime" = Some (PStr (isoformat c.1))
    /\ (obs_query base c).2 !! "endtime" = Some (PStr (isoformat c.2))
    /\ dom (obs_query base c).2
       = ({[ location_key place; "parameters"; "starttime"; "endtime" ]}
          : gset string)).
  { intros c. unfold obs_query, stamp, base, observation_base. cbn [fst snd].
    pose proof (location_key_cases place) as Hk.
    split_and!.
    - reflexivity.
    - rewrite !lookup_insert_ne by (destruct Hk as [-> | ->]; discriminate).
      apply location_lookup.
    - rewrite !lookup_insert_ne by discriminate. apply lookup_insert_eq.
    - rewrite lookup_insert_ne by discriminate. apply lookup_insert_eq.
    - apply lookup_insert_eq.
    - rewrite !dom_insert_L, location_dom. clear.
      apply set_eq. intros k. rewrite !elem_of_union, !elem_of_singleton.
      tauto. }
  rewrite (get_observations_unfold _ _ _ _ _ _ _ _ _ _ _ Hs He Hchk Hpar Hlim)
    in Hrun.
  cbv zeta in Hrun. fold base in Hrun.
  destruct (744 <? (to_us end_ - to_us start) / us_per_hour) eqn:Elong.
  - (* chunk by chunk *)
    pose proof (too_long_not_last_month _ _ Hs He Elong) as Hnl.
    apply Z.ltb_lt in Elong.
    assert (Hspan : 745 * us_per_hour <= to_us end_ - to_us start).
    { destruct (Z.le_gt_cases (745 * us_per_hour) (to_us end_ - to_us start))
        as [?|Hlt]; [assumption|exfalso].
      assert ((to_us end_ - to_us start) / us_per_hour < 745)
        by (apply Z.div_lt_upper_bound; unfold us_per_hour in *; lia).
      lia. }
    apply (month_loop_chunks base end_ _ He) in Hrun;
      [|exact Hs|left; reflexivity].
    destruct Hrun as (cs & Hsent & Hhd & Hown & Hcons & Hne).
    destruct cs as [|first rest]; [exfalso; apply (Hne Hnl); reflexivity|].
    exists first, rest. split_and!.
    + exact Hsent.
    + exact Hshape.
    + apply Hhd. reflexivity.
    + intros Hlt. exfalso. lia.
    + intros _. split; [exact Hown|exact Hcons].
  - (* a single request *)
    apply Z.ltb_ge in Elong.
    assert (Hspan : to_us end_ - to_us start < 745 * us_per_hour).
    { destruct (Z.le_gt_cases (745 * us_per_hour) (to_us end_ - to_us start))
        as [Hge|?]; [exfalso|lia].
      assert (745 <= (to_us end_ - to_us start) / us_per_hour)
        by (apply Z.div_le_lower_bound; unfold us_per_hour in *; lia).
      lia. }
    destruct (_load_obs _ _ start end_ st) as [st1 r1] eqn:El.
    pose proof (load_obs_sent _ _ _ _ _ _ _ El) as Hs1.
    exists (start, end_), []. split_and!.
    + destruct r1 as [[p df]|e]; injection Hrun as <- <-; exact Hs1.
    + exact Hshape.
    + reflexivity.
    + intros _. split; reflexivity.
    + intros Hge. exfalso. lia.
Qed.

Lemma forecast_preflight_Ok clock place fmisid parameter model hours
    code end_ :
  forecast_preflight clock place fmisid parameter model hours
  = Ok (code, end_) ->
  exists td,
    _fmi_inputchecks place fmisid parameter model = Ok tt
    /\ _get_param_name parameter (PStr "forecast") = Ok code
    /\ timedelta_of_hours (forecast_hours model hours) = Ok td
    /\ dt_add (replace_sec0 clock) td = Ok end_.
Proof.
  unfold forecast_preflight.
  destruct (_fmi_inputchecks _ _ _ _) as [[]|]; [|discriminate].
  destruct (_get_param_name _ _); [|discriminate].
  destruct (timedelta_of_hours _) as [td|]; [|discriminate]. rstep.
  destruct (dt_add _ _) eqn:Ea; [|discriminate].
  intros [= <- <-]. exists td. split_and!; try reflexivity. exact Ea.
Qed.

(** X13.  [get_forecast] sends one query or none.  None, and the state is
    as it was, when the check of the arguments, the translation of the
    parameter or the computation of the end time raises: the call raises
    the same exception.  Otherwise exactly one, whatever the service
    answers: to the stored query of harmonie when the model is "harmonie"
    and to that of hirlam for every other model that passed the check, with
    the location, the code of the parameter and the end time, and without a
    start time. *)
Theorem forecast_one_query clock place fmisid parameter model hours st :
  (forall e,
     forecast_preflight clock place fmisid parameter model hours = Raise e ->
     get_forecast clock place fmisid parameter model hours st
     = (st, Raise e))
  /\ (forall code end_,
        forecast_preflight clock place fmisid parameter model hours
        = Ok (code, end_) ->
        exists st' r queryid params,
          get_forecast clock place fmisid parameter model hours st = (st', r)
          /\ sent st' = (sent st ++ [(queryid, params)])%list
          /\ ((model = PStr "harmonie"
               /\ queryid = "fmi::forecast::harmonie::hybrid::point::simple")
              \/ (model <> PStr "harmonie"
                  /\ queryid
                     = "fmi::forecast::hirlam::surface::point::simple"))
          /\ params !! location_key place
             = Some (if truthy place then place else fmisid)
          /\ params !! "parameters" = Some code
          /\ params !! "endtime" = Some (PStr (isoformat end_))
          /\ dom params
             = ({[ location_key place; "parameters"; "endtime" ]}
                : gset string)).
Proof.
  split.
  - intros e. rewrite get_forecast_unfold. unfold forecast_preflight.
    destruct (_fmi_inputchecks _ _ _ _) as [[]|]; [|intros [= <-]; reflexivity].
    rewrite bind_Ok.
    destruct (_get_param_name _ _); [|intros [= <-]; reflexivity].
    rewrite bind_Ok.
    destruct (timedelta_of_hours _); [|intros [= <-]; reflexivity].
    rewrite bind_Ok.
    destruct (dt_add _ _); [discriminate|intros [= <-]; reflexivity].
  - intros code end_ Hpre.
    destruct (forecast_preflight_Ok _ _ _ _ _ _ _ _ Hpre)
      as (td & Hchk & Hpar & Htd & Hadd).
    rewrite get_forecast_unfold, Hchk, Hpar, Htd, Hadd. cbv zeta.
    destruct (wfs_getfeature _ _ _) as [w res].
    eexists _, _, _, _. split; [reflexivity|]. split; [reflexivity|].
    pose proof (location_key_cases place) as Hk.
    unfold forecast_params. split_and!.
    + unfold forecast_queryid. case_bool_decide; [left|right]; auto.
    + rewrite !lookup_insert_ne by (destruct Hk as [-> | ->]; discriminate).
      apply location_lookup.
    + rewrite lookup_insert_ne by discriminate. apply lookup_insert_eq.
    + apply lookup_insert_eq.
    + rewrite !dom_insert_L, location_dom. clear.
    apply set_eq. intros k. rewrite !elem_of_union, !elem_of_singleton. tauto.
Qed.

(** X14.  A model that is passed as [None] (or as anything else that
    counts as false) is neither refused nor replaced by the default
    "harmonie": with no hours supplied the forecast is asked of hirlam, up
    to 54 hours from now. *)
Theorem forecast_model_unset clock place fmisid parameter model hours st
    code end_ :
  valid_datetime clock ->
  ~ supplied model -> ~ supplied hours ->
  supplied parameter -> supplied place \/ supplied fmisid ->
  _get_param_name parameter (PStr "forecast") = Ok code ->
  valid_datetime end_ ->
  to_us end_ = to_us (replace_sec0 clock) + 54 * us_per_hour ->
  exists st' r params,
    get_forecast clock place fmisid parameter model hours st = (st', r)
    /\ sent st'
       = (sent st
          ++ [("fmi::forecast::hirlam::surface::point::simple", params)])%list
    /\ params !! "endtime" = Some (PStr (isoformat end_)).
Proof.
  intros Hc Hm Hh Hp Hl Hpar He Hus.
  pose proof (replace_sec0_valid _ Hc) as Hn.
  assert (Hne : model <> PStr "harmonie")
    by (intros ->; apply Hm; reflexivity).
  assert (Hchk : _fmi_inputchecks place fmisid parameter model = Ok tt)
    by (apply inputchecks_pass; [assumption..|left; exact Hm]).
  unfold supplied in Hh. apply not_true_is_false in Hh.
  assert (Eh : forecast_hours model hours = PInt 54).
  { unfold forecast_hours. rewrite Hh.
    rewrite bool_decide_eq_false_2 by exact Hne. reflexivity. }
  rewrite get_forecast_unfold, Hchk, Hpar, Eh. cbn [timedelta_of_hours].
  change (timedelta_hours 54) with (Ok (mktimedelta 2 21600 0)).
  cbv beta iota.
  rewrite (dt_add_intro _ (mktimedelta 2 21600 0) end_ Hn He)
    by (rewrite Hus; reflexivity).
  cbv zeta. unfold forecast_queryid.
  rewrite bool_decide_eq_false_2 by exact Hne.
  destruct (wfs_getfeature _ _ _) as [w res].
  eexists _, _, _. split; [reflexivity|]. split; [reflexivity|].
  unfold forecast_params. apply lookup_insert_eq.
Qed.

End QueryShapes.

Lemma observation_queries_uniform_witness :
  exists first rest,
    [obs_query (observation_base (PStr "Helsinki") PNone (PStr "TA_PT1H_AVG"))
       (mkdatetime 2022 10 14 12 30 0 0, mkdatetime 2022 10 15 12 30 0 0)]
    = map (obs_query (observation_base (PStr "Helsinki") PNone
                        (PStr "TA_PT1H_AVG"))) (first :: rest)
    /\ first = (mkdatetime 2022 10 14 12 30 0 0,
                mkdatetime 2022 10 15 12 30 0 0)
    /\ rest = [].
Proof.
  destruct (observation_queries_uniform Canned.clock (PStr "Helsinki") PNone
              (PStr "temperature") (PInt 24) PNone PNone Canned.fresh
              (@mkstate Canned.service 1%nat
                 [obs_query
                    (observation_base (PStr "Helsinki") PNone
                       (PStr "TA_PT1H_AVG"))
                    (mkdatetime 2022 10 14 12 30 0 0,
                     mkdatetime 2022 10 15 12 30 0 0)])
              (Ok (@mkDataFrame Canned.service ["2022-09-01T00:00:00Z"] [12]))
              (PStr "TA_PT1H_AVG") (mkdatetime 2022 10 14 12 30 0 0)
              (mkdatetime 2022 10 15 12 30 0 0))
    as (first & rest & Hsent & _ & _ & Hone & _).
  - vm_compute. intuition discriminate.
  - exact I.
  - exact I.
  - vm_compute. reflexivity.
  - run_closed.
  - exists first, rest. split; [exact Hsent|].
    apply Hone. vm_compute. reflexivity.
Defined.

Lemma forecast_one_query_witness :
  get_forecast Canned.clock (PStr "Helsinki") PNone (PStr "temperature")
    default_model (PStr "soon") Canned.fresh
  = (Canned.fresh,
     Raise (TypeError "unsupported type for timedelta hours component")).
Proof.
  apply (proj1 (forecast_one_query Canned.clock (PStr "Helsinki") PNone
                  (PStr "temperature") default_model (PStr "soon")
                  Canned.fresh)).
  vm_compute. reflexivity.
Defined.

Lemma forecast_model_unset_witness :
  exists st' r params,
    get_forecast Canned.clock (PStr "Helsinki") PNone (PStr "temperature")
      PNone PNone Canned.fresh = (st', r)
    /\ sent st'
       = (sent Canned.fresh
          ++ [("fmi::forecast::hirlam::surface::point::simple", params)])%list
    /\ params !! "endtime" = Some (PStr (isoformat (mkdatetime 2022 10 17 18 30 0 0))).
Proof.
  apply (forecast_model_unset Canned.clock (PStr "Helsinki") PNone
           (PStr "temperature") PNone PNone Canned.fresh
           (PStr "Temperature") (mkdatetime 2022 10 17 18 30 0 0)).
  - vm_compute. intuition discriminate.
  - unfold supplied. simpl. discriminate.
  - unfold supplied. simpl. discriminate.
  - reflexivity.
  - left. reflexivity.
  - vm_compute. reflexivity.
  - vm_compute. intuition discriminate.
  - vm_compute. reflexivity.
Defined.

(** ** Place and station together *)

Section Precedence.
Context `{Ext : Externals}.

Lemma obs_query_place_only place fmisid code c :
  supplied place ->
  uses_place_only place (obs_query (observation_base place fmisid code) c).
Proof.
  intros Hp. unfold uses_place_only, obs_query, stamp, observation_base.
  cbn [snd]. rewrite (location_place _ _ Hp).
  rewrite !lookup_insert_ne by discriminate.
  split; [apply lookup_singleton_eq|apply lookup_singleton_ne; discriminate].
Qed.

Lemma forecast_params_place_only place fmisid code end_ queryid :
  supplied place ->
  uses_place_only place (queryid, forecast_params place fmisid code end_).
Proof.
  intros Hp. unfold uses_place_only, forecast_params.
  cbn [snd]. rewrite (location_place _ _ Hp).
  rewrite !lookup_insert_ne by discriminate.
  split; [apply lookup_singleton_eq|apply lookup_singleton_ne; discriminate].
Qed.

(** C10.  When a place and an fmisid are both supplied, the check passes
    as it does for the place alone, the dictionary of the query holds the
    place and no station, and both entry points behave as if no fmisid had
    been given.  Once the parameter is translated and the times are worked
    out, the request is made: [get_observations] sends at least one query
    and [get_forecast] exactly one, and every query that they send names
    the place and no fmisid. *)
Theorem place_takes_precedence clock place fmisid parameter model hours
    start_date end_date st :
  supplied place -> supplied fmisid ->
  (supplied parameter -> known_model model ->
   _fmi_inputchecks place fmisid parameter model = Ok tt)
  /\ location place fmisid = {[ "place" := place ]}
  /\ get_observations clock place fmisid parameter hours start_date end_date
       st
     = get_observations clock place PNone parameter hours start_date
         end_date st
  /\ get_forecast clock place fmisid parameter model hours st
     = get_forecast clock place PNone parameter model hours st
  /\ (forall st' r,
        get_observations clock place fmisid parameter hours start_date
          end_date st = Some (st', r) ->
        exists new, sent st' = (sent st ++ new)%list
                    /\ Forall (uses_place_only place) new)
  /\ (forall st' r,
        get_forecast clock place fmisid parameter model hours st = (st', r) ->
        exists new, sent st' = (sent st ++ new)%list
                    /\ Forall (uses_place_only place) new)
  /\ (forall code start end_,
        valid_datetime clock -> valid_arg start_date -> valid_arg end_date ->
        supplied parameter ->
        _get_param_name parameter (PStr "observation") = Ok code ->
        _get_datetime_limits clock start_date end_date hours
        = Ok (start, end_) ->
        exists st' r first rest,
          get_observations clock place fmisid parameter hours start_date
            end_date st = Some (st', r)
          /\ sent st' = (sent st ++ first :: rest)%list
          /\ Forall (uses_place_only place) (first :: rest))
  /\ (forall code td end_,
        supplied parameter -> known_model model ->
        _get_param_name parameter (PStr "forecast") = Ok code ->
        timedelta_of_hours (forecast_hours model hours) = Ok td ->
        dt_add (replace_sec0 clock) td = Ok end_ ->
        exists st' r query,
          get_forecast clock place fmisid parameter model hours st = (st', r)
          /\ sent st' = (sent st ++ [query])%list
          /\ uses_place_only place query).
Proof.
  intros Hp Hf. split_and!.
  - intros Hpar Hm. apply inputchecks_pass; auto.
  - apply location_place, Hp.
  - apply get_observations_fmisid, Hp.
  - apply get_forecast_fmisid, Hp.
  - intros st' r H. apply get_observations_sent in H.
    destruct H as (new & Hn & Hq). exists new. split; [exact Hn|].
    eapply Forall_impl; [exact Hq|]. intros query Hk.
    apply (location_place_only place fmisid); [exact Hp|apply Hk..];
      discriminate.
  - intros st' r H. apply get_forecast_sent in H.
    destruct H as (new & Hn & Hq). exists new. split; [exact Hn|].
    eapply Forall_impl; [exact Hq|]. intros query Hk.
    apply (location_place_only place fmisid); [exact Hp|apply Hk..];
      discriminate.
  - intros code start end_ Hc Hvs Hve Hpar Hcode Hlim.
    assert (Hpre : observation_preflight clock place fmisid parameter hours
                     start_date end_date = Ok (code, (start, end_))).
    { unfold observation_preflight.
      rewrite inputchecks_pass by (auto; left; discriminate).
      rewrite bind_Ok, Hcode, bind_Ok, Hlim. reflexivity. }
    destruct (get_observations_total clock place fmisid parameter hours
                start_date end_date st Hc Hvs Hve) as [[st' r] Hrun].
    destruct (get_observations_queries _ _ _ _ _ _ _ _ _ _ _ _ _
                Hc Hvs Hve Hpre Hrun) as (c & cs & Hsent & _).
    exists st', r, (obs_query (observation_base place fmisid code) c),
      (map (obs_query (observation_base place fmisid code)) cs).
    split; [exact Hrun|]. split; [exact Hsent|].
    change (Forall (uses_place_only place)
              (map (obs_query (observation_base place fmisid code))
                 (c :: cs))).
    apply Forall_fmap, Forall_forall. intros c' _.
    apply obs_query_place_only, Hp.
  - intros code td end_ Hpar Hm Hcode Htd Hadd.
    rewrite get_forecast_unfold.
    rewrite inputchecks_pass by auto.
    rewrite Hcode, Htd, Hadd. cbv zeta.
    destruct (wfs_getfeature _ _ _) as [w res].
    eexists _, _, _. split; [reflexivity|]. split; [reflexivity|].
    apply forecast_params_place_only, Hp.
Qed.

End Precedence.

Lemma place_takes_precedence_witness :
  exists st' r first rest,
    get_observations Canned.clock (PStr "Helsinki") (PInt 101799)
      (PStr "temperature") (PInt 24) PNone PNone Canned.fresh
    = Some (st', r)
    /\ sent st' = (sent Canned.fresh ++ first :: rest)%list
    /\ Forall (uses_place_only (PStr "Helsinki")) (first :: rest).
Proof.
  refine (proj1 (proj2 (proj2 (proj2 (proj2 (proj2 (proj2
    (place_takes_precedence Canned.clock (PStr "Helsinki") (PInt 101799)
       (PStr "temperature") PNone (PInt 24) PNone PNone Canned.fresh
       _ _)))))))
    (PStr "TA_PT1H_AVG") (mkdatetime 2022 10 14 12 30 0 0)
    (mkdatetime 2022 10 15 12 30 0 0) _ _ _ _ _ _).
  - reflexivity.
  - reflexivity.
  - vm_compute. intuition discriminate.
  - exact I.
  - exact I.
  - reflexivity.
  - vm_compute. reflexivity.
  - vm_compute. reflexivity.
Defined.

(** ** The table of a tree *)

Lemma const_tag_no_cell tag :
  tag ∈ const_tags -> String.eqb tag time_tag = false
                      /\ String.eqb tag value_tag = false.
Proof.
  intros H. unfold const_tags in H.
  apply elem_of_cons in H. destruct H as [->|H]; [split; reflexivity|].
  apply elem_of_cons in H. destruct H as [->|H]; [split; reflexivity|].
  inversion H.
Qed.

(** The loop of [_tree_to_df] files the time cells and the value cells,
    in document order, as long as every element has a text. *)
Lemma collect_cells els :
  Forall has_text els ->
  forall times values,
    collect els times values
    = Ok ((times ++ omap time_cell els)%list,
          (values ++ omap value_cell els)%list).
Proof.
  induction 1 as [|[tag text children] els Ht _ IH]; intros times values.
  - simpl. rewrite !app_nil_r. reflexivity.
  - destruct Ht as [text' ->]. cbn [collect omap list_omap time_cell value_cell].
    destruct (isspace text'); cbn [negb andb].
    { rewrite !andb_false_r. apply IH. }
    rewrite !andb_true_r.
    case_bool_decide as Hc; cbn [negb].
    { destruct (const_tag_no_cell _ Hc) as [-> ->]. apply IH. }
    destruct (String.eqb tag time_tag) eqn:Et.
    + assert (Ev : String.eqb tag value_tag = false).
      { apply String.eqb_eq in Et. subst tag. reflexivity. }
      rewrite Ev, IH, <- app_assoc. reflexivity.
    + destruct (String.eqb tag value_tag).
      * rewrite IH, <- app_assoc. reflexivity.
      * apply IH.
Qed.

(** It stops at the first element without one. *)
Lemma collect_no_text els :
  forall times values,
    (exists tag children, Elem tag None children ∈ els) ->
    collect els times values = Raise no_text_error.
Proof.
  induction els as [|[tag text children] els IH]; intros times values
    (tag' & children' & Hin).
  - inversion Hin.
  - cbn [collect]. destruct text as [text|]; [|reflexivity].
    apply elem_of_cons in Hin. destruct Hin as [Heq|Hin]; [discriminate|].
    assert (Hex : exists tag children, Elem tag None children ∈ els)
      by eauto.
    destruct (negb (isspace text) && _);
      [destruct (String.eqb tag time_tag);
       [|destruct (String.eqb tag value_tag)]|]; apply IH; exact Hex.
Qed.

Lemma has_text_dec els :
  Forall has_text els \/ exists tag children, Elem tag None children ∈ els.
Proof.
  induction els as [|[tag [text|] children] els [IH|(t & c & IH)]].
  - left. constructor.
  - left. constructor; [eexists; reflexivity|exact IH].
  - right. exists t, c. apply list_elem_of_further. exact IH.
  - right. exists tag, children. apply list_elem_of_here.
  - right. exists tag, children. apply list_elem_of_here.
Qed.

Section Floats.
Context `{Ext : Externals}.

(** [astype("float")] gives the floats of all cells, when all of them are
    numbers. *)
Lemma astype_float_Ok col l :
  astype_float col = Ok l <-> mapM float_of_str col = Some l.
Proof.
  rewrite mapM_Some. revert l.
  induction col as [|cell col IH]; intros l.
  - simpl. split.
    + intros [= <-]. constructor.
    + intros H. inversion H. reflexivity.
  - cbn [astype_float]. split.
    + destruct (float_of_str cell) as [x|] eqn:Ex; [|discriminate].
      destruct (astype_float col) as [l'|e]; [|discriminate].
      rewrite bind_Ok. intros [= <-].
      constructor; [exact Ex|]. apply IH. reflexivity.
    + intros H. inversion H as [|? y ? k Hy Hk]; subst.
      rewrite Hy. apply IH in Hk. rewrite Hk. reflexivity.
Qed.

(** What it raises is a [ValueError]. *)
Lemma astype_float_raises col e :
  astype_float col = Raise e -> exists msg, e = ValueError msg.
Proof.
  induction col as [|cell col IH]; [discriminate|].
  cbn [astype_float]. destruct (float_of_str cell) as [x|].
  - destruct (astype_float col) as [l|e']; [discriminate|].
    rstep. intros [= <-]. apply IH. reflexivity.
  - intros [= <-]. eauto.
Qed.

(** And it raises as soon as one cell is no number. *)
Lemma astype_float_not_numeric col text :
  text ∈ col -> ~ numeric text ->
  exists msg, astype_float col = Raise (ValueError msg).
Proof.
  intros Hin Hn. destruct (astype_float col) as [l|e] eqn:E.
  - exfalso. apply astype_float_Ok in E.
    assert (Hs : is_Some (mapM float_of_str col)) by (rewrite E; eauto).
    apply mapM_is_Some in Hs. rewrite Forall_forall in Hs.
    apply Hn. apply Hs. exact Hin.
  - destruct (astype_float_raises _ _ E) as [msg ->]. eauto.
Qed.

End Floats.

Section Tables.
Context `{Ext : Externals}.

(** C9.  In the conversion of a tree into a table every value cell is
    converted to a float.  A table comes out when every element has a text,
    the time cells are as many as the value cells, the timestamps convert
    and every value cell is a number, and its value column is then the
    floats of the value cells, in order; a table that comes out holds in
    its value column the floats of all value cells, none left out; and a
    value cell that is no number makes the conversion raise: the
    [ValueError] of the float conversion, once the table can be built and
    the timestamps convert.  (Cells are the elements of the tag with a
    text that is not white space only; the loop passes over the others, as
    section 4.5 of the specification says.) *)
Theorem tree_to_df_values tree :
  (forall dates floats,
      Forall has_text (tree_iter tree) ->
      length (time_cells tree) = length (value_cells tree) ->
      to_datetime (time_cells tree) = Ok dates ->
      mapM float_of_str (value_cells tree) = Some floats ->
      _tree_to_df tree = Ok (mkDataFrame dates floats))
  /\ (forall df,
        _tree_to_df tree = Ok df ->
        mapM float_of_str (value_cells tree) = Some (df_value df)
        /\ Forall numeric (value_cells tree)
        /\ length (df_value df) = length (value_cells tree))
  /\ (forall text,
        text ∈ value_cells tree -> ~ numeric text ->
        (exists e, _tree_to_df tree = Raise e)
        /\ (forall dates,
              Forall has_text (tree_iter tree) ->
              length (time_cells tree) = length (value_cells tree) ->
              to_datetime (time_cells tree) = Ok dates ->
              exists msg, _tree_to_df tree = Raise (ValueError msg))).
Proof.
  assert (Hrun : forall dates,
             Forall has_text (tree_iter tree) ->
             length (time_cells tree) = length (value_cells tree) ->
             to_datetime (time_cells tree) = Ok dates ->
             _tree_to_df tree
             = (value ← astype_float (value_cells tree);
                Ok (mkDataFrame dates value))).
  { intros dates Ht Hlen Hd. unfold _tree_to_df.
    rewrite (collect_cells _ Ht). rstep. cbn [app].
    fold (time_cells tree) (value_cells tree).
    apply Nat.eqb_eq in Hlen. rewrite Hlen. cbn [negb]. rewrite Hd.
    reflexivity. }
  split_and!.
  - intros dates floats Ht Hlen Hd Hf. rewrite (Hrun dates Ht Hlen Hd).
    apply astype_float_Ok in Hf. rewrite Hf. reflexivity.
  - intros df H.
    destruct (has_text_dec (tree_iter tree)) as [Ht|Hn].
    2:{ unfold _tree_to_df in H. rewrite (collect_no_text _ [] [] Hn) in H.
        discriminate H. }
    unfold _tree_to_df in H. rewrite (collect_cells _ Ht) in H.
    unfold mbind, result_bind, rbind in H. cbv beta iota zeta in H.
    cbn [app] in H. fold (time_cells tree) (value_cells tree) in H.
    destruct (negb _); [discriminate H|].
    destruct (to_datetime (time_cells tree)) as [date|]; [|discriminate H].
    destruct (astype_float (value_cells tree)) as [value|] eqn:Ev;
      [|discriminate H].
    injection H as <-. cbn [df_value]. apply astype_float_Ok in Ev.
    split_and!.
    + exact Ev.
    + apply mapM_is_Some. rewrite Ev. eauto.
    + symmetry. eapply length_mapM. exact Ev.
  - intros text Hin Hnum.
    destruct (astype_float_not_numeric _ _ Hin Hnum) as [msg Hmsg].
    split.
    + destruct (_tree_to_df tree) as [df|e] eqn:E; [|eauto]. exfalso.
      destruct (has_text_dec (tree_iter tree)) as [Ht|Hn].
      2:{ unfold _tree_to_df in E. rewrite (collect_no_text _ [] [] Hn) in E.
          discriminate E. }
      unfold _tree_to_df in E. rewrite (collect_cells _ Ht) in E.
      unfold mbind, result_bind, rbind in E. cbv beta iota zeta in E.
      cbn [app] in E. fold (time_cells tree) (value_cells tree) in E.
      destruct (negb _); [discriminate E|].
      destruct (to_datetime (time_cells tree)) as [date|]; [|discriminate E].
      rewrite Hmsg in E. discriminate E.
    + intros dates Ht Hlen Hd. exists msg.
      rewrite (Hrun dates Ht Hlen Hd), Hmsg. reflexivity.
Qed.

(** X15.  What [_tree_to_df] raises on its own account.  A tree with an
    element that has no text at all (text [None], as the parser gives for
    an element without content) raises [AttributeError], whatever else the
    tree holds; a tree whose elements all have a text, with time cells and
    value cells in different numbers, raises the [ValueError] of the table
    constructor: no row is dropped or padded. *)
Theorem tree_to_df_refusals tree :
  ((exists tag children, Elem tag None children ∈ tree_iter tree) ->
   _tree_to_df tree = Raise no_text_error)
  /\ (Forall has_text (tree_iter tree) ->
      length (time_cells tree) <> length (value_cells tree) ->
      _tree_to_df tree = Raise length_error).
Proof.
  unfold _tree_to_df. split.
  - intros H. rewrite (collect_no_text _ [] [] H). reflexivity.
  - intros H Hlen. rewrite (collect_cells _ H). rstep. cbn [app].
    fold (time_cells tree) (value_cells tree).
    apply Nat.eqb_neq in Hlen. rewrite Hlen. reflexivity.
Qed.

(** X16.  When [_tree_to_df] returns a table, every element of the tree
    has a text, the tree has as many time cells as value cells, the date
    column is the conversion of the time cells in document order, and there
    is one row per time cell.  Elements with other tags, with the two
    constant tags, or with a text of white space only leave no trace. *)
Theorem tree_to_df_table tree df :
  _tree_to_df tree = Ok df ->
  Forall has_text (tree_iter tree)
  /\ length (time_cells tree) = length (value_cells tree)
  /\ to_datetime (time_cells tree) = Ok (df_date df)
  /\ astype_float (value_cells tree) = Ok (df_value df)
  /\ length (df_value df) = length (time_cells tree).
Proof.
  intros H.
  destruct (has_text_dec (tree_iter tree)) as [Ht|Hn].
  2:{ unfold _tree_to_df in H. rewrite (collect_no_text _ [] [] Hn) in H.
      discriminate H. }
  unfold _tree_to_df in H. rewrite (collect_cells _ Ht) in H.
  unfold mbind, result_bind, rbind in H; cbv beta iota zeta in H. cbn [app] in H.
  fold (time_cells tree) (value_cells tree) in H.
  destruct (length (time_cells tree) =? length (value_cells tree))%nat eqn:El;
    [|discriminate H].
  apply Nat.eqb_eq in El. cbn [negb] in H.
  destruct (to_datetime (time_cells tree)) as [date|]; [|discriminate H].
  destruct (astype_float (value_cells tree)) as [value|] eqn:Ev;
    [|discriminate H].
  injection H as <-. cbn [df_date df_value].
  split_and!; try reflexivity; try assumption.
  apply astype_float_Ok in Ev. rewrite El. symmetry.
  eapply length_mapM. exact Ev.
Qed.

End Tables.

Lemma tree_to_df_refusals_witness :
  _tree_to_df (Elem "{http://xml.fmi.fi/schema/wfs/2.0}Time" None [])
  = Raise no_text_error
  /\ _tree_to_df
       (Elem "{http://xml.fmi.fi/schema/wfs/2.0}Time"
          (Some "2022-09-01T00:00:00Z") [])
     = Raise length_error.
Proof.
  split.
  - apply (proj1 (tree_to_df_refusals
                    (Elem "{http://xml.fmi.fi/schema/wfs/2.0}Time" None []))).
    exists "{http://xml.fmi.fi/schema/wfs/2.0}Time", [].
    apply list_elem_of_here.
  - apply (proj2 (tree_to_df_refusals
                    (Elem "{http://xml.fmi.fi/schema/wfs/2.0}Time"
                       (Some "2022-09-01T00:00:00Z") []))).
    + constructor; [eexists; reflexivity|constructor].
    + vm_compute. discriminate.
Defined.

Lemma tree_to_df_table_witness :
  length (time_cells Canned.answer) = length (value_cells Canned.answer)
  /\ to_datetime (time_cells Canned.answer) = Ok ["2022-09-01T00:00:00Z"].
Proof.
  destruct (tree_to_df_table Canned.answer
              (@mkDataFrame Canned.service ["2022-09-01T00:00:00Z"] [12]))
    as (_ & Hl & Hd & _).
  - run_closed.
  - split; [exact Hl|exact Hd].
Defined.

Lemma tree_to_df_values_witness :
  _tree_to_df Canned.answer
  = Ok (@mkDataFrame Canned.service ["2022-09-01T00:00:00Z"] [12])
  /\ _tree_to_df blank_cell
     = Ok (@mkDataFrame Canned.service ["2022-09-01T00:00:00Z"] [12])
  /\ exists msg, _tree_to_df Canned.garbled = Raise (ValueError msg).
Proof.
  split_and!.
  - apply (proj1 (@tree_to_df_values Canned.service Canned.answer)).
    + repeat (constructor; [eexists; reflexivity|]). constructor.
    + reflexivity.
    + reflexivity.
    + reflexivity.
  - apply (proj1 (@tree_to_df_values Canned.service blank_cell)).
    + repeat (constructor; [eexists; reflexivity|]). constructor.
    + reflexivity.
    + reflexivity.
    + reflexivity.
  - assert (Hin : "n/a" ∈ value_cells Canned.garbled)
      by (vm_compute; apply list_elem_of_here).
    assert (Hnum : ~ @numeric Canned.service "n/a")
      by (unfold numeric; vm_compute; intros [x Hx]; discriminate Hx).
    apply (proj2 (proj2 (proj2 (@tree_to_df_values Canned.service
                                  Canned.garbled)) "n/a" Hin Hnum)
             ["2022-09-01T00:00:00Z"]).
    + repeat (constructor; [eexists; reflexivity|]). constructor.
    + reflexivity.
    + reflexivity.
Defined.

(** ** The chunks of a long range *)

Lemma month_last_hour_span dt :
  valid_datetime dt ->
  to_us (month_last_hour dt) - to_us dt <= 743 * us_per_hour.
Proof.
  intros ((Hy & Hm & Hd) & Hh & Hmi & Hs & Hu).
  pose proof (days_in_month_range (year dt) (month dt) Hm).
  unfold month_last_hour, to_us, toordinal, seconds_of_day, _ymd2ord,
    us_per_hour; simpl. lia.
Qed.

(** No chunk of a plan asks for more than 743 hours. *)
Lemma monthly_chunks_spans end_ start chunks :
  valid_datetime start -> valid_datetime end_ ->
  monthly_chunks end_ start chunks ->
  Forall (fun c : chunk => valid_datetime c.1 /\ valid_datetime c.2
                           /\ span_us c <= 743 * us_per_hour) chunks.
Proof.
  intros Hs He H. induction H as [s Hlt | s s' rest Hle [Hv' Hu] Hrest IH].
  - constructor; [|constructor]. unfold span_us. cbn [fst snd].
    split_and!; [assumption..|].
    pose proof (month_last_hour_span _ Hs).
    apply dt_lt_iff in Hlt; [|assumption|apply month_last_hour_valid; assumption].
    lia.
  - constructor; [|apply IH; exact Hv'].
    unfold span_us. cbn [fst snd].
    split_and!; [assumption|apply month_last_hour_valid; assumption|].
    apply month_last_hour_span. exact Hs.
Qed.

(** The first day of the month of [a], at midnight, is not after [a]. *)
Lemma month_first_le a :
  valid_datetime a ->
  to_us (mkdatetime (year a) (month a) 1 0 0 0 0) <= to_us a.
Proof.
  intros ((Hy & Hm & Hd) & Hh & Hmi & Hs & Hu).
  unfold to_us, toordinal, seconds_of_day, _ymd2ord; simpl. lia.
Qed.

(** A datetime from the first day of the month of [a] to the end of its
    last hour is of the same month. *)
Lemma same_month a x :
  valid_datetime a -> valid_datetime x ->
  to_us (mkdatetime (year a) (month a) 1 0 0 0 0) <= to_us x ->
  to_us x < to_us (month_last_hour a) + us_per_hour ->
  year x = year a /\ month x = month a.
Proof.
  intros Ha Hx Hlo Hhi.
  pose proof Ha as ((Hya & Hma & Hda) & _).
  pose proof Hx as ((Hyx & Hmx & Hdx) & Hh & Hmi & Hs & Hu).
  pose proof (days_in_month_range (year a) (month a) Hma) as Hdim.
  assert (V1 : valid_date (year a) (month a) 1)
    by (unfold valid_date; lia).
  assert (V2 : valid_date (year a) (month a)
                 (_days_in_month (year a) (month a)))
    by (unfold valid_date; lia).
  assert (Vx : valid_date (year x) (month x) (day x))
    by (unfold valid_date; lia).
  unfold month_last_hour, to_us, toordinal, seconds_of_day, us_per_hour
    in Hlo, Hhi. simpl in Hlo, Hhi.
  assert (Hcmp : (year x < year a \/ (year x = year a /\ month x < month a))
                 \/ (year a < year x \/ (year a = year x /\ month a < month x))
                 \/ (year x = year a /\ month x = month a)) by lia.
  destruct Hcmp as [Hlt|[Hgt|Heq]]; [| |exact Heq]; exfalso.
  - assert (_ymd2ord (year x) (month x) (day x)
            < _ymd2ord (year a) (month a) 1)
      by (apply ymd2ord_lt; [assumption..|]; destruct Hlt as [?|[? ?]];
          [left|right; split; [|left]]; assumption).
    lia.
  - assert (_ymd2ord (year a) (month a) (_days_in_month (year a) (month a))
            < _ymd2ord (year x) (month x) (day x))
      by (apply ymd2ord_lt; [assumption..|]; destruct Hgt as [?|[? ?]];
          [left|right; split; [|left]]; assumption).
    lia.
Qed.

Lemma same_month_last_hour a x :
  year x = year a -> month x = month a ->
  month_last_hour x = month_last_hour a /\ month_index x = month_index a.
Proof. intros Hy Hm. unfold month_last_hour, month_index. rewrite Hy, Hm. auto. Qed.

(** An hour after the last hour of a month the next month starts. *)
Lemma hour_later_next_month a s :
  valid_datetime a -> hour_later (month_last_hour a) s ->
  s = next_month_start a.
Proof.
  intros Ha [Hs Hu].
  assert (Hnl : ~ last_month a).
  { intros [Ey Em]. pose proof (on_calendar_valid _ Hs) as [_ Hmax].
    rewrite Hu in Hmax. unfold month_last_hour in Hmax. rewrite Ey, Em in Hmax.
    vm_compute in Hmax. discriminate Hmax. }
  apply to_us_inj; [assumption|apply next_month_start_valid; assumption|].
  rewrite next_month_start_us by assumption. exact Hu.
Qed.

(** The chunks of a plan start in consecutive months. *)
Lemma monthly_chunks_index end_ start chunks :
  valid_datetime start ->
  monthly_chunks end_ start chunks ->
  forall i c, chunks !! i = Some c ->
              month_index c.1 = month_index start + Z.of_nat i.
Proof.
  intros Hs H. induction H as [s Hlt | s s' rest Hle Hnext Hrest IH].
  - intros [|i] c Hc; [|destruct i; discriminate Hc].
    injection Hc as <-. simpl. lia.
  - intros [|i] c Hc.
    + injection Hc as <-. simpl. lia.
    + pose proof (hour_later_next_month _ _ Hs Hnext) as E.
      rewrite (IH (proj1 Hnext) i c Hc), E, next_month_start_index. lia.
Qed.

(** Where the last chunk of a plan of two chunks or more starts. *)
Lemma monthly_chunks_final end_ start chunks :
  valid_datetime start -> valid_datetime end_ ->
  monthly_chunks end_ start chunks ->
  743 * us_per_hour < to_us end_ - to_us start ->
  exists before s,
    chunks = (before ++ [(s, end_)])%list
    /\ valid_datetime s
    /\ Z.of_nat (length before) = month_index s - month_index start
    /\ (dt_lt end_ s <-> dt_le (month_last_hour end_) end_)
    /\ month_index s
       = month_index end_ + (if dt_ltb end_ s then 1 else 0).
Proof.
  intros Hs He Hplan Hspan.
  destruct (monthly_chunks_shape _ _ _ Hs He Hplan)
    as ((c0 & Hc0 & Hc0s) & (s & Hlast & Hlt) & Hcons).
  pose proof (monthly_chunks_bounds _ _ _ Hs He Hplan) as Hb.
  pose proof (monthly_chunks_index _ _ _ Hs Hplan) as Hidx.
  apply last_Some in Hlast. destruct Hlast as [before ->].
  assert (Hsl : (before ++ [(s, end_)])%list !! length before = Some (s, end_))
    by (apply list_lookup_middle; reflexivity).
  assert (Hvs : valid_datetime s).
  { rewrite Forall_forall in Hb.
    apply (Hb (s, end_)). eapply list_elem_of_lookup_2. exact Hsl. }
  pose proof (month_last_hour_valid _ Hvs) as Hvl.
  pose proof (month_last_hour_valid _ He) as Hvle.
  apply dt_lt_iff in Hlt; [|assumption..].
  exists before, s. split; [reflexivity|]. split; [exact Hvs|].
  split.
  { pose proof (Hidx _ _ Hsl) as Hi. cbn [fst] in Hi.
    unfold chunk in *. lia. }
  rewrite dt_ltb_spec, dt_lt_iff, dt_le_iff by assumption.
  destruct (Z.ltb_spec (to_us end_) (to_us s)) as [Hinv|Hok].
  - (* the end lies before the start of the last chunk *)
    destruct before as [|b before'] using rev_ind.
    { exfalso. simpl in Hc0. injection Hc0 as <-. simpl in Hc0s. subst s.
      pose proof (month_last_hour_span _ Hs). lia. }
    clear IHbefore'.
    assert (Ha : ((before' ++ [b]) ++ [(s, end_)])%list !! length before' = Some b)
      by (rewrite <- app_assoc; apply list_lookup_middle; reflexivity).
    assert (Hsl' : ((before' ++ [b]) ++ [(s, end_)])%list !! S (length before')
                   = Some (s, end_)).
    { rewrite length_app in Hsl. simpl in Hsl.
      replace (S (length before')) with (length before' + 1)%nat by lia.
      exact Hsl. }
    destruct (Hcons _ _ _ Ha Hsl') as (Hb2 & Hle & Hnext & _).
    assert (Hva : valid_datetime b.1).
    { rewrite Forall_forall in Hb.
      apply (Hb b). eapply list_elem_of_lookup_2. exact Ha. }
    simpl in Hnext. rewrite Hb2 in Hnext, Hle.
    pose proof (hour_later_next_month _ _ Hva Hnext) as Es.
    destruct Hnext as [_ Hus].
    pose proof (month_last_hour_valid _ Hva) as Hvla.
    apply dt_le_iff in Hle; [|assumption..].
    pose proof (month_first_le _ Hvla) as Hf. simpl in Hf.
    destruct (same_month b.1 end_ Hva He) as [Ey Em]; [lia..|].
    destruct (same_month_last_hour _ _ Ey Em) as [El Ei].
    rewrite El, Ei. split; [split; intros _; assumption|].
    rewrite Es, next_month_start_index. reflexivity.
  - (* the end lies in the last chunk *)
    pose proof (month_first_le _ Hvs) as Hf.
    destruct (same_month s end_ Hvs He) as [Ey Em];
      [lia|unfold us_per_hour; lia|].
    destruct (same_month_last_hour _ _ Ey Em) as [El Ei].
    rewrite El, Ei. split; [split; intros; lia|lia].
Qed.

Section ChunkedRuns.
Context `{Ext : Externals}.

(** A long range, run as the fetch of its plan. *)
Lemma chunked_run clock place fmisid parameter hours sd ed st
    code start end_ :
  valid_datetime clock -> valid_arg sd -> valid_arg ed ->
  _fmi_inputchecks place fmisid parameter PNone = Ok tt ->
  _get_param_name parameter (PStr "observation") = Ok code ->
  _get_datetime_limits clock sd ed hours = Ok (start, end_) ->
  745 * us_per_hour <= to_us end_ - to_us start ->
  dt_lt end_ last_chunk_limit ->
  valid_datetime start /\ valid_datetime end_
  /\ exists chunks,
       monthly_chunks end_ start chunks
       /\ get_observations clock place fmisid parameter hours sd ed st
          = Some (fetch_chunks (observation_base place fmisid code) chunks
                    (mkDataFrame [] []) st).
Proof.
  intros Hc Hvs Hve Hchk Hpar Hlim Hspan Hend.
  destruct (get_datetime_limits_spec _ _ _ _ _ _ Hc Hvs Hve Hlim)
    as (end0 & _ & _ & Hs & _ & He & _).
  split; [exact Hs|]. split; [exact He|].
  assert (Hlong : (744 <? (to_us end_ - to_us start) / us_per_hour) = true).
  { apply Z.ltb_lt.
    assert (745 <= (to_us end_ - to_us start) / us_per_hour)
      by (apply Z.div_le_lower_bound; unfold us_per_hour in *; lia).
    lia. }
  pose proof (too_long_not_last_month _ _ Hs He Hlong) as Hnl.
  destruct (month_loop_refines (observation_base place fmisid code) end_ He
              Hend max_months (observation_base place fmisid code) start
              (mkDataFrame [] []) st Hs Hnl) as (chunks & Hplan & Hloop).
  { left. reflexivity. }
  { destruct Hs as ((Hy & Hm & _) & _).
    unfold month_index, MINYEAR in *. unfold max_months. lia. }
  exists chunks. split; [exact Hplan|].
  rewrite (get_observations_unfold _ _ _ _ _ _ _ _ _ _ _ Hs He Hchk Hpar Hlim).
  cbv zeta. rewrite Hlong. exact Hloop.
Qed.

(** X11.  Chunking keeps every query within what the provider returns:
    when a range of 745 hours or more is fetched month by month (its end
    before 9999-11-30 23:00), every query that goes out, whatever becomes of
    the call, asks for a stretch of 743 hours at most, between two datetimes
    of the calendar. *)
Theorem chunked_queries_within_limit clock place fmisid parameter hours
    start_date end_date st code start end_ st' r :
  valid_datetime clock -> valid_arg start_date -> valid_arg end_date ->
  _fmi_inputchecks place fmisid parameter PNone = Ok tt ->
  _get_param_name parameter (PStr "observation") = Ok code ->
  _get_datetime_limits clock start_date end_date hours = Ok (start, end_) ->
  745 * us_per_hour <= to_us end_ - to_us start ->
  dt_lt end_ last_chunk_limit ->
  get_observations clock place fmisid parameter hours start_date end_date st
  = Some (st', r) ->
  exists chunks,
    sent st'
    = (sent st
       ++ map (obs_query (observation_base place fmisid code)) chunks)%list
    /\ Forall (fun c : chunk =>
                 valid_datetime c.1 /\ valid_datetime c.2
                 /\ to_us c.2 - to_us c.1 <= 743 * us_per_hour) chunks.
Proof.
  intros Hc Hvs Hve Hchk Hpar Hlim Hspan Hend Hrun.
  destruct (chunked_run clock place fmisid parameter hours start_date
              end_date st code start end_ Hc Hvs Hve Hchk Hpar Hlim Hspan
              Hend) as (Hs & He & chunks & Hplan & Hfetch).
  rewrite Hfetch in Hrun. injection Hrun as Hrun.
  destruct (fetch_chunks_sent_prefix _ _ _ _ _ _ Hrun) as [n Hn].
  exists (take n chunks). split; [exact Hn|].
  apply Forall_take. exact (monthly_chunks_spans _ _ _ Hs He Hplan).
Qed.

(** X12.  How a chunked run ends.  When a range of 745 hours or more is
    fetched month by month and every query succeeds, the last query ends at
    the end of the range.  It starts after that end, so asks for a range
    that is turned round, exactly when the end lies in the last hour of its
    month (23:00 or later on the last day, as for an end date that is the
    last day of a month).  The queries number one for each calendar month
    from that of the start to that of the end, and one more in that
    case. *)
Theorem chunked_run_last_query clock place fmisid parameter hours
    start_date end_date st code start end_ st' df :
  valid_datetime clock -> valid_arg start_date -> valid_arg end_date ->
  _fmi_inputchecks place fmisid parameter PNone = Ok tt ->
  _get_param_name parameter (PStr "observation") = Ok code ->
  _get_datetime_limits clock start_date end_date hours = Ok (start, end_) ->
  745 * us_per_hour <= to_us end_ - to_us start ->
  dt_lt end_ last_chunk_limit ->
  get_observations clock place fmisid parameter hours start_date end_date st
  = Some (st', Ok df) ->
  let base := observation_base place fmisid code in
  exists before s,
    sent st'
    = (sent st ++ map (obs_query base) before ++ [obs_query base (s, end_)])%list
    /\ (dt_lt end_ s <-> dt_le (month_last_hour end_) end_)
    /\ Z.of_nat (length before) + 1
       = month_index end_ - month_index start + 1
         + (if dt_ltb end_ s then 1 else 0).
Proof.
  intros Hc Hvs Hve Hchk Hpar Hlim Hspan Hend Hrun base.
  destruct (chunked_run clock place fmisid parameter hours start_date
              end_date st code start end_ Hc Hvs Hve Hchk Hpar Hlim Hspan
              Hend) as (Hs & He & chunks & Hplan & Hfetch).
  rewrite Hfetch in Hrun. injection Hrun as Hrun.
  destruct (fetch_chunks_sent _ _ _ _ _ _ Hrun) as [Hsent _].
  destruct (monthly_chunks_final _ _ _ Hs He Hplan)
    as (before & s & -> & Hvs' & Hlen & Hinv & Hidx);
    [unfold us_per_hour in *; lia|].
  exists before, s. split_and!.
  - rewrite Hsent, map_app. reflexivity.
  - exact Hinv.
  - unfold chunk in *. lia.
Qed.

End ChunkedRuns.

Lemma chunked_queries_within_limit_witness :
  exists chunks,
    (2 <= length chunks)%nat
    /\ Forall (fun c : chunk =>
                 valid_datetime c.1 /\ valid_datetime c.2
                 /\ to_us c.2 - to_us c.1 <= 743 * us_per_hour) chunks.
Proof.
  pose (base := observation_base (PStr "Helsinki") PNone (PStr "TA_PT1H_AVG")).
  pose (c1 := (mkdatetime 2022 8 15 0 0 0 0, mkdatetime 2022 8 31 23 0 0 0)).
  pose (c2 := (mkdatetime 2022 9 1 0 0 0 0, mkdatetime 2022 9 25 16 0 0 0)).
  destruct (chunked_queries_within_limit Canned.clock (PStr "Helsinki")
              PNone (PStr "temperature") (PInt 1000) (PStr "2022-08-15")
              PNone Canned.fresh (PStr "TA_PT1H_AVG")
              (mkdatetime 2022 8 15 0 0 0 0)
              (mkdatetime 2022 9 25 16 0 0 0)
              (@mkstate Canned.service 2%nat
                 [obs_query base c1; obs_query base c2])
              (Ok (@mkDataFrame Canned.service
                     ["2022-09-01T00:00:00Z"; "2022-09-01T00:00:00Z"]
                     [12; 12])))
    as (chunks & Hsent & Hall).
  - vm_compute. intuition discriminate.
  - exact I.
  - exact I.
  - vm_compute. reflexivity.
  - vm_compute. reflexivity.
  - vm_compute. reflexivity.
  - vm_compute. discriminate.
  - vm_compute. reflexivity.
  - run_closed.
  - exists chunks. split; [|exact Hall].
    apply (f_equal length) in Hsent. cbn [sent Canned.fresh app] in Hsent.
    rewrite length_map in Hsent. simpl in Hsent. lia.
Defined.

Lemma chunked_run_last_query_witness :
  exists (before : list chunk) s,
    length before = 2%nat
    /\ dt_lt (mkdatetime 2022 9 30 23 59 0 0) s.
Proof.
  pose (base := observation_base (PStr "Helsinki") PNone (PStr "TA_PT1H_AVG")).
  pose (c1 := (mkdatetime 2022 8 15 0 0 0 0, mkdatetime 2022 8 31 23 0 0 0)).
  pose (c2 := (mkdatetime 2022 9 1 0 0 0 0, mkdatetime 2022 9 30 23 0 0 0)).
  pose (c3 := (mkdatetime 2022 10 1 0 0 0 0, mkdatetime 2022 9 30 23 59 0 0)).
  destruct (chunked_run_last_query Canned.clock (PStr "Helsinki")
              PNone (PStr "temperature") PNone (PStr "2022-08-15")
              (PStr "2022-09-30") Canned.fresh (PStr "TA_PT1H_AVG")
              (mkdatetime 2022 8 15 0 0 0 0)
              (mkdatetime 2022 9 30 23 59 0 0)
              (@mkstate Canned.service 3%nat
                 [obs_query base c1; obs_query base c2; obs_query base c3])
              (@mkDataFrame Canned.service
                 ["2022-09-01T00:00:00Z"; "2022-09-01T00:00:00Z";
                  "2022-09-01T00:00:00Z"]
                 [12; 12; 12]))
    as (before & s & Hsent & Hinv & Hlen).
  - vm_compute. intuition discriminate.
  - exact I.
  - exact I.
  - vm_compute. reflexivity.
  - vm_compute. reflexivity.
  - vm_compute. reflexivity.
  - vm_compute. discriminate.
  - vm_compute. reflexivity.
  - run_closed.
  - exists before, s.
    assert (Hs : dt_lt (mkdatetime 2022 9 30 23 59 0 0) s).
    { apply Hinv. vm_compute. reflexivity. }
    split; [|exact Hs].
    unfold dt_lt in Hs. rewrite Hs in Hlen.
    change (month_index (mkdatetime 2022 9 30 23 59 0 0)) with 24273 in Hlen.
    change (month_index (mkdatetime 2022 8 15 0 0 0 0)) with 24272 in Hlen.
    lia.
Defined.

(** ** No query for the future *)

Section NoFuture.
Context `{Ext : Externals}.

(** The chunks of the loop end at the requested end or before. *)
Lemma month_loop_ends base end_ fuel :
  valid_datetime end_ ->
  forall params start df st st' r,
    valid_datetime start ->
    stamped base params ->
    month_loop fuel observations_queryid params start end_ df st
    = Some (st', r) ->
    exists cs,
      sent st' = (sent st ++ map (obs_query base) cs)%list
      /\ Forall (fun c : chunk =>
                   valid_datetime c.2 /\ to_us c.2 <= to_us end_) cs.
Proof.
  intros He.
  induction fuel as [|fuel IH]; intros params start df st st' r Hs Hst H;
    [discriminate|].
  cbn [month_loop] in H.
  destruct (last_month_dec start) as [Hl|Hnl].
  { rewrite (month_last_h_overflow _ Hs Hl) in H. injection H as <- <-.
    exists []. rewrite app_nil_r. split; constructor. }
  rewrite (month_last_h_spec _ Hs Hnl) in H.
  pose proof (month_last_hour_valid _ Hs) as Hvl.
  set (lh := month_last_hour start) in *.
  set (be := if dt_ltb end_ lh then end_ else lh).
  assert (Hbe : valid_datetime be /\ to_us be <= to_us end_).
  { subst be. destruct (dt_ltb end_ lh) eqn:Elt; [split; [assumption|lia]|].
    rewrite dt_ltb_spec in Elt by assumption. apply Z.ltb_ge in Elt.
    split; assumption. }
  assert (Hone : forall st1, sent st1
             = (sent st ++ [(observations_queryid, stamp base (start, be))])%list ->
           exists cs,
             sent st1 = (sent st ++ map (obs_query base) cs)%list
             /\ Forall (fun c : chunk =>
                          valid_datetime c.2 /\ to_us c.2 <= to_us end_) cs).
  { intros st1 Hs1. exists [(start, be)]. split; [exact Hs1|].
    constructor; [exact Hbe|constructor]. }
  destruct (dt_ltb end_ lh) eqn:Elt; cbv beta iota zeta in H;
    rewrite (load_obs_stamped _ base params) in H by assumption;
    destruct (_load_obs _ base start _ st) as [st1 [[p more]|err]] eqn:El;
    pose proof (load_obs_sent _ _ _ _ _ _ _ El) as Hs1;
    try (injection H as <- <-; apply Hone; exact Hs1).
  - destruct (td ← timedelta_hours 1; dt_add end_ td);
      injection H as <- <-; apply Hone; exact Hs1.
  - destruct (td ← timedelta_hours 1; dt_add lh td) as [start'|e] eqn:Ea;
      [|injection H as <- <-; apply Hone; exact Hs1].
    pose proof (load_obs_params _ _ _ _ _ _ _ _ El) as ->.
    assert (Hs' : valid_datetime start').
    { change (timedelta_hours 1) with (Ok (mktimedelta 0 3600 0)) in Ea.
      rewrite bind_Ok in Ea. apply (dt_add_spec _ _ _ Hvl Ea). }
    apply IH in H; [|exact Hs'|right; eexists; reflexivity].
    destruct H as (cs & Hsent & Hall).
    exists ((start, be) :: cs). split.
    + rewrite Hsent, Hs1, <- app_assoc. reflexivity.
    + constructor; [exact Hbe|exact Hall].
Qed.

(** X10.  No query of [get_observations] asks for the future: whatever the
    dates and hours of the call, in a single request or chunk by chunk, the
    end time of every query that goes out is a datetime at or before now
    (the clock cut to the minute). *)
Theorem observation_queries_end_by_now clock place fmisid parameter hours
    start_date end_date st st' r code :
  valid_datetime clock -> valid_arg start_date -> valid_arg end_date ->
  _get_param_name parameter (PStr "observation") = Ok code ->
  get_observations clock place fmisid parameter hours start_date end_date st
  = Some (st', r) ->
  exists chunks,
    sent st'
    = (sent st
       ++ map (obs_query (observation_base place fmisid code)) chunks)%list
    /\ Forall (fun c : chunk =>
                 valid_datetime c.2 /\ dt_le c.2 (replace_sec0 clock)) chunks.
Proof.
  intros Hc Hvs Hve Hpar Hrun.
  pose proof (replace_sec0_valid _ Hc) as Hn.
  set (base := observation_base place fmisid code).
  assert (Hnone : exists chunks,
             sent st = (sent st ++ map (obs_query base) chunks)%list
             /\ Forall (fun c : chunk =>
                          valid_datetime c.2
                          /\ dt_le c.2 (replace_sec0 clock)) chunks)
    by (exists []; rewrite app_nil_r; split; constructor).
  destruct (_fmi_inputchecks place fmisid parameter PNone) as [[]|e] eqn:Hchk.
  2:{ unfold get_observations in Hrun. rewrite Hchk in Hrun.
      injection Hrun as <- <-. exact Hnone. }
  destruct (_get_datetime_limits clock start_date end_date hours)
    as [[start end_]|e] eqn:Hlim.
  2:{ unfold get_observations in Hrun. rewrite Hchk, Hpar, Hlim in Hrun.
      injection Hrun as <- <-. exact Hnone. }
  destruct (get_datetime_limits_spec _ _ _ _ _ _ Hc Hvs Hve Hlim)
    as (end0 & _ & _ & Hs & _ & He & Hmin).
  assert (Hle : to_us end_ <= to_us (replace_sec0 clock)) by lia.
  rewrite (get_observations_unfold _ _ _ _ _ _ _ _ _ _ _ Hs He Hchk Hpar Hlim)
    in Hrun.
  cbv zeta in Hrun. fold base in Hrun.
  destruct (744 <? _).
  - apply (month_loop_ends base end_ _ He) in Hrun;
      [|exact Hs|left; reflexivity].
    destruct Hrun as (cs & Hsent & Hall). exists cs. split; [exact Hsent|].
    eapply Forall_impl; [exact Hall|]. intros c [Hv Hc2].
    split; [exact Hv|]. apply dt_le_iff; [assumption..|]. lia.
  - destruct (_load_obs _ _ start end_ st) as [st1 r1] eqn:El.
    pose proof (load_obs_sent _ _ _ _ _ _ _ El) as Hs1.
    exists [(start, end_)]. split.
    + destruct r1 as [[p df]|e]; injection Hrun as <- <-; exact Hs1.
    + constructor; [|constructor]. cbn [snd].
      split; [exact He|]. apply dt_le_iff; assumption.
Qed.

End NoFuture.

Lemma observation_queries_end_by_now_witness :
  exists chunks,
    [obs_query (observation_base (PStr "Helsinki") PNone (PStr "TA_PT1H_AVG"))
       (mkdatetime 2022 10 14 12 30 0 0, mkdatetime 2022 10 15 12 30 0 0)]
    = map (obs_query (observation_base (PStr "Helsinki") PNone
                        (PStr "TA_PT1H_AVG"))) chunks
    /\ Forall (fun c : chunk =>
                 valid_datetime c.2
                 /\ dt_le c.2 (replace_sec0 Canned.clock)) chunks.
Proof.
  apply (observation_queries_end_by_now Canned.clock (PStr "Helsinki") PNone
           (PStr "temperature") (PInt 24) PNone PNone Canned.fresh
           (@mkstate Canned.service 1%nat
              [obs_query
                 (observation_base (PStr "Helsinki") PNone
                    (PStr "TA_PT1H_AVG"))
                 (mkdatetime 2022 10 14 12 30 0 0,
                  mkdatetime 2022 10 15 12 30 0 0)])
           (Ok (@mkDataFrame Canned.service ["2022-09-01T00:00:00Z"] [12]))
           (PStr "TA_PT1H_AVG")).
  - vm_compute. intuition discriminate.
  - exact I.
  - exact I.
  - vm_compute. reflexivity.
  - run_closed.
Defined.

(** ** The script *)

Lemma example_limits clock :
  _get_datetime_limits clock (PStr "2022-09-01") PNone PNone
  = Ok (mkdatetime 2022 9 1 0 0 0 0, replace_sec0 clock).
Proof.
  unfold _get_datetime_limits, initial_limits.
  change (read_date (PStr "2022-09-01") combine_min)
    with (Ok (Some (mkdatetime 2022 9 1 0 0 0 0))).
  change (read_date PNone end_of_day) with (@Ok (option datetime) None).
  rstep.
  change (truthy PNone) with false.
  change (truthy (PStr "2022-09-01")) with true.
  cbn [orb andb negb]. rewrite dt_min_same. reflexivity.
Qed.

Section ExampleScript.
Context `{Ext : Externals}.

(** X17.  The script [example.py], for every reading of the clock and
    every behaviour of the service.  Its arguments pass all the checks, so
    the first call sends its queries: all for the place Helsinki and the
    code TA_PT1H_AVG, the first from 2022-09-01T00:00:00 on.  If that call
    ends in an exception, the script ends with it in the state the call
    left, so with nothing more sent; if it returns a table, the second call
    sends exactly one more query, to harmonie, for station "101533", the
    code WindSpeedMS and the 24 hours from now, and the script ends as that
    call does, with both tables when there are two. *)
Theorem example_queries clock1 clock2 st end_ :
  valid_datetime clock1 -> valid_datetime clock2 ->
  valid_datetime end_ ->
  to_us end_ = to_us (replace_sec0 clock2) + 24 * us_per_hour ->
  exists st1 r1 c chunks,
    get_observations clock1 (PStr "Helsinki") PNone (PStr "temperature")
      PNone (PStr "2022-09-01") PNone st = Some (st1, r1)
    /\ sent st1
       = (sent st
          ++ map (obs_query example_observation_base) (c :: chunks))%list
    /\ c.1 = mkdatetime 2022 9 1 0 0 0 0
    /\ match r1 with
       | Raise e => example clock1 clock2 st = Some (st1, Raise e)
       | Ok temp_df =>
           exists st2 r2,
             get_forecast clock2 PNone (PStr "101533") (PStr "wind_speed")
               default_model (PInt 24) st1 = (st2, r2)
             /\ sent st2 = (sent st1 ++ [example_forecast_query end_])%list
             /\ example clock1 clock2 st
                = Some (st2,
                        wind_forecast ← r2; Ok (temp_df, wind_forecast))
       end.
Proof.
  intros Hc1 Hc2 He Hus.
  pose proof (replace_sec0_valid _ Hc2) as Hn.
  destruct (get_observations_total clock1 (PStr "Helsinki") PNone
              (PStr "temperature") PNone (PStr "2022-09-01") PNone st
              Hc1 I I) as [[st1 r1] Hrun].
  destruct (get_observations_queries clock1 (PStr "Helsinki") PNone
              (PStr "temperature") PNone (PStr "2022-09-01") PNone st
              (PStr "TA_PT1H_AVG") (mkdatetime 2022 9 1 0 0 0 0)
              (replace_sec0 clock1) st1 r1 Hc1 I I)
    as (c & chunks & Hsent & Hst); [|exact Hrun|].
  { unfold observation_preflight. rewrite example_limits. reflexivity. }
  change (observation_base (PStr "Helsinki") PNone (PStr "TA_PT1H_AVG"))
    with example_observation_base in Hsent.
  exists st1, r1, c, chunks.
  split; [exact Hrun|]. split; [exact Hsent|]. split; [exact Hst|].
  unfold example. rewrite Hrun.
  destruct r1 as [temp_df|e]; [|reflexivity].
  assert (Hfc : exists w res,
    get_forecast clock2 PNone (PStr "101533") (PStr "wind_speed")
      default_model (PInt 24) st1
    = (mkstate w (sent st1 ++ [example_forecast_query end_]), res)).
  { rewrite get_forecast_unfold.
    change (_fmi_inputchecks PNone (PStr "101533") (PStr "wind_speed")
              default_model) with (Ok tt).
    change (_get_param_name (PStr "wind_speed") (PStr "forecast"))
      with (Ok (PStr "WindSpeedMS")).
    change (timedelta_of_hours (forecast_hours default_model (PInt 24)))
      with (Ok (mktimedelta 1 0 0)).
    cbv beta iota.
    rewrite (dt_add_intro _ (mktimedelta 1 0 0) end_ Hn He)
      by (rewrite Hus; reflexivity).
    cbv zeta.
    change (forecast_queryid default_model,
            forecast_params PNone (PStr "101533") (PStr "WindSpeedMS") end_)
      with (example_forecast_query end_).
    destruct (wfs_getfeature _ _ _) as [w res]. eauto. }
  destruct Hfc as (w & res & Hfc). rewrite Hfc.
  eexists _, _. split; [reflexivity|]. split; [reflexivity|].
  destruct res; reflexivity.
Qed.

End ExampleScript.

Lemma example_queries_witness :
  exists st1 r1 c chunks,
    get_observations Canned.clock (PStr "Helsinki") PNone (PStr "temperature")
      PNone (PStr "2022-09-01") PNone Canned.fresh = Some (st1, r1)
    /\ sent st1
       = (sent Canned.fresh
          ++ map (obs_query example_observation_base) (c :: chunks))%list
    /\ c.1 = mkdatetime 2022 9 1 0 0 0 0
    /\ match r1 with
       | Raise e =>
           example Canned.clock Canned.clock Canned.fresh
           = Some (st1, Raise e)
       | Ok temp_df =>
           exists st2 r2,
             get_forecast Canned.clock PNone (PStr "101533")
               (PStr "wind_speed") default_model (PInt 24) st1 = (st2, r2)
             /\ sent st2
                = (sent st1
                   ++ [example_forecast_query
                         (mkdatetime 2022 10 16 12 30 0 0)])%list
             /\ example Canned.clock Canned.clock Canned.fresh
                = Some (st2,
                        wind_forecast ← r2; Ok (temp_df, wind_forecast))
       end.
Proof.
  apply (example_queries Canned.clock Canned.clock Canned.fresh
           (mkdatetime 2022 10 16 12 30 0 0)).
  - vm_compute. intuition discriminate.
  - vm_compute. intuition discriminate.
  - vm_compute. intuition discriminate.
  - vm_compute. reflexivity.
Defined.
